(** * Shallow embedding of the media-generation scripts

    Two command-line scripts are modelled:

    - [scripts/batch_generate.py], which posts a prompt [count] times to an
      image API and stores every response body in a numbered file;
    - [cluster-config/apps/llm/scripts/generate_wan_t2v.py], which builds a
      ComfyUI node graph, submits it, polls the history endpoint and downloads
      the reported files, optionally behind a [kubectl port-forward] child.

    Values decoded from JSON are a first-order data type with Python's
    truthiness and lookup rules; exceptions are an explicit outcome; paths
    are joined as [pathlib] joins them; the network, the clock, the entropy
    source, the child process, the disk (what opening a file for writing
    raises) and the timer (what a very long sleep raises) are an
    environment of oracles, and every observable action is appended to a
    trace carried by the state.  Creating a directory succeeds. *)

From Stdlib Require Import ZArith List String Ascii Bool Lia PrimFloat.
From Stdlib Require Import Decimal DecimalString DecimalNat.
Import ListNotations.
Set Warnings "-register-all".
Local Open Scope string_scope.
Local Open Scope list_scope.

(** ** Python values as decoded by [json.loads] *)

Inductive json : Type :=
| JNull
| JBool (b : bool)
| JInt (z : Z)
| JFloat (f : float)
| JStr (s : string)
| JList (l : list json)
| JDict (d : list (string * json)).

(** A dictionary with string keys, in insertion order. *)
Definition dict : Type := list (string * json).

Fixpoint dict_get (d : dict) (k : string) : option json :=
  match d with
  | [] => None
  | (k', v) :: d' => if String.eqb k k' then Some v else dict_get d' k
  end.

Definition dict_mem (d : dict) (k : string) : bool :=
  match dict_get d k with Some _ => true | None => false end.

(** [d[k] = v]: an existing key keeps its position, a new key goes last. *)
Fixpoint dict_set (d : dict) (k : string) (v : json) : dict :=
  match d with
  | [] => [(k, v)]
  | (k', v') :: d' =>
      if String.eqb k k' then (k', v) :: d' else (k', v') :: dict_set d' k v
  end.

Definition dict_values (d : dict) : list json := map snd d.
Definition dict_keys (d : dict) : list string := map fst d.

(** Python's [bool(v)]. *)
Definition truthy (v : json) : bool :=
  match v with
  | JNull => false
  | JBool b => b
  | JInt z => negb (Z.eqb z 0)
  | JFloat f => negb (PrimFloat.eqb f 0%float)
  | JStr s => negb (String.eqb s "")
  | JList l => match l with [] => false | _ :: _ => true end
  | JDict d => match d with [] => false | _ :: _ => true end
  end.

(** [a or b]. *)
Definition py_or (a b : json) : json := if truthy a then a else b.

(** ** Exceptions and outcomes *)

(** The argument of a [RuntimeError], kept structured where the script
    formats a value into the message. *)
Inductive message : Type :=
| Text (s : string)
| GenerationFailed (detail : string)      (* "Generation failed: " + joined messages *)
| GenerationFailedStatus (status : json)  (* "Generation failed: " + str(status) *)
| ServerError (err : json)                (* RuntimeError(resp["error"]) *)
| UnexpectedResponse (resp : json).

Inductive exn : Type :=
| RuntimeError (m : message)
| TimeoutError (s : string)
| SystemExit (s : string)
| SystemExitCode (code : Z)   (* [sys.exit(code)], as [argparse] does on an error *)
| TypeError
| AttributeError
| KeyError (k : string)
| ValueError
| OverflowError
| TransportError     (* URLError, HTTPError, socket timeout, JSONDecodeError *)
| HTTPError (status : Z)
| ConnectionError
| OSError
| IsADirectoryError
| TimeoutExpired.

Inductive outcome (A : Type) : Type :=
| Return (a : A)
| Raise (e : exn)
| OutOfFuel.
Arguments Return {A} a.
Arguments Raise {A} e.
Arguments OutOfFuel {A}.

Definition obind {A B} (o : outcome A) (k : A -> outcome B) : outcome B :=
  match o with
  | Return a => k a
  | Raise e => Raise e
  | OutOfFuel => OutOfFuel
  end.

Declare Scope pure_scope.
Delimit Scope pure_scope with pure.
Notation "x <~ m ;; k" := (obind m (fun x => k))
  (at level 61, m at next level, right associativity) : pure_scope.

(** [v.get(k)] and [v.get(k, default)]: only dictionaries have [get]. *)
Definition py_get_default (v : json) (k : string) (dflt : json) : outcome json :=
  match v with
  | JDict d => Return (match dict_get d k with Some x => x | None => dflt end)
  | _ => Raise AttributeError
  end.

Definition py_get (v : json) (k : string) : outcome json :=
  py_get_default v k JNull.

(** [d[k]] on a dictionary. *)
Definition dict_item (d : dict) (k : string) : outcome json :=
  match dict_get d k with
  | Some x => Return x
  | None => Raise (KeyError k)
  end.

(** [v[k]] with a string key on any decoded value. *)
Definition py_item (v : json) (k : string) : outcome json :=
  match v with
  | JDict d => dict_item d k
  | _ => Raise TypeError
  end.

(** [for x in v]: lists yield their elements, strings their characters,
    dictionaries their keys; nothing else is iterable. *)
Definition chars (s : string) : list json :=
  map (fun c => JStr (String c "")) (list_ascii_of_string s).

Definition py_iter (v : json) : outcome (list json) :=
  match v with
  | JList l => Return l
  | JStr s => Return (chars s)
  | JDict d => Return (map JStr (dict_keys d))
  | _ => Raise TypeError
  end.

(** [sep.join(items)]: every item must be a string. *)
Fixpoint str_join (sep : string) (items : list json) : outcome string :=
  match items with
  | [] => Return ""
  | JStr s :: rest =>
      match rest with
      | [] => Return s
      | _ :: _ => obind (str_join sep rest) (fun t => Return (s ++ sep ++ t)%string)
      end
  | _ :: _ => Raise TypeError
  end.

(** [v == s] for a decoded value [v] and a string [s]. *)
Definition str_eq (v : json) (s : string) : bool :=
  match v with JStr t => String.eqb t s | _ => false end.

(** [s in l] for a string [s] and a list [l] of decoded values. *)
Definition str_in_list (s : string) (l : list json) : bool :=
  existsb (fun x => match x with JStr t => String.eqb s t | _ => false end) l.

(** ** Formatting *)

(** [str(n)] for a natural number and for an integer. *)
Definition str_of_nat (n : nat) : string :=
  NilEmpty.string_of_uint (Nat.to_uint n).

Definition str_of_Z (z : Z) : string :=
  NilZero.string_of_int (Z.to_int z).

(** The format [{n:02d}]: decimal digits, padded with a zero to two places. *)
Definition fmt02d (n : nat) : string :=
  let s := str_of_nat n in
  if Nat.ltb (String.length s) 2 then ("0" ++ s)%string else s.

(** Reading a run of decimal digits back; leading zeros are ignored. *)
Definition nat_of_digits (s : string) : option nat :=
  option_map Nat.of_uint (NilEmpty.uint_of_string s).

(** ** Paths

    A [pathlib.PurePosixPath] is the tuple of its [parts]: for an absolute
    path the anchor ["/"] (or ["//"]) comes first, then the components.
    Parsing a string drops empty components and components ["."], and keeps
    [".."]. *)
Definition path : Type := list string.

(** [lacks c s]: the character [c] does not occur in [s]. *)
Fixpoint lacks (c : ascii) (s : string) : bool :=
  match s with
  | EmptyString => true
  | String a s' => (negb (Ascii.eqb a c) && lacks c s')%bool
  end.

(** [s.split("/")], with [acc] the component being read. *)
Fixpoint components (s : string) (acc : string) : list string :=
  match s with
  | EmptyString => [acc]
  | String c s' =>
      if Ascii.eqb c "/"%char then acc :: components s' ""
      else components s' (acc ++ String c "")%string
  end.

Definition kept_component (seg : string) : bool :=
  (negb (String.eqb seg "") && negb (String.eqb seg "."))%bool.

Definition path_parts (s : string) : list string :=
  filter kept_component (components s "").

(** The anchor of a string: exactly two leading slashes are kept as ["//"],
    any other number of leading slashes is ["/"]. *)
Definition anchor (s : string) : list string :=
  match s with
  | String "/" (String "/" (String "/" _)) => ["/"]
  | String "/" (String "/" _) => ["//"]
  | String "/" _ => ["/"]
  | _ => []
  end.

(** [dir / name]: an absolute [name] replaces [dir]. *)
Definition path_div (dir : path) (name : string) : path :=
  match anchor name with
  | [] => dir ++ path_parts name
  | root => root ++ path_parts name
  end.

(** [p.name]: the last component, empty for a bare anchor and for [Path(".")]. *)
Definition path_name (p : path) : string :=
  match last p "" with
  | String "/" _ => ""
  | l => l
  end.

Fixpoint path_eqb (p q : path) : bool :=
  match p, q with
  | [], [] => true
  | a :: p', b :: q' => (String.eqb a b && path_eqb p' q')%bool
  | _, _ => false
  end.

(** A name that is a single component: [dir / name] is [dir] followed by
    [name], an entry of the directory [dir] itself. *)
Definition plain_name (name : string) : bool :=
  (lacks "/"%char name && negb (String.eqb name "")
   && negb (String.eqb name ".") && negb (String.eqb name ".."))%bool.

(** ** A state and exception monad *)

Definition M (S A : Type) : Type := S -> outcome A * S.

Definition ret {S A} (a : A) : M S A := fun s => (Return a, s).

Definition bind {S A B} (m : M S A) (k : A -> M S B) : M S B :=
  fun s =>
    match m s with
    | (Return a, s') => k a s'
    | (Raise e, s') => (Raise e, s')
    | (OutOfFuel, s') => (OutOfFuel, s')
    end.

Definition raise {S A} (e : exn) : M S A := fun s => (Raise e, s).

Definition out_of_fuel {S A} : M S A := fun s => (OutOfFuel, s).

(** A pure, possibly failing, computation run inside the monad. *)
Definition lift {S A} (o : outcome A) : M S A := fun s => (o, s).

Definition get_state {S} : M S S := fun s => (Return s, s).

Definition modify {S} (f : S -> S) : M S unit := fun s => (Return tt, f s).

Declare Scope monad_scope.
Delimit Scope monad_scope with monad.
Notation "x <- m ;; k" := (bind m (fun x => k))
  (at level 61, m at next level, right associativity) : monad_scope.
Notation "m ;;; k" := (bind m (fun _ => k))
  (at level 61, right associativity) : monad_scope.

(** [try: body finally: fin].  The cleanup runs after a return and after an
    exception; an exception raised by the cleanup replaces the pending one.
    A body that never finishes never reaches the cleanup. *)
Definition try_finally {S A} (body : M S A) (fin : M S unit) : M S A :=
  fun s =>
    match body s with
    | (OutOfFuel, s') => (OutOfFuel, s')
    | (r, s') =>
        match fin s' with
        | (Return _, s'') => (r, s'')
        | (Raise e, s'') => (Raise e, s'')
        | (OutOfFuel, s'') => (OutOfFuel, s'')
        end
    end.

(** [except Exception] catches everything but [SystemExit]. *)
Definition is_Exception (e : exn) : bool :=
  match e with SystemExit _ | SystemExitCode _ => false | _ => true end.

Definition try_except {S A} (body : M S A) (handler : M S A) : M S A :=
  fun s =>
    match body s with
    | (Raise e, s') => if is_Exception e then handler s' else (Raise e, s')
    | r => r
    end.

(** * [scripts/batch_generate.py] *)

Module Batch.

(** What [session.post] hands back: the status line and the body.  Console
    output, and with it the [X-Gen-Time] header that is only printed, is not
    part of the model; directory creation succeeds. *)
Record response : Type := { status_code : Z; content : string }.

Inductive post_result : Type :=
| Responded (r : response)
| NoResponse.                     (* connection failure or the 600 s timeout *)

Inductive event : Type :=
| EvMkdir (dir : path)
| EvPost (url : string) (payload : json)
| EvWrite (target : path) (data : string)
| EvSleep (secs : float).

Record state : Type := { posts : nat; trace : list event }.

Definition initial : state := {| posts := 0; trace := [] |}.

Definition emit (e : event) : M state unit :=
  modify (fun s => {| posts := posts s; trace := trace s ++ [e] |}).

(** [resp.raise_for_status()]: an error for the 4xx and 5xx classes only. *)
Definition raise_for_status (r : response) : M state unit :=
  if (Z.leb 400 (status_code r) && Z.ltb (status_code r) 600)%bool
  then raise (HTTPError (status_code r))
  else ret tt.

(** The longest sleep every platform accepts, in seconds, and the first
    number of nanoseconds that does not fit the clock's 64-bit counter. *)
Definition safe_sleep : float := 1000000000%float.
Definition clock_range : float := 9223372036854775808%float.

Section Generate.

(** The server: the answer to the [i]-th POST of the session. *)
Variable server : nat -> post_result.

(** The disk: what opening a path for writing raises, if anything (a missing
    parent directory, a directory of that name, missing permissions). *)
Variable disk : path -> option exn.

(** The timer: what the platform raises for a sleep longer than [safe_sleep]
    that still fits the clock. *)
Variable timer : float -> option exn.

Variables (prompt : string) (steps : Z) (url : string) (out_dir : path)
          (prefix : string) (count : Z) (delay : float).

(** [target.write_bytes(data)] once [out_dir] has been made: the directory
    itself cannot be opened as a file. *)
Definition write_error (target : path) : option exn :=
  if path_eqb target out_dir then Some IsADirectoryError else disk target.

Definition write_bytes (target : path) (data : string) : M state unit :=
  match write_error target with
  | Some x => raise x
  | None => emit (EvWrite target data)
  end.

(** [time.sleep(d)]: not-a-number and negative durations are a
    [ValueError], a duration whose nanoseconds leave the 64-bit range is an
    [OverflowError]. *)
Definition sleep_error (d : float) : option exn :=
  if negb (PrimFloat.eqb d d) then Some ValueError
  else if (PrimFloat.ltb clock_range (d * 1000000000)
           || PrimFloat.ltb (d * 1000000000) (- clock_range))%bool
  then Some OverflowError
  else if PrimFloat.ltb d 0 then Some ValueError
  else if PrimFloat.leb d safe_sleep then None
  else timer d.

Definition time_sleep (d : float) : M state unit :=
  match sleep_error d with
  | Some x => raise x
  | None => emit (EvSleep d)
  end.

Definition session_post (payload : json) : M state response :=
  fun s =>
    let s' := {| posts := S (posts s);
                 trace := trace s ++ [EvPost url payload] |} in
    match server (posts s) with
    | Responded r => (Return r, s')
    | NoResponse => (Raise ConnectionError, s')
    end.

Definition file_name (idx : nat) : string :=
  (prefix ++ "_" ++ fmt02d idx ++ ".png")%string.

Definition payload : json :=
  JDict [("prompt", JStr prompt); ("steps", JInt steps)].

Fixpoint generate_loop (idxs : list nat) : M state unit :=
  match idxs with
  | [] => ret tt
  | idx :: rest =>
      (let name := file_name idx in
       let target := path_div out_dir name in
       resp <- session_post payload ;;
       raise_for_status resp ;;;
       write_bytes target (content resp) ;;;
       (if (PrimFloat.ltb 0 delay && negb (Z.eqb (Z.of_nat idx) count))%bool
        then time_sleep delay else ret tt) ;;;
       generate_loop rest)%monad
  end.

(** [for idx in range(1, count + 1)]. *)
Definition generate : M state unit :=
  (emit (EvMkdir out_dir) ;;;
   generate_loop (seq 1 (Z.to_nat count)))%monad.

End Generate.

(** The files written, in order, and the content a path ends up with. *)
Definition writes (tr : list event) : list (path * string) :=
  flat_map (fun e => match e with EvWrite p d => [(p, d)] | _ => [] end) tr.

Definition posted (tr : list event) : list (string * json) :=
  flat_map (fun e => match e with EvPost u p => [(u, p)] | _ => [] end) tr.

Fixpoint last_write (ws : list (path * string)) (p : path) : option string :=
  match ws with
  | [] => None
  | (q, d) :: ws' =>
      match last_write ws' p with
      | Some d' => Some d'
      | None => if list_eq_dec string_dec q p then Some d else None
      end
  end.

Definition file_content (tr : list event) (p : path) : option string :=
  last_write (writes tr) p.

(** The body of the [i]-th response, when there is one. *)
Definition body_of (server : nat -> post_result) (i : nat) : string :=
  match server i with Responded r => content r | NoResponse => "" end.

(** A response that lets the loop go on, and one that stops it. *)
Definition accepted (p : post_result) : bool :=
  match p with
  | Responded r => negb (Z.leb 400 (status_code r) && Z.ltb (status_code r) 600)
  | NoResponse => false
  end.

Definition is_2xx (r : response) : bool :=
  (Z.leb 200 (status_code r) && Z.ltb (status_code r) 300)%bool.

(** The writes of a run whose first [k] responses were accepted. *)
Definition expected_writes (server : nat -> post_result) (out_dir : path)
           (prefix : string) (k : nat) : list (path * string) :=
  map (fun i => (path_div out_dir (file_name prefix (S i)), body_of server i))
      (seq 0 k).

Definition failure_of (p : post_result) : exn :=
  match p with
  | Responded r => HTTPError (status_code r)
  | NoResponse => ConnectionError
  end.

End Batch.

(** * [cluster-config/apps/llm/scripts/generate_wan_t2v.py] *)

Module Wan.

(** ** The request builder

    Python passes the arguments untyped, so they are decoded values here;
    the three [include_*] flags are tested for truthiness. *)
Section BuildPrompt.

Context {S : Type}.

Variables (prompt_text negative_text seed width height frames steps cfg
           sampler scheduler denoise clip_name unet_name vae_name fps_webm
           fps_webp filename_prefix include_webm include_webp
           include_images : json).

Definition link (node : string) : json := JList [JStr node; JInt 0].

Definition node (class_type : string) (inputs : dict) : json :=
  JDict [("class_type", JStr class_type); ("inputs", JDict inputs)].

Definition base_graph : dict :=
  [ ("37", node "UNETLoader"
             [("unet_name", unet_name); ("weight_dtype", JStr "default")]);
    ("38", node "CLIPLoader"
             [("clip_name", clip_name); ("type", JStr "wan");
              ("device", JStr "default")]);
    ("39", node "VAELoader" [("vae_name", vae_name)]);
    ("40", node "EmptyHunyuanLatentVideo"
             [("width", width); ("height", height); ("length", frames);
              ("batch_size", JInt 1)]);
    ("6", node "CLIPTextEncode"
            [("clip", link "38"); ("text", prompt_text)]);
    ("7", node "CLIPTextEncode"
            [("clip", link "38"); ("text", negative_text)]);
    ("3", node "KSampler"
            [("model", link "37"); ("positive", link "6");
             ("negative", link "7"); ("latent_image", link "40");
             ("seed", seed); ("steps", steps); ("cfg", cfg);
             ("sampler_name", sampler); ("scheduler", scheduler);
             ("denoise", denoise)]);
    ("8", node "VAEDecode" [("samples", link "3"); ("vae", link "39")]) ].

Definition webp_node : json :=
  node "SaveAnimatedWEBP"
    [("images", link "8"); ("filename_prefix", filename_prefix);
     ("fps", fps_webp); ("lossless", JBool false); ("quality", JInt 90);
     ("method", JStr "default")].

Definition webm_node : json :=
  node "SaveWEBM"
    [("images", link "8"); ("filename_prefix", filename_prefix);
     ("codec", JStr "vp9"); ("fps", fps_webm); ("crf", JInt 32)].

Definition image_node : json :=
  node "SaveImage"
    [("images", link "8"); ("filename_prefix", filename_prefix)].

(** [prompt[k] = v] as a statement. *)
Definition set_item (d : dict) (k : string) (v : json) : M S dict :=
  ret (dict_set d k v).

Definition build_prompt : M S json :=
  (let prompt := base_graph in
   prompt <- (if truthy include_webp
              then set_item prompt "28" webp_node else ret prompt) ;;
   prompt <- (if truthy include_webm
              then set_item prompt "47" webm_node else ret prompt) ;;
   prompt <- (if truthy include_images
              then set_item prompt "10" image_node else ret prompt) ;;
   ret (JDict prompt))%monad.

End BuildPrompt.

(** ** The environment and the state of a run *)

Inductive endpoint : Type :=
| Queue
| ObjectInfo
| Prompt
| History (prompt_id : json)
| View (filename subfolder file_type : json).

Inductive reply : Type :=
| Body (d : dict)      (* a 2xx response whose body decodes to a JSON object *)
| Unavailable.         (* connection error, HTTP error status, malformed JSON *)

Inductive port_reading : Type :=
| PortInvalid          (* [parsed.port] raises ValueError *)
| PortAbsent
| PortNumber (p : Z).

(** The oracles a run consults.  Network calls are numbered in the order the
    script makes them; the clock counts ticks, [hz] of them to the second.
    [open_error] is the state of the disk: what opening a path for writing
    raises, if anything (a missing parent directory, a directory of that
    name, missing permissions).  [timer_error] is what the platform raises
    for a sleep of more than [safe_sleep] seconds that still fits the
    clock. *)
Record env : Type := {
  hz : positive;
  reply_of : nat -> reply;
  latency_of : nat -> N;
  entropy : nat -> N;
  kubectl_starts : bool;
  child_exits : bool;
  url_port : string -> port_reading;
  resolve : string -> path;
  timestamp : string;
  open_error : path -> option exn;   (* what opening a path for writing raises *)
  timer_error : Z -> option exn      (* what a very long sleep raises *)
}.

Definition seconds (e : env) (n : Z) : Z := (n * Z.pos (hz e))%Z.

(** The longest sleep every platform accepts, in seconds, and the largest
    number of nanoseconds the clock's 64-bit counter holds. *)
Definition safe_sleep : Z := 10 ^ 9.
Definition clock_max : Z := 2 ^ 63 - 1.

Inductive event : Type :=
| EvRequest (base_url : string) (ep : endpoint) (payload : option json)
| EvSleep (ticks : Z)
| EvMkdir (dir : path)
| EvSaved (dest : path)
| EvWriteText (target : path) (text : string)
| EvPopen (cmd : list string)
| EvTerminate
| EvWait.

Record world : Type := {
  now : Z;
  net_calls : nat;
  draws : nat;
  port_forward_proc : bool;     (* the local variable: [None] or the child *)
  trace : list event
}.

Definition initial (t0 : Z) : world :=
  {| now := t0; net_calls := 0; draws := 0; port_forward_proc := false;
     trace := [] |}.

Definition emit (ev : event) : M world unit :=
  modify (fun w => {| now := now w; net_calls := net_calls w;
                      draws := draws w;
                      port_forward_proc := port_forward_proc w;
                      trace := trace w ++ [ev] |}).

(** ** String helpers of [os.path] and [pathlib] *)

Fixpoint rfind_from (c : ascii) (s : string) (i : nat) (found : option nat)
  : option nat :=
  match s with
  | EmptyString => found
  | String a s' =>
      rfind_from c s' (Datatypes.S i) (if Ascii.eqb a c then Some i else found)
  end.

(** [s.rfind(c)], with [None] for Python's [-1]. *)
Definition rfind (c : ascii) (s : string) : option nat := rfind_from c s 0 None.

Fixpoint all_dots (s : string) : bool :=
  match s with
  | EmptyString => true
  | String a s' => (Ascii.eqb a "."%char && all_dots s')%bool
  end.

(** [os.path.splitext(p)[1]] for POSIX paths. *)
Definition splitext_ext (p : string) : string :=
  match rfind "."%char p with
  | None => ""
  | Some dot =>
      let start :=
        match rfind "/"%char p with None => 0 | Some sep => Datatypes.S sep end in
      if Nat.leb start dot
      then if all_dots (substring start (dot - start) p) then ""
           else substring dot (String.length p - dot) p
      else ""
  end.

(** [pathlib]'s [suffix] of a final segment. *)
Definition suffix (name : string) : string :=
  match rfind "."%char name with
  | None => ""
  | Some i =>
      if (Nat.ltb 0 i && Nat.ltb i (String.length name - 1))%bool
      then substring i (String.length name - i) name else ""
  end.

Definition lower_ascii (c : ascii) : ascii :=
  let n := nat_of_ascii c in
  if (Nat.leb 65 n && Nat.leb n 90)%bool then ascii_of_nat (n + 32) else c.

(** [s.lower()] on the ASCII range. *)
Fixpoint lower (s : string) : string :=
  match s with
  | EmptyString => EmptyString
  | String a s' => String (lower_ascii a) (lower s')
  end.

Definition str_in (s : string) (l : list string) : bool :=
  existsb (String.eqb s) l.

(** ** Reading the server's answers (pure) *)

Definition extract_option_list (node_info : dict) (node_name input_name : string)
  : outcome (list json) :=
  (node <~ py_get_default (JDict node_info) node_name (JDict []) ;;
   input <~ py_get_default node "input" (JDict []) ;;
   inputs <~ py_get_default input "required" (JDict []) ;;
   spec <~ py_get inputs input_name ;;
   if negb (truthy spec) then Return []
   else match spec with
        | JList (JList first :: _) => Return first
        | JList l => Return l
        | _ => Return []
        end)%pure.

(** [prompt_id in resp] for a dictionary [resp] with string keys: lists and
    dictionaries are unhashable, other non-strings match no key. *)
Definition dict_contains (resp : dict) (key : json) : outcome bool :=
  match key with
  | JStr k => Return (dict_mem resp k)
  | JList _ | JDict _ => Raise TypeError
  | _ => Return false
  end.

Definition dict_item_at (resp : dict) (key : json) : outcome json :=
  match key with
  | JStr k => dict_item resp k
  | JList _ | JDict _ => Raise TypeError
  | _ => Raise (KeyError "")
  end.

(** The items of one output list that are dictionaries with a filename. *)
Definition named_items (items : list json) : list json :=
  filter (fun item =>
            match item with JDict d => dict_mem d "filename" | _ => false end)
         items.

Fixpoint output_files (output : json) (keys : list string)
  : outcome (list json) :=
  match keys with
  | [] => Return []
  | key :: keys' =>
      (items <~ py_get output key ;;
       if negb (truthy items) then output_files output keys'
       else (its <~ py_iter items ;;
             rest <~ output_files output keys' ;;
             Return (named_items its ++ rest)))%pure
  end.

Fixpoint outputs_files (outputs : list json) : outcome (list json) :=
  match outputs with
  | [] => Return []
  | output :: outputs' =>
      (here <~ output_files output ["images"; "videos"; "gifs"] ;;
       rest <~ outputs_files outputs' ;;
       Return (here ++ rest))%pure
  end.

Definition extract_files (history_entry : json) : outcome (list json) :=
  (o <~ py_get history_entry "outputs" ;;
   match py_or o (JDict []) with
   | JDict outputs => outputs_files (dict_values outputs)
   | _ => Raise AttributeError
   end)%pure.

(** ** Effects *)

Definition time_time : M world Z := fun w => (Return (now w), w).

Definition set_port_forward_proc (b : bool) : M world unit :=
  modify (fun w => {| now := now w; net_calls := net_calls w;
                      draws := draws w; port_forward_proc := b;
                      trace := trace w |}).

Section Run.

Variable e : env.

(** [time.sleep(d)] for a duration of [d] ticks: a duration whose
    nanoseconds leave the 64-bit range is an [OverflowError], a negative one
    a [ValueError]. *)
Definition sleep_error (d : Z) : option exn :=
  if (Z.ltb (clock_max * Z.pos (hz e)) (d * 10 ^ 9)
      || Z.ltb (d * 10 ^ 9) (- (clock_max + 1) * Z.pos (hz e)))%bool
  then Some OverflowError
  else if Z.ltb d 0 then Some ValueError
  else if Z.leb d (seconds e safe_sleep) then None
  else timer_error e d.

Definition sleep (d : Z) : M world unit :=
  fun w =>
    match sleep_error d with
    | Some x => (Raise x, w)
    | None =>
        (Return tt,
         {| now := (now w + d)%Z; net_calls := net_calls w; draws := draws w;
            port_forward_proc := port_forward_proc w;
            trace := trace w ++ [EvSleep d] |})
    end.

(** Opening [dest] for writing when [dir] is known to be a directory: the
    directory itself, and its parent [dir/..], cannot be opened as files. *)
Definition write_error (dir dest : path) : option exn :=
  if (path_eqb dest dir || path_eqb dest (dir ++ [".."]))%bool
  then Some IsADirectoryError
  else open_error e dest.

(** One exchange with the server: the clock moves by the latency of the
    call and the call is recorded. *)
Definition net_call (base_url : string) (ep : endpoint)
           (payload : option json) : M world reply :=
  fun w =>
    let i := net_calls w in
    (Return (reply_of e i),
     {| now := (now w + Z.of_N (latency_of e i))%Z;
        net_calls := Datatypes.S i; draws := draws w;
        port_forward_proc := port_forward_proc w;
        trace := trace w ++ [EvRequest base_url ep payload] |}).

Definition request_json (base_url : string) (ep : endpoint)
           (payload : option json) : M world dict :=
  (r <- net_call base_url ep payload ;;
   match r with
   | Body d => ret d
   | Unavailable => raise TransportError
   end)%monad.

(** [random_gen.randrange(lo, hi)]. *)
Definition randrange (lo hi : Z) : M world Z :=
  fun w =>
    if Z.leb hi lo then (Raise ValueError, w)
    else (Return (lo + Z.of_N (entropy e (draws w)) mod (hi - lo))%Z,
          {| now := now w; net_calls := net_calls w;
             draws := Datatypes.S (draws w);
             port_forward_proc := port_forward_proc w;
             trace := trace w |}).

Definition is_server_reachable (base_url : string) : M world bool :=
  try_except (request_json base_url Queue None ;;; ret true)%monad
             (ret false).

Fixpoint wait_for_server_loop (fuel : nat) (base_url : string)
         (deadline : Z) : M world bool :=
  match fuel with
  | O => out_of_fuel
  | Datatypes.S fuel' =>
      (t <- time_time ;;
       if Z.ltb t deadline then
         (ok <- is_server_reachable base_url ;;
          if ok then ret true
          else sleep (seconds e 1) ;;;
               wait_for_server_loop fuel' base_url deadline)
       else ret false)%monad
  end.

Definition wait_for_server (fuel : nat) (base_url : string) (timeout : Z)
  : M world bool :=
  (t <- time_time ;;
   wait_for_server_loop fuel base_url (t + timeout))%monad.

Definition port_forward_cmd (namespace deployment : string) (local_port : Z)
  : list string :=
  ["kubectl"; "port-forward"; "-n"; namespace;
   ("deploy/" ++ deployment)%string;
   (str_of_Z local_port ++ ":8181")%string;
   "--address"; "127.0.0.1"].

(** [subprocess.Popen]: fails when the executable cannot be started. *)
Definition start_port_forward (namespace deployment : string)
           (local_port : Z) : M world unit :=
  if kubectl_starts e
  then emit (EvPopen (port_forward_cmd namespace deployment local_port))
  else raise OSError.

Definition parse_port (url : string) : M world Z :=
  match url_port e url with
  | PortInvalid => raise ValueError
  | PortAbsent => ret 8181%Z
  | PortNumber p => if Z.eqb p 0 then ret 8181%Z else ret p
  end.

Definition preflight_check (base_url unet_name clip_name vae_name : string)
  : M world unit :=
  (info <- request_json base_url ObjectInfo None ;;
   unets <- lift (extract_option_list info "UNETLoader" "unet_name") ;;
   clips <- lift (extract_option_list info "CLIPLoader" "clip_name") ;;
   vaes <- lift (extract_option_list info "VAELoader" "vae_name") ;;
   let missing :=
     (if str_in_list unet_name unets then []
      else [("UNET: " ++ unet_name)%string]) ++
     (if str_in_list clip_name clips then []
      else [("CLIP: " ++ clip_name)%string]) ++
     (if str_in_list vae_name vaes then []
      else [("VAE: " ++ vae_name)%string]) in
   match missing with
   | [] => ret tt
   | _ :: _ =>
       raise (RuntimeError
                (Text ("Missing model files in ComfyUI. "
                       ++ String.concat ", " missing)))
   end)%monad.

Definition submit_prompt (base_url : string) (prompt : json)
           (client_id : string) : M world json :=
  (resp <- request_json base_url Prompt
             (Some (JDict [("prompt", prompt);
                           ("client_id", JStr client_id)])) ;;
   if dict_mem resp "error" then
     (err <- lift (dict_item resp "error") ;;
      raise (RuntimeError (ServerError err)))
   else if negb (dict_mem resp "prompt_id") then
     raise (RuntimeError (UnexpectedResponse (JDict resp)))
   else lift (dict_item resp "prompt_id"))%monad.

(** The block under [if prompt_id in resp:]: [Some entry] when the loop
    returns, [None] when it goes on polling. *)
Definition completed_entry (entry : json) : outcome (option json) :=
  (st <~ py_get entry "status" ;;
   let status := py_or st (JDict []) in
   completed <~ py_get status "completed" ;;
   if truthy completed then
     (status_str <~ py_get status "status_str" ;;
      if negb (str_eq status_str "success") then
        (messages <~ py_get status "messages" ;;
         parts <~ py_iter (py_or messages (JList [])) ;;
         msg <~ str_join ", " parts ;;
         Raise (RuntimeError
                  (if String.eqb msg "" then GenerationFailedStatus status
                   else GenerationFailed msg)))
      else Return (Some entry))
   else Return None)%pure.

Fixpoint wait_for_prompt_loop (fuel : nat) (base_url : string)
         (prompt_id : json) (deadline poll_interval : Z) : M world json :=
  match fuel with
  | O => out_of_fuel
  | Datatypes.S fuel' =>
      (t <- time_time ;;
       if Z.ltb t deadline then
         (resp <- request_json base_url (History prompt_id) None ;;
          found <- lift (dict_contains resp prompt_id) ;;
          done <- (if found : bool then
                     (entry <- lift (dict_item_at resp prompt_id) ;;
                      lift (completed_entry entry))
                   else ret None) ;;
          match done with
          | Some entry => ret entry
          | None =>
              sleep poll_interval ;;;
              wait_for_prompt_loop fuel' base_url prompt_id deadline
                                   poll_interval
          end)
       else raise (TimeoutError "Timed out waiting for ComfyUI to finish."))%monad
  end.

Definition wait_for_prompt (fuel : nat) (base_url : string)
           (prompt_id : json) (timeout poll_interval : Z) : M world json :=
  (t <- time_time ;;
   wait_for_prompt_loop fuel base_url prompt_id (t + timeout)
                        poll_interval)%monad.

(** [urllib.request.urlretrieve(view_url, dest_path)]: of the answer only
    its availability matters.  The destination is opened once the server
    has answered; [dir] is the directory the caller has just made. *)
Definition urlretrieve (base_url : string) (ep : endpoint) (dir dest : path)
  : M world unit :=
  (r <- net_call base_url ep None ;;
   match r with
   | Body _ =>
       match write_error dir dest with
       | Some x => raise x
       | None => emit (EvSaved dest)
       end
   | Unavailable => raise TransportError
   end)%monad.

Definition download_file (base_url : string) (file_info : json)
           (dest_dir : path) : M world path :=
  (filename <- lift (py_item file_info "filename") ;;
   subfolder <- lift (py_get_default file_info "subfolder" (JStr "")) ;;
   file_type <- lift (py_get_default file_info "type" (JStr "output")) ;;
   emit (EvMkdir dest_dir) ;;;
   dest_path <- match filename with
                | JStr name => ret (path_div dest_dir name)
                | _ => raise TypeError
                end ;;
   urlretrieve base_url (View filename subfolder file_type) dest_dir
               dest_path ;;;
   ret dest_path)%monad.

Definition quote : string := String "034"%char "".
Definition newline : string := String "010"%char "".

Definition index_line (p : path) : string :=
  let rel := path_name p in
  if str_in (lower (suffix rel)) [".webm"; ".mp4"]
  then ("<div><video controls src=" ++ quote ++ rel ++ quote ++ " style="
        ++ quote ++ "max-width: 100%;" ++ quote ++ "></video></div>")%string
  else ("<div><img src=" ++ quote ++ rel ++ quote ++ " style="
        ++ quote ++ "max-width: 100%;" ++ quote ++ "></div>")%string.

Definition write_index (dest_dir : path) (prompt_text : string)
           (files : list path) : M world unit :=
  let lines :=
    ["<!doctype html>";
     "<html><head><meta charset='utf-8'><title>ComfyUI Outputs</title></head><body>";
     ("<h1>Prompt</h1><p>" ++ prompt_text ++ "</p>")%string]
    ++ map index_line files ++ ["</body></html>"] in
  let target := path_div dest_dir "index.html" in
  match write_error dest_dir target with
  | Some x => raise x
  | None => emit (EvWriteText target (String.concat newline lines))
  end.

(** ** [main] *)

(** The parsed command line. *)
Record args : Type := {
  prompt : string;
  negative : string;
  count : Z;
  width : Z;
  height : Z;
  frames : Z;
  steps : Z;
  cfg : float;
  sampler : string;
  scheduler : string;
  denoise : float;
  mode : string;
  format : string;
  comfy_url : string;
  output_dir : string;
  seed : option Z;
  port_forward : bool;
  namespace : string;
  deployment : string;
  skip_check : bool
}.

Definition unet_name : string := "wan2.1_t2v_1.3B_bf16.safetensors".
Definition clip_name : string := "umt5_xxl_fp16.safetensors".
Definition vae_name : string := "wan_2.1_vae.safetensors".

Definition include_webm (a : args) : bool :=
  (String.eqb (mode a) "video" && str_in (format a) ["webm"; "both"])%bool.

Definition include_webp (a : args) : bool :=
  (String.eqb (mode a) "video" && str_in (format a) ["webp"; "both"])%bool.

Definition include_images (a : args) : bool := String.eqb (mode a) "image".

(** [args.frames] after the override for image mode. *)
Definition effective_frames (a : args) : Z :=
  if (String.eqb (mode a) "image" && negb (Z.eqb (frames a) 1))%bool
  then 1%Z else frames a.

(** [for i in range(args.count)]: one seed per index. *)
Fixpoint make_seeds (base : option Z) (indices : list nat) : M world (list Z) :=
  match indices with
  | [] => ret []
  | i :: rest =>
      (s <- match base with
            | None => randrange 0 (2 ^ 63)
            | Some b => ret (b + Z.of_nat i)%Z
            end ;;
       more <- make_seeds base rest ;;
       ret (s :: more))%monad
  end.

(** The extension filter of the download loop: [true] means [continue]. *)
Definition skipped (a : args) (ext : string) : bool :=
  (String.eqb (mode a) "video" &&
   ((String.eqb (format a) "webm" && negb (String.eqb ext ".webm")) ||
    (String.eqb (format a) "webp" && negb (String.eqb ext ".webp"))))%bool.

(** [for file_info in files]: the paths appended to [all_files]. *)
Fixpoint download_files (a : args) (run_dir : path) (files : list json)
  : M world (list path) :=
  match files with
  | [] => ret []
  | file_info :: rest =>
      (filename <- lift (py_item file_info "filename") ;;
       ext <- match filename with
              | JStr name => ret (lower (splitext_ext name))
              | _ => raise TypeError
              end ;;
       if skipped a ext then download_files a run_dir rest
       else (dest_path <- download_file (comfy_url a) file_info run_dir ;;
             more <- download_files a run_dir rest ;;
             ret (dest_path :: more)))%monad
  end.

Definition prompt_for (a : args) (idx : nat) (seed : Z) : M world json :=
  let prefix_base :=
    if String.eqb (mode a) "video" then "wan_t2v" else "wan_t2i" in
  let filename_prefix := (prefix_base ++ "_" ++ fmt02d idx)%string in
  build_prompt (JStr (prompt a)) (JStr (negative a)) (JInt seed)
               (JInt (width a)) (JInt (height a))
               (JInt (effective_frames a)) (JInt (steps a))
               (JFloat (cfg a)) (JStr (sampler a)) (JStr (scheduler a))
               (JFloat (denoise a)) (JStr clip_name) (JStr unet_name)
               (JStr vae_name) (JInt 24) (JInt 16) (JStr filename_prefix)
               (JBool (include_webm a)) (JBool (include_webp a))
               (JBool (include_images a)).

(** One round of [for idx, seed in enumerate(seeds, start=1)], in its two
    halves: queue the prompt and wait for its history entry, then save what
    the entry reports. *)
Definition run_job (a : args) (fuel : nat) (client_id : string) (idx : nat)
           (seed : Z) : M world json :=
  (prompt <- prompt_for a idx seed ;;
   prompt_id <- submit_prompt (comfy_url a) prompt client_id ;;
   wait_for_prompt fuel (comfy_url a) prompt_id
                   (seconds e 3600) (seconds e 5))%monad.

Definition save_outputs (a : args) (run_dir : path) (history_entry : json)
  : M world (list path) :=
  (files <- lift (extract_files history_entry) ;;
   match files with
   | [] => raise (RuntimeError
                    (Text "No output files found in history response."))
   | _ :: _ => download_files a run_dir files
   end)%monad.

Definition generate_one (a : args) (fuel : nat) (run_dir : path)
           (client_id : string) (idx : nat) (seed : Z) : M world (list path) :=
  (history_entry <- run_job a fuel client_id idx seed ;;
   save_outputs a run_dir history_entry)%monad.

Fixpoint generate_all (a : args) (fuel : nat) (run_dir : path)
         (client_id : string) (jobs : list (nat * Z)) : M world (list path) :=
  match jobs with
  | [] => ret []
  | (idx, seed) :: rest =>
      (saved <- generate_one a fuel run_dir client_id idx seed ;;
       more <- generate_all a fuel run_dir client_id rest ;;
       ret (saved ++ more))%monad
  end.

Definition enumerate1 {A} (l : list A) : list (nat * A) :=
  combine (seq 1 (List.length l)) l.

(** The body of the [try] block. *)
Definition guarded (a : args) (fuel : nat) (run_dir : path)
           (client_id : string) (seeds : list Z) : M world (list path) :=
  (reachable <- is_server_reachable (comfy_url a) ;;
   (if reachable then ret tt
    else if negb (port_forward a) then
      raise (RuntimeError
               (Text "ComfyUI is not reachable. Use --port-forward or set --comfy-url."))
    else
      (local_port <- parse_port (comfy_url a) ;;
       start_port_forward (namespace a) (deployment a) local_port ;;;
       set_port_forward_proc true ;;;
       up <- wait_for_server fuel (comfy_url a) (seconds e 30) ;;
       if up then ret tt
       else raise (RuntimeError
                     (Text "Port-forward started, but ComfyUI is not reachable.")))) ;;;
   (if skip_check a then ret tt
    else preflight_check (comfy_url a) unet_name clip_name vae_name) ;;;
   generate_all a fuel run_dir client_id (enumerate1 seeds))%monad.

(** The [finally] block. *)
Definition cleanup : M world unit :=
  (w <- get_state ;;
   if port_forward_proc w then
     (emit EvTerminate ;;;
      emit EvWait ;;;
      if child_exits e then ret tt else raise TimeoutExpired)
   else ret tt)%monad.

Definition main (a : args) (fuel : nat) : M world unit :=
  if (String.eqb (mode a) "video"
      && negb (include_webm a || include_webp a))%bool
  then raise (SystemExit "Select at least one video format.")
  else
    (let run_dir := path_div (resolve e (output_dir a)) (timestamp e) in
     emit (EvMkdir run_dir) ;;;
     seeds <- make_seeds (seed a) (seq 0 (Z.to_nat (count a))) ;;
     n <- randrange 0 1000000 ;;
     let client_id := ("cli-" ++ str_of_Z n)%string in
     set_port_forward_proc false ;;;
     all_files <- try_finally (guarded a fuel run_dir client_id seeds)
                              cleanup ;;
     match all_files with
     | [] => ret tt
     | _ :: _ => write_index run_dir (prompt a) all_files
     end)%monad.

(** ** The command line

    Of [parse_args] the two options with [choices] are modelled: a value
    outside the choices makes [argparse] print its usage message and call
    [sys.exit(2)]; an option that is not given takes its default.  The
    other options arrive converted, in [rest]. *)
Definition parse_choice (choices : list string) (default : string)
           (given : option string) : outcome string :=
  match given with
  | None => Return default
  | Some v => if str_in v choices then Return v else Raise (SystemExitCode 2)
  end.

Definition set_mode_format (m f : string) (a : args) : args :=
  {| prompt := prompt a; negative := negative a; count := count a;
     width := width a; height := height a; frames := frames a;
     steps := steps a; cfg := cfg a; sampler := sampler a;
     scheduler := scheduler a; denoise := denoise a; mode := m; format := f;
     comfy_url := comfy_url a; output_dir := output_dir a; seed := seed a;
     port_forward := port_forward a; namespace := namespace a;
     deployment := deployment a; skip_check := skip_check a |}.

Definition cli (given_mode given_format : option string) (rest : args)
           (fuel : nat) : M world unit :=
  (m <- lift (parse_choice ["video"; "image"] "video" given_mode) ;;
   f <- lift (parse_choice ["webm"; "webp"; "both"] "webm" given_format) ;;
   main (set_mode_format m f rest) fuel)%monad.

End Run.

End Wan.

(** * Vocabulary of the statements *)

(** The graph [build_prompt] returns, in closed form: the eight fixed nodes
    followed by the save nodes whose flag is true. *)
Definition expected_graph
           (prompt_text negative_text seed width height frames steps cfg
            sampler scheduler denoise clip_name unet_name vae_name fps_webm
            fps_webp filename_prefix include_webm include_webp
            include_images : json) : dict :=
  Wan.base_graph prompt_text negative_text seed width height frames steps cfg
                 sampler scheduler denoise clip_name unet_name vae_name
  ++ (if truthy include_webp
      then [("28", Wan.webp_node fps_webp filename_prefix)] else [])
  ++ (if truthy include_webm
      then [("47", Wan.webm_node fps_webm filename_prefix)] else [])
  ++ (if truthy include_images
      then [("10", Wan.image_node filename_prefix)] else []).

(** The command line with every option at its default. *)
Definition default_args (prompt : string) : Wan.args :=
  {| Wan.prompt := prompt;
     Wan.negative := "blurry, low quality, artifacts";
     Wan.count := 5; Wan.width := 512; Wan.height := 320; Wan.frames := 16;
     Wan.steps := 25; Wan.cfg := 6.0%float; Wan.sampler := "uni_pc";
     Wan.scheduler := "simple"; Wan.denoise := 1.0%float;
     Wan.mode := "video"; Wan.format := "webm";
     Wan.comfy_url := "http://127.0.0.1:8181";
     Wan.output_dir := "generated"; Wan.seed := None;
     Wan.port_forward := false; Wan.namespace := "llm";
     Wan.deployment := "wan-video-gen"; Wan.skip_check := false |}.

Definition with_mode_format (mode format : string) (a : Wan.args) : Wan.args :=
  {| Wan.prompt := Wan.prompt a; Wan.negative := Wan.negative a;
     Wan.count := Wan.count a; Wan.width := Wan.width a;
     Wan.height := Wan.height a; Wan.frames := Wan.frames a;
     Wan.steps := Wan.steps a; Wan.cfg := Wan.cfg a;
     Wan.sampler := Wan.sampler a; Wan.scheduler := Wan.scheduler a;
     Wan.denoise := Wan.denoise a; Wan.mode := mode; Wan.format := format;
     Wan.comfy_url := Wan.comfy_url a; Wan.output_dir := Wan.output_dir a;
     Wan.seed := Wan.seed a; Wan.port_forward := Wan.port_forward a;
     Wan.namespace := Wan.namespace a; Wan.deployment := Wan.deployment a;
     Wan.skip_check := Wan.skip_check a |}.

(** The values [argparse] lets through for [--mode] and [--format]. *)
Definition parsed (a : Wan.args) : Prop :=
  In (Wan.mode a) ["video"; "image"] /\
  In (Wan.format a) ["webm"; "webp"; "both"].

(** An environment whose server answers every call with [answer]; the
    clock ticks once a second and no call takes time. *)
Definition constant_env (answer : Wan.reply) : Wan.env :=
  {| Wan.hz := 1; Wan.reply_of := fun _ => answer;
     Wan.latency_of := fun _ => 0%N; Wan.entropy := fun _ => 0%N;
     Wan.kubectl_starts := true; Wan.child_exits := true;
     Wan.url_port := fun _ => Wan.PortAbsent;
     Wan.resolve := fun dir => [dir]; Wan.timestamp := "20260101_000000";
     Wan.open_error := fun _ => None; Wan.timer_error := fun _ => None |}.

(** The seed list as C6 words it: [count] entries, each the supplied seed
    or a draw from [0, 2^63). *)
Definition seeds_as_worded (base : option Z) (count : Z) (seeds : list Z)
  : Prop :=
  Z.of_nat (List.length seeds) = count /\
  Forall (fun x => match base with
                   | Some s => x = s
                   | None => (0 <= x < 2 ^ 63)%Z
                   end) seeds.

(** What one poll makes of a response: [Some entry] ends the loop with
    [entry], [None] lets it sleep and poll again. *)
Definition poll_result (prompt_id : json) (resp : dict) : outcome (option json) :=
  (found <~ Wan.dict_contains resp prompt_id ;;
   if found : bool then
     (entry <~ Wan.dict_item_at resp prompt_id ;; Wan.completed_entry entry)
   else Return None)%pure.

(** The completion flag as a poll sees it: the response is an object that
    maps the prompt id to an entry whose status has a truthy [completed]. *)
Definition completion_flag (prompt_id : json) (r : Wan.reply) : bool :=
  match r, prompt_id with
  | Wan.Body resp, JStr k =>
      match dict_get resp k with
      | Some (JDict entry) =>
          match dict_get entry "status" with
          | Some (JDict status) =>
              match dict_get status "completed" with
              | Some c => truthy c
              | None => false
              end
          | _ => false
          end
      | _ => false
      end
  | _, _ => false
  end.

(** An entry of a job that is still running: a dictionary whose status is
    missing or falsy, or a dictionary without a truthy [completed]. *)
Definition pending_entry (entry : json) : Prop :=
  exists d, entry = JDict d /\
    match dict_get d "status" with
    | None => True
    | Some st =>
        truthy st = false \/
        exists status, st = JDict status /\
          match dict_get status "completed" with
          | None => True
          | Some c => truthy c = false
          end
    end.

(** A poll that is answered and shows the job absent or still running. *)
Definition pending (prompt_id : json) (r : Wan.reply) : Prop :=
  exists resp, r = Wan.Body resp /\
    match prompt_id with
    | JStr k =>
        match dict_get resp k with
        | None => True
        | Some entry => pending_entry entry
        end
    | JList _ | JDict _ => False
    | _ => True
    end.

Definition timed_out : exn :=
  TimeoutError "Timed out waiting for ComfyUI to finish.".

(** The errors raised by [raise RuntimeError(f"Generation failed: ...")]. *)
Definition is_generation_error (x : exn) : bool :=
  match x with
  | RuntimeError (GenerationFailed _)
  | RuntimeError (GenerationFailedStatus _) => true
  | _ => false
  end.

(** The state after the [i]-th network call made from [w]. *)
Definition after_call (e : Wan.env) (ev : Wan.event) (w : Wan.world)
  : Wan.world :=
  {| Wan.now := (Wan.now w + Z.of_N (Wan.latency_of e (Wan.net_calls w)))%Z;
     Wan.net_calls := S (Wan.net_calls w);
     Wan.draws := Wan.draws w;
     Wan.port_forward_proc := Wan.port_forward_proc w;
     Wan.trace := Wan.trace w ++ [ev] |}.

(** An entry the server reports as completed with success. *)
Definition succeeded_entry (entry : json) : Prop :=
  exists d status c,
    entry = JDict d /\
    dict_get d "status" = Some (JDict status) /\
    dict_get status "completed" = Some c /\ truthy c = true /\
    dict_get status "status_str" = Some (JStr "success").

Definition is_str (v : json) : bool :=
  match v with JStr _ => true | _ => false end.

(** A history response of a failed job in ComfyUI's shape: each message
    is a pair of an event name and its data. *)
Definition failed_status : json :=
  JDict [("status_str", JStr "error"); ("completed", JBool true);
         ("messages",
          JList [JList [JStr "execution_error";
                        JDict [("node_id", JStr "3")]]])].

Definition failed_history : dict :=
  [("abc", JDict [("status", failed_status); ("outputs", JDict [])])].

(** An item of an output list that [extract_files] passes over. *)
Definition lacks_filename (item : json) : bool :=
  match item with
  | JDict d => negb (dict_mem d "filename")
  | _ => true
  end.

(** An output none of whose image, video or gif items has a filename. *)
Definition nameless_output (output : json) : Prop :=
  exists d, output = JDict d /\
    forall key, In key ["images"; "videos"; "gifs"] ->
      match dict_get d key with
      | None => True
      | Some items =>
          truthy items = false \/
          exists l, items = JList l /\ forallb lacks_filename l = true
      end.

Definition no_files_error : exn :=
  RuntimeError (Text "No output files found in history response.").

(** The rounds of the job loop, each of which got a history entry with at
    least one extracted file and saved its outputs. *)
Fixpoint all_jobs_saved (e : Wan.env) (a : Wan.args) (fuel : nat)
         (run_dir : path) (client_id : string) (jobs : list (nat * Z))
         (w : Wan.world) : Prop :=
  match jobs with
  | [] => True
  | (idx, seed) :: rest =>
      exists entry w1 file files saved w2,
        Wan.run_job e a fuel client_id idx seed w = (Return entry, w1) /\
        Wan.extract_files entry = Return (file :: files) /\
        Wan.save_outputs e a run_dir entry w1 = (Return saved, w2) /\
        all_jobs_saved e a fuel run_dir client_id rest w2
  end.

(** The filename of an extracted entry, when it is a string. *)
Definition file_name_of (file_info : json) : option string :=
  match file_info with
  | JDict d =>
      match dict_get d "filename" with
      | Some (JStr name) => Some name
      | _ => None
      end
  | _ => None
  end.

(** The entries the download loop does not skip. *)
Definition kept (a : Wan.args) (file_info : json) : bool :=
  match file_name_of file_info with
  | Some name => negb (Wan.skipped a (Wan.lower (Wan.splitext_ext name)))
  | None => false
  end.

Definition dest_of (run_dir : path) (file_info : json) : path :=
  path_div run_dir (match file_name_of file_info with
                    | Some name => name
                    | None => ""
                    end).

(** The files saved by downloads, in order. *)
Definition saved_files (tr : list Wan.event) : list path :=
  flat_map (fun ev => match ev with Wan.EvSaved p => [p] | _ => [] end) tr.

(** A history entry that reports a video and a still image. *)
Definition mixed_entry : json :=
  JDict [("status", JDict [("status_str", JStr "success");
                           ("completed", JBool true)]);
         ("outputs",
          JDict [("47", JDict [("images",
                                JList [JDict [("filename", JStr "a.webm")];
                                       JDict [("filename", JStr "a.png")]])])])].

(** ** Invariants of a run

    [respects I T m]: from a state that satisfies [I], the computation [m]
    ends in a state that satisfies [I] and, when [T] holds, it does end. *)
Definition respects {S A : Type} (I : S -> Prop) (T : Prop) (m : M S A)
  : Prop :=
  forall s, I s -> I (snd (m s)) /\ (T -> fst (m s) <> OutOfFuel).

(** A pure computation that ran to a value or to an exception. *)
Definition finishes {A : Type} (o : outcome A) : Prop := o <> OutOfFuel.

(** An invariant that clock, counters and the events allowed by [ok] leave
    alone. *)
Definition stable (I : Wan.world -> Prop) (ok : Wan.event -> Prop) : Prop :=
  forall w t n d evs,
    I w -> Forall ok evs ->
    I {| Wan.now := t; Wan.net_calls := n; Wan.draws := d;
         Wan.port_forward_proc := Wan.port_forward_proc w;
         Wan.trace := Wan.trace w ++ evs |}.

(** The events that neither concern the child process nor queue a prompt. *)
Definition quiet (ev : Wan.event) : Prop :=
  match ev with
  | Wan.EvPopen _ | Wan.EvTerminate => False
  | Wan.EvRequest _ Wan.Prompt _ => False
  | _ => True
  end.

(** Whether the port-forward child is alive after a trace. *)
Definition child_running (tr : list Wan.event) : bool :=
  fold_left (fun alive ev =>
               match ev with
               | Wan.EvPopen _ => true
               | Wan.EvTerminate => false
               | _ => alive
               end) tr false.

(** The frame count a queued payload asks of its latent-video node. *)
Definition latent_length (payload : json) : option json :=
  match payload with
  | JDict request =>
      match dict_get request "prompt" with
      | Some (JDict graph) =>
          match dict_get graph "40" with
          | Some (JDict latent) =>
              match dict_get latent "inputs" with
              | Some (JDict inputs) => dict_get inputs "length"
              | _ => None
              end
          | _ => None
          end
      | _ => None
      end
  | _ => None
  end.

Definition single_frame (ev : Wan.event) : Prop :=
  match ev with
  | Wan.EvRequest _ Wan.Prompt (Some payload) =>
      latent_length payload = Some (JInt 1)
  | _ => True
  end.

(** The graph [main] queues for round [idx] with seed [seed]. *)
Definition payload_of (a : Wan.args) (idx : nat) (seed : Z) : json :=
  JDict (expected_graph
           (JStr (Wan.prompt a)) (JStr (Wan.negative a)) (JInt seed)
           (JInt (Wan.width a)) (JInt (Wan.height a))
           (JInt (Wan.effective_frames a)) (JInt (Wan.steps a))
           (JFloat (Wan.cfg a)) (JStr (Wan.sampler a))
           (JStr (Wan.scheduler a)) (JFloat (Wan.denoise a))
           (JStr Wan.clip_name) (JStr Wan.unet_name) (JStr Wan.vae_name)
           (JInt 24) (JInt 16)
           (JStr ((if String.eqb (Wan.mode a) "video"
                   then "wan_t2v" else "wan_t2i") ++ "_" ++ fmt02d idx))
           (JBool (Wan.include_webm a)) (JBool (Wan.include_webp a))
           (JBool (Wan.include_images a))).

(** The body of the POST that queues a graph. *)
Definition queue_request (graph : json) (client_id : string) : json :=
  JDict [("prompt", graph); ("client_id", JStr client_id)].

(** The state once the child has been started and stored in the variable. *)
Definition with_child (cmd : list string) (w : Wan.world) : Wan.world :=
  {| Wan.now := Wan.now w; Wan.net_calls := Wan.net_calls w;
     Wan.draws := Wan.draws w; Wan.port_forward_proc := true;
     Wan.trace := Wan.trace w ++ [Wan.EvPopen cmd] |}.

Definition with_proc (b : bool) (w : Wan.world) : Wan.world :=
  {| Wan.now := Wan.now w; Wan.net_calls := Wan.net_calls w;
     Wan.draws := Wan.draws w; Wan.port_forward_proc := b;
     Wan.trace := Wan.trace w |}.

(** Events other than the start and the termination of the child. *)
Definition leaves_child (ev : Wan.event) : Prop :=
  match ev with
  | Wan.EvPopen _ | Wan.EvTerminate => False
  | _ => True
  end.

(** Every prompt queued so far asks for a single frame. *)
Definition single_frames (w : Wan.world) : Prop :=
  Forall single_frame (Wan.trace w).

(** Inside the [try] block: a live child is always the one stored in
    [port_forward_proc]. *)
Definition proc_tracks_child (w : Wan.world) : Prop :=
  child_running (Wan.trace w) = true -> Wan.port_forward_proc w = true.

Definition no_child (w : Wan.world) : Prop :=
  child_running (Wan.trace w) = false.

(** [ends_in P Q T m]: from a state that satisfies [P], a run of [m] that
    ends does so in a state that satisfies [Q], and when [T] holds it does
    end. *)
Definition ends_in {S A : Type} (P Q : S -> Prop) (T : Prop) (m : M S A)
  : Prop :=
  forall s, P s ->
    (fst (m s) <> OutOfFuel -> Q (snd (m s))) /\ (T -> fst (m s) <> OutOfFuel).

(** A run that needs the port-forward: the first reachability check finds
    nothing, every later call is answered with an empty object. *)
Definition cold_env : Wan.env :=
  {| Wan.hz := 1;
     Wan.reply_of := fun i => match i with
                              | O => Wan.Unavailable
                              | _ => Wan.Body []
                              end;
     Wan.latency_of := fun _ => 0%N; Wan.entropy := fun _ => 0%N;
     Wan.kubectl_starts := true; Wan.child_exits := true;
     Wan.url_port := fun _ => Wan.PortAbsent;
     Wan.resolve := fun dir => [dir]; Wan.timestamp := "20260101_000000";
     Wan.open_error := fun _ => None; Wan.timer_error := fun _ => None |}.

Definition with_port_forward (a : Wan.args) : Wan.args :=
  {| Wan.prompt := Wan.prompt a; Wan.negative := Wan.negative a;
     Wan.count := Wan.count a; Wan.width := Wan.width a;
     Wan.height := Wan.height a; Wan.frames := Wan.frames a;
     Wan.steps := Wan.steps a; Wan.cfg := Wan.cfg a;
     Wan.sampler := Wan.sampler a; Wan.scheduler := Wan.scheduler a;
     Wan.denoise := Wan.denoise a; Wan.mode := Wan.mode a;
     Wan.format := Wan.format a; Wan.comfy_url := Wan.comfy_url a;
     Wan.output_dir := Wan.output_dir a; Wan.seed := Wan.seed a;
     Wan.port_forward := true; Wan.namespace := Wan.namespace a;
     Wan.deployment := Wan.deployment a;
     Wan.skip_check := Wan.skip_check a |}.

(** ** Vocabulary of the further properties *)

(** The labels [preflight_check] reports for the models that are not listed. *)
Definition missing_models (unets clips vaes : list json)
           (unet clip vae : string) : list string :=
  (if str_in_list unet unets then [] else [("UNET: " ++ unet)%string]) ++
  (if str_in_list clip clips then [] else [("CLIP: " ++ clip)%string]) ++
  (if str_in_list vae vaes then [] else [("VAE: " ++ vae)%string]).

(** The list an output holds under [key]; anything but a list counts as
    none. *)
Definition listed (output : json) (key : string) : list json :=
  match output with
  | JDict d =>
      match dict_get d key with
      | Some (JList l) => l
      | _ => []
      end
  | _ => []
  end.

(** An output whose image, video and gif entries are absent or lists. *)
Definition list_valued_output (output : json) : Prop :=
  exists d, output = JDict d /\
    forall key, In key ["images"; "videos"; "gifs"] ->
      match dict_get d key with
      | None => True
      | Some items => exists l, items = JList l
      end.

(** A file entry as [extract_files] guarantees it: a dictionary with a
    [filename] key. *)
Definition has_filename (file_info : json) : Prop :=
  exists d v, file_info = JDict d /\ dict_get d "filename" = Some v.

(** An [/object_info] reply in the server's shape, listing one option list
    per loader. *)
Definition loader_info (input_name : string) (options : list string) : json :=
  JDict [("input",
          JDict [("required",
                  JDict [(input_name,
                          JList [JList (map JStr options)])])])].

Definition object_info (unets clips vaes : list string) : dict :=
  [("UNETLoader", loader_info "unet_name" unets);
   ("CLIPLoader", loader_info "clip_name" clips);
   ("VAELoader", loader_info "vae_name" vaes)].

(** The last component of a POSIX path: what follows its last slash. *)
Definition basename (p : string) : string :=
  let start :=
    match Wan.rfind "/"%char p with None => 0 | Some sep => S sep end in
  substring start (String.length p - start) p.

(** The clock reading at the start of the [j]-th round of a wait loop that
    begins in [w] and sleeps [pause] ticks after every unsuccessful call. *)
Fixpoint round_time (e : Wan.env) (pause : Z) (w : Wan.world) (j : nat) : Z :=
  match j with
  | O => Wan.now w
  | S j' =>
      (round_time e pause w j'
       + Z.of_N (Wan.latency_of e (Wan.net_calls w + j')) + pause)%Z
  end.

Definition answered (r : Wan.reply) : bool :=
  match r with Wan.Body _ => true | Wan.Unavailable => false end.

(** The actions of round [idx] of the batch loop when its response [r] is
    accepted: the POST, the write, and a sleep unless the delay is not
    positive or the round is the last. *)
Definition batch_round (server : nat -> Batch.post_result) (prompt : string)
           (steps : Z) (url : string) (out_dir : path) (prefix : string)
           (count : Z) (delay : float) (idx : nat) : list Batch.event :=
  [Batch.EvPost url (Batch.payload prompt steps);
   Batch.EvWrite (out_dir ++ [Batch.file_name prefix idx])
                 (Batch.body_of server (idx - 1))]
  ++ (if (PrimFloat.ltb 0 delay && negb (Z.eqb (Z.of_nat idx) count))%bool
      then [Batch.EvSleep delay] else []).

Definition batch_sleeps (tr : list Batch.event) : list float :=
  flat_map (fun ev => match ev with Batch.EvSleep d => [d] | _ => [] end) tr.

(** The directory of a run and what [main] does with the saved files. *)
Definition run_dir_of (e : Wan.env) (a : Wan.args) : path :=
  path_div (Wan.resolve e (Wan.output_dir a)) (Wan.timestamp e).

Definition finish (e : Wan.env) (a : Wan.args) (all_files : list path)
  : M Wan.world unit :=
  match all_files with
  | [] => ret tt
  | _ :: _ => Wan.write_index e (run_dir_of e a) (Wan.prompt a) all_files
  end.

(** The format guard of [main] lets the arguments through. *)
Definition passes_guard (a : Wan.args) : Prop :=
  (String.eqb (Wan.mode a) "video"
   && negb (Wan.include_webm a || Wan.include_webp a))%bool = false.

Definition unreachable_error : exn :=
  RuntimeError
    (Text "ComfyUI is not reachable. Use --port-forward or set --comfy-url.").

Definition still_unreachable_error : exn :=
  RuntimeError (Text "Port-forward started, but ComfyUI is not reachable.").

(** The port [main] forwards to. *)
Definition local_port_of (e : Wan.env) (a : Wan.args) : Z :=
  match Wan.url_port e (Wan.comfy_url a) with
  | Wan.PortNumber p => if Z.eqb p 0 then 8181%Z else p
  | _ => 8181%Z
  end.

(** [k] failed reachability checks, each followed by the sleep of one
    second. *)
Definition probes (e : Wan.env) (base_url : string) (k : nat)
  : list Wan.event :=
  List.concat (repeat [Wan.EvRequest base_url Wan.Queue None;
                       Wan.EvSleep (Wan.seconds e 1)] k).

(** ** The graph as the server reads it

    An input whose value is a two-element list of a node id and an output
    slot is a link to that node. *)
Definition links_of (inputs : dict) : list string :=
  flat_map (fun kv => match snd kv with
                      | JList [JStr id; JInt _] => [id]
                      | _ => []
                      end) inputs.

(** A node has a class and inputs, and its links lead to nodes of [graph]. *)
Definition node_ok (graph : dict) (n : json) : bool :=
  match n with
  | JDict d =>
      match dict_get d "class_type", dict_get d "inputs" with
      | Some (JStr _), Some (JDict inputs) =>
          forallb (dict_mem graph) (links_of inputs)
      | _, _ => false
      end
  | _ => false
  end.

Definition well_linked (graph : dict) : bool :=
  forallb (node_ok graph) (dict_values graph).

(** The classes of the nodes that write an output, in graph order. *)
Definition save_classes (graph : dict) : list string :=
  flat_map (fun n => match n with
                     | JDict d =>
                         match dict_get d "class_type" with
                         | Some (JStr c) =>
                             if Wan.str_in c ["SaveWEBM"; "SaveAnimatedWEBP";
                                              "SaveImage"]
                             then [c] else []
                         | _ => []
                         end
                     | _ => []
                     end) (dict_values graph).

(** The two kinds of line of the index page. *)
Definition video_tag (rel : string) : string :=
  ("<div><video controls src=" ++ Wan.quote ++ rel ++ Wan.quote ++ " style="
   ++ Wan.quote ++ "max-width: 100%;" ++ Wan.quote ++ "></video></div>")%string.

Definition img_tag (rel : string) : string :=
  ("<div><img src=" ++ Wan.quote ++ rel ++ Wan.quote ++ " style="
   ++ Wan.quote ++ "max-width: 100%;" ++ Wan.quote ++ "></div>")%string.

(** ** What a run leaves on disk *)

(** Events that neither save a download nor write a text file. *)
Definition keeps_files (ev : Wan.event) : Prop :=
  match ev with
  | Wan.EvSaved _ | Wan.EvWriteText _ _ => False
  | _ => True
  end.

(** [appends m]: whatever its outcome, [m] only adds events to the trace,
    none of which touches a file. *)
Definition appends {A : Type} (m : M Wan.world A) : Prop :=
  forall w, exists evs,
    Wan.trace (snd (m w)) = Wan.trace w ++ evs /\ Forall keeps_files evs.

(** The text files written, in order. *)
Definition written (tr : list Wan.event) : list (path * string) :=
  flat_map (fun ev => match ev with
                      | Wan.EvWriteText p text => [(p, text)]
                      | _ => []
                      end) tr.

(** [collects dir m]: when [m] returns a list of paths, these are the files
    it saved, in order, each at [dir / name] for some name; it writes no
    text file. *)
Definition collects (dir : path) (m : M Wan.world (list path)) : Prop :=
  forall w files w',
    m w = (Return files, w') ->
    exists evs,
      Wan.trace w' = Wan.trace w ++ evs /\
      saved_files evs = files /\
      written evs = [] /\
      Forall (fun p => exists name, p = path_div dir name) files.

(** The page [write_index] writes for a prompt and a list of files. *)
Definition index_page (prompt_text : string) (files : list path) : string :=
  String.concat Wan.newline
    (["<!doctype html>";
      "<html><head><meta charset='utf-8'><title>ComfyUI Outputs</title></head><body>";
      ("<h1>Prompt</h1><p>" ++ prompt_text ++ "</p>")%string]
     ++ map Wan.index_line files ++ ["</body></html>"]).

(** A server that answers every call with the same object, which lists the
    three models, accepts a prompt as job "p" and reports that job as done
    with a video and a still image. *)
Definition ready_env : Wan.env :=
  constant_env
    (Wan.Body (object_info [Wan.unet_name] [Wan.clip_name] [Wan.vae_name]
               ++ [("prompt_id", JStr "p"); ("p", mixed_entry)])).

(** ** The disk and the download filter *)

(** The entry has a plain file name, and the disk lets the file of that
    name be created in [dir]. *)
Definition writable (e : Wan.env) (dir : path) (file_info : json) : Prop :=
  match file_name_of file_info with
  | Some name =>
      plain_name name = true /\ Wan.open_error e (dir ++ [name]) = None
  | None => False
  end.

(** The lower-cased extension of a file name. *)
Definition extension_of (name : string) : string :=
  Wan.lower (Wan.splitext_ext name).

(** The entries that are downloaded, as the amended C1 words it: in video
    mode with format "webm" those with extension ".webm", in video mode
    with format "webp" those with extension ".webp", and otherwise all. *)
Definition selected (a : Wan.args) (file_info : json) : bool :=
  match file_name_of file_info with
  | None => false
  | Some name =>
      if String.eqb (Wan.mode a) "video" then
        if String.eqb (Wan.format a) "webm"
        then String.eqb (extension_of name) ".webm"
        else if String.eqb (Wan.format a) "webp"
             then String.eqb (extension_of name) ".webp"
             else true
      else true
  end.

(** The answer to the preflight request lists the three models. *)
Definition models_listed (r : Wan.reply) : Prop :=
  exists info unets clips vaes,
    r = Wan.Body info /\
    Wan.extract_option_list info "UNETLoader" "unet_name" = Return unets /\
    Wan.extract_option_list info "CLIPLoader" "clip_name" = Return clips /\
    Wan.extract_option_list info "VAELoader" "vae_name" = Return vaes /\
    missing_models unets clips vaes Wan.unet_name Wan.clip_name Wan.vae_name
    = [].

(** ** The first job of a run *)

(** The number of the call that queues the first prompt, when the run
    starts with call [n0] and finds the server reachable: the reachability
    check comes first, then the preflight request unless it is skipped. *)
Definition first_job_call (a : Wan.args) (n0 : nat) : nat :=
  if Wan.skip_check a then S n0 else S (S n0).

(** The value an option of the command line takes. *)
Definition chosen (default : string) (given : option string) : string :=
  match given with Some v => v | None => default end.

(** * Properties *)

(** ** Formatting *)

Lemma nat_of_digits_fmt02d (n : nat) : nat_of_digits (fmt02d n) = Some n.
Proof.
  unfold fmt02d, nat_of_digits, str_of_nat.
  destruct (Nat.ltb _ 2).
  - change (NilEmpty.uint_of_string ("0" ++ ?s))
      with (uint_of_char "0" (NilEmpty.uint_of_string s)).
    rewrite NilEmpty.usu. cbn [uint_of_char option_map].
    change (Nat.of_uint (D0 ?d)) with (Nat.of_uint d).
    now rewrite Unsigned.of_to.
  - rewrite NilEmpty.usu. cbn [option_map]. now rewrite Unsigned.of_to.
Qed.

Lemma fmt02d_inj (i j : nat) : fmt02d i = fmt02d j -> i = j.
Proof.
  intros H. pose proof (nat_of_digits_fmt02d i) as Hi.
  rewrite H, nat_of_digits_fmt02d in Hi. congruence.
Qed.

Lemma append_inv_head (p s t : string) : (p ++ s = p ++ t)%string -> s = t.
Proof. induction p as [|a p IH]; cbn; intros H; [assumption|]. injection H. exact IH. Qed.

Lemma append_length (s t : string) :
  String.length (s ++ t) = String.length s + String.length t.
Proof. induction s as [|a s IH]; cbn; [reflexivity|]. now rewrite IH. Qed.

Lemma append_inv_tail (s t u : string) : (s ++ u = t ++ u)%string -> s = t.
Proof.
  revert t. induction s as [|a s IH]; intros [|b t] H; cbn in H.
  - reflexivity.
  - apply (f_equal String.length) in H. cbn in H. rewrite append_length in H. lia.
  - apply (f_equal String.length) in H. cbn in H. rewrite append_length in H. lia.
  - injection H as -> H. f_equal. now apply IH.
Qed.

Lemma file_name_inj (prefix : string) (i j : nat) :
  Batch.file_name prefix i = Batch.file_name prefix j -> i = j.
Proof.
  unfold Batch.file_name. intros H.
  apply append_inv_head in H. apply (append_inv_head "_") in H.
  apply append_inv_tail in H. now apply fmt02d_inj.
Qed.

(** ** Paths *)

Lemma lacks_app (c : ascii) (s t : string) :
  lacks c (s ++ t) = (lacks c s && lacks c t)%bool.
Proof.
  induction s as [|a s IH]; cbn [append lacks]; [reflexivity|].
  now rewrite IH, andb_assoc.
Qed.

Lemma append_nil_r (s : string) : (s ++ "")%string = s.
Proof. induction s as [|a s IH]; cbn; [reflexivity | now rewrite IH]. Qed.

Lemma append_assoc (s t u : string) :
  ((s ++ t) ++ u)%string = (s ++ t ++ u)%string.
Proof. induction s as [|a s IH]; cbn; [reflexivity | now rewrite IH]. Qed.

Lemma components_lacks (s : string) :
  lacks "/"%char s = true -> forall acc, components s acc = [(acc ++ s)%string].
Proof.
  induction s as [|a s IH]; cbn [lacks components]; intros H acc.
  - now rewrite append_nil_r.
  - apply andb_prop in H as [Ha Hs]. apply negb_true_iff in Ha. rewrite Ha.
    rewrite (IH Hs), append_assoc. reflexivity.
Qed.

Lemma anchor_lacks (s : string) : lacks "/"%char s = true -> anchor s = [].
Proof.
  destruct s as [|a s]; [reflexivity|]. cbn [lacks]. intros H.
  apply andb_prop in H as [Ha _]. apply negb_true_iff in Ha.
  unfold anchor. destruct (Ascii.eqb_spec a "/"%char) as [->|Hne];
    [discriminate|].
  destruct a as [[] [] [] [] [] [] [] []]; try reflexivity. now elim Hne.
Qed.

(** A plain name is joined as one component. *)
Lemma path_div_plain (dir : path) (name : string) :
  plain_name name = true -> path_div dir name = dir ++ [name].
Proof.
  unfold plain_name. intros H.
  apply andb_prop in H as [H Hdd]. apply andb_prop in H as [H Hd].
  apply andb_prop in H as [Hslash Hne].
  unfold path_div, path_parts. rewrite (anchor_lacks _ Hslash).
  rewrite (components_lacks _ Hslash). cbn [append filter].
  unfold kept_component. rewrite Hne, Hd. reflexivity.
Qed.

Lemma path_name_plain (dir : path) (name : string) :
  lacks "/"%char name = true -> path_name (dir ++ [name]) = name.
Proof.
  intros H. unfold path_name. rewrite last_last.
  destruct name as [|a s]; [reflexivity|]. cbn [lacks] in H.
  apply andb_prop in H as [Ha _]. apply negb_true_iff in Ha.
  destruct (Ascii.eqb_spec a "/"%char) as [->|Hne]; [discriminate|].
  destruct a as [[] [] [] [] [] [] [] []]; try reflexivity. now elim Hne.
Qed.

Lemma path_eqb_eq (p q : path) : path_eqb p q = true <-> p = q.
Proof.
  revert q. induction p as [|a p IH]; intros [|b q]; cbn [path_eqb];
    try (split; [discriminate | congruence]); [tauto|].
  rewrite andb_true_iff, String.eqb_eq, IH. split.
  - now intros [-> ->].
  - intros H. injection H as -> ->. auto.
Qed.

Lemma path_below_differs (dir rest : path) (x : string) :
  path_eqb (dir ++ x :: rest) dir = false.
Proof.
  apply not_true_is_false. intros H. apply path_eqb_eq in H.
  apply (f_equal (@List.length string)) in H.
  rewrite length_app in H. cbn in H. lia.
Qed.

Lemma digits_lack (c : ascii) (d : uint) :
  (nat_of_ascii c < 48 \/ 57 < nat_of_ascii c) ->
  lacks c (NilEmpty.string_of_uint d) = true.
Proof.
  intros Hc.
  assert (Hne : forall a, 48 <= nat_of_ascii a <= 57 -> Ascii.eqb a c = false).
  { intros a Ha. apply Ascii.eqb_neq. intros ->. lia. }
  induction d as [|d IH|d IH|d IH|d IH|d IH|d IH|d IH|d IH|d IH|d IH];
    cbn [NilEmpty.string_of_uint lacks]; [reflexivity|..];
    rewrite IH, Hne by (cbn; lia); reflexivity.
Qed.

Lemma fmt02d_lacks (c : ascii) (n : nat) :
  (nat_of_ascii c < 48 \/ 57 < nat_of_ascii c) -> lacks c (fmt02d n) = true.
Proof.
  intros Hc. unfold fmt02d, str_of_nat.
  destruct (Nat.ltb _ 2); [|now apply digits_lack].
  change ("0" ++ ?s)%string with (String "0" s). cbn [lacks].
  rewrite digits_lack by exact Hc.
  replace (Ascii.eqb "0" c) with false; [reflexivity|].
  symmetry. apply Ascii.eqb_neq. intros <-. cbn in Hc. lia.
Qed.

(** The file names of the batch loop are plain when the prefix holds no
    slash. *)
Lemma file_name_plain (prefix : string) (idx : nat) :
  lacks "/"%char prefix = true ->
  plain_name (Batch.file_name prefix idx) = true.
Proof.
  intros Hp. unfold plain_name, Batch.file_name.
  set (name := (prefix ++ "_" ++ fmt02d idx ++ ".png")%string).
  assert (Hus : lacks "_"%char name = false).
  { subst name. rewrite lacks_app.
    cbn [append lacks Ascii.eqb Bool.eqb negb andb]. apply andb_false_r. }
  assert (Hsl : lacks "/"%char name = true).
  { subst name. rewrite !lacks_app, Hp, fmt02d_lacks by (cbn; lia).
    reflexivity. }
  rewrite Hsl.
  destruct (String.eqb_spec name "") as [E|_];
    [rewrite E in Hus; discriminate|].
  destruct (String.eqb_spec name ".") as [E|_];
    [rewrite E in Hus; discriminate|].
  destruct (String.eqb_spec name "..") as [E|_];
    [rewrite E in Hus; discriminate|].
  reflexivity.
Qed.

(** ** The batch loop *)

Section BatchLoop.

Variables (server : nat -> Batch.post_result) (disk : path -> option exn)
          (timer : float -> option exn) (prompt : string) (steps : Z)
          (url : string) (out_dir : path) (prefix : string) (count : Z)
          (delay : float).

Hypothesis prefix_plain : lacks "/"%char prefix = true.
Hypothesis sleep_fine :
  PrimFloat.ltb 0 delay = true -> Batch.sleep_error timer delay = None.

Let loop :=
  Batch.generate_loop server disk timer prompt steps url out_dir prefix count
                      delay.
Let file (i : nat) : path * string :=
  (path_div out_dir (Batch.file_name prefix (S i)), Batch.body_of server i).

Lemma writes_app (t u : list Batch.event) :
  Batch.writes (t ++ u) = Batch.writes t ++ Batch.writes u.
Proof. apply flat_map_app. Qed.

Lemma posted_app (t u : list Batch.event) :
  Batch.posted (t ++ u) = Batch.posted t ++ Batch.posted u.
Proof. apply flat_map_app. Qed.

Lemma batch_target (idx : nat) :
  path_div out_dir (Batch.file_name prefix idx)
  = out_dir ++ [Batch.file_name prefix idx].
Proof. apply path_div_plain, file_name_plain, prefix_plain. Qed.

Lemma batch_write (idx : nat) (data : string) (s : Batch.state) :
  disk (out_dir ++ [Batch.file_name prefix idx]) = None ->
  Batch.write_bytes disk out_dir
    (path_div out_dir (Batch.file_name prefix idx)) data s
  = Batch.emit
      (Batch.EvWrite (path_div out_dir (Batch.file_name prefix idx)) data) s.
Proof.
  intros Hd. unfold Batch.write_bytes, Batch.write_error.
  rewrite batch_target, path_below_differs, Hd. reflexivity.
Qed.

Lemma batch_sleep (c : bool) :
  (if (PrimFloat.ltb 0 delay && c)%bool
   then Batch.time_sleep timer delay else ret tt)
  = (if (PrimFloat.ltb 0 delay && c)%bool
     then Batch.emit (Batch.EvSleep delay) else ret tt).
Proof.
  destruct (PrimFloat.ltb 0 delay) eqn:Hpos; [|reflexivity].
  unfold Batch.time_sleep. now rewrite sleep_fine.
Qed.

Lemma generate_loop_run (m : nat) :
  forall (j k : nat) (s : Batch.state),
    Batch.posts s = j -> k <= m ->
    (forall i, j <= i < j + k -> Batch.accepted (server i) = true) ->
    (k < m -> Batch.accepted (server (j + k)) = false) ->
    (forall i, j <= i < j + k ->
               disk (out_dir ++ [Batch.file_name prefix (S i)]) = None) ->
    exists s',
      loop (seq (S j) m) s =
        (if Nat.eqb k m then Return tt
         else Raise (Batch.failure_of (server (j + k))), s') /\
      Batch.posts s' = j + (if Nat.eqb k m then m else S k) /\
      Batch.writes (Batch.trace s') =
        Batch.writes (Batch.trace s) ++ map file (seq j k) /\
      Batch.posted (Batch.trace s') =
        Batch.posted (Batch.trace s)
        ++ repeat (url, Batch.payload prompt steps)
                  (if Nat.eqb k m then m else S k).
Proof.
  induction m as [|m IH]; intros j k s Hj Hk Hok Hbad Hdisk.
  - assert (k = 0) as -> by lia. exists s. cbn.
    rewrite Nat.add_0_r, !app_nil_r. auto.
  - cbn [seq]. subst loop. cbn [Batch.generate_loop].
    unfold bind at 1. unfold Batch.session_post at 1. rewrite Hj.
    destruct k as [|k].
    + specialize (Hbad ltac:(lia)). rewrite Nat.add_0_r in Hbad |- *.
      cbn [Nat.eqb].
      destruct (server j) as [r|] eqn:Hr; cbn in Hbad.
      * unfold bind at 1. unfold Batch.raise_for_status.
        apply negb_false_iff in Hbad. rewrite Hbad. unfold raise.
        eexists; split; [reflexivity|]. cbn.
        rewrite writes_app, posted_app. cbn.
        rewrite !app_nil_r. repeat split; lia.
      * eexists; split; [reflexivity|]. cbn.
        rewrite writes_app, posted_app. cbn.
        rewrite !app_nil_r. repeat split; lia.
    + pose proof (Hok j ltac:(lia)) as Hj0.
      destruct (server j) as [r|] eqn:Hr; cbn in Hj0; [|discriminate].
      apply negb_true_iff in Hj0.
      unfold bind at 1. unfold Batch.raise_for_status. rewrite Hj0.
      unfold ret at 1. unfold bind at 1.
      rewrite batch_write by (apply Hdisk; lia).
      unfold Batch.emit at 1, modify at 1.
      unfold bind at 1. rewrite batch_sleep.
      match goal with
      | |- context [ (if ?c then Batch.emit ?e else ret tt) ?s0 ] =>
          set (s1 := snd ((if c then Batch.emit e else ret tt) s0));
          assert (Hs1 : (if c then Batch.emit e else ret tt) s0 = (Return tt, s1))
            by (subst s1; destruct c; reflexivity);
          assert (Hp1 : Batch.posts s1 = S j)
            by (subst s1; destruct c; reflexivity);
          assert (Hw1 : Batch.writes (Batch.trace s1)
                        = Batch.writes (Batch.trace s) ++ [file j])
            by (subst s1 file; destruct c; cbn;
                rewrite ?writes_app; cbn; rewrite ?writes_app; cbn;
                unfold Batch.body_of; rewrite Hr, ?app_nil_r; reflexivity);
          assert (Ho1 : Batch.posted (Batch.trace s1)
                        = Batch.posted (Batch.trace s)
                          ++ [(url, Batch.payload prompt steps)])
            by (subst s1; destruct c; cbn;
                rewrite ?posted_app; cbn; rewrite ?posted_app; cbn;
                rewrite ?app_nil_r; reflexivity);
          rewrite Hs1
      end.
      clearbody s1.
      destruct (IH (S j) k s1 Hp1 ltac:(lia)) as (s' & Hrun & Hp & Hw & Ho).
      { intros i Hi. apply Hok. lia. }
      { intros Hlt. replace (S j + k) with (j + S k) by lia. apply Hbad. lia. }
      { intros i Hi. apply Hdisk. lia. }
      exists s'. rewrite Hrun.
      replace (S j + k) with (j + S k) in * by lia.
      cbn [Nat.eqb]. split; [reflexivity|]. split.
      * rewrite Hp. destruct (Nat.eqb k m); lia.
      * rewrite Hw, Ho, Hw1, Ho1, <- !app_assoc. cbn [seq map app]. split; [reflexivity|].
        f_equal. destruct (Nat.eqb k m); reflexivity.
Qed.

End BatchLoop.

Lemma last_write_absent (ws : list (path * string)) (p : path) :
  ~ In p (map fst ws) -> Batch.last_write ws p = None.
Proof.
  induction ws as [|[q d] ws IH]; cbn; intros Hnot; [reflexivity|].
  rewrite IH by tauto.
  destruct (list_eq_dec string_dec q p); [exfalso; auto | reflexivity].
Qed.

Lemma last_write_unique (ws : list (path * string)) (p : path) (d : string) :
  NoDup (map fst ws) -> In (p, d) ws -> Batch.last_write ws p = Some d.
Proof.
  induction ws as [|[q d0] ws IH]; cbn; intros Hnd Hin; [contradiction|].
  inversion Hnd as [|x l Hq Hnd']; subst.
  destruct Hin as [Heq | Hin].
  - injection Heq as -> ->. rewrite last_write_absent by assumption.
    destruct (list_eq_dec string_dec p p); congruence.
  - now rewrite (IH Hnd' Hin).
Qed.

Lemma expected_writes_NoDup (server : nat -> Batch.post_result)
      (out_dir : path) (prefix : string) (k : nat) :
  lacks "/"%char prefix = true ->
  NoDup (map fst (Batch.expected_writes server out_dir prefix k)).
Proof.
  intros Hplain. unfold Batch.expected_writes. rewrite map_map. cbn [fst].
  generalize (seq_NoDup k 0). generalize (seq 0 k) as l.
  induction l as [|i l IH]; cbn; intros Hnd; [constructor|].
  inversion Hnd as [|x l' Hi Hnd']; subst. constructor; [|auto].
  rewrite in_map_iff. intros (j & Heq & Hj).
  rewrite !(path_div_plain _ _ (file_name_plain _ _ Hplain)) in Heq.
  apply app_inv_head in Heq.
  injection Heq as Heq. apply file_name_inj in Heq.
  injection Heq as ->. contradiction.
Qed.

(** C10, the claim as written, fails: a response outside the 2xx class that
    is not a 4xx or 5xx one (here 304) raises nothing and its body is written
    to the file of its index. *)
Lemma batch_non_2xx_response_is_written :
  let r := {| Batch.status_code := 304; Batch.content := "stale" |} in
  let run := Batch.generate (fun _ => Batch.Responded r) (fun _ => None)
               (fun _ => None) "cat" 30 "http://api/generate" ["out"] "p" 1
               0%float Batch.initial in
  Batch.is_2xx r = false /\
  fst run = Return tt /\
  Batch.writes (Batch.trace (snd run)) = [(["out"; "p_01.png"], "stale")].
Proof. vm_compute. repeat split. Qed.

(** C10, amended: with [n] the number of rounds, a prefix that holds no
    slash, a disk that lets the files of the rounds be written and a delay
    that is not positive or that [time.sleep] accepts: when the first
    [k <= n] responses are accepted (answered, and not with a 4xx or 5xx
    status) and, if [k < n], the next one is not, the loop issues [n] POSTs
    and returns when [k = n], and otherwise issues [k + 1] POSTs and raises;
    in both cases it writes exactly the files [prefix_01.png] ..
    [prefix_k.png], entries of the output directory, in index order, each
    holding the body of the response of its index, and nothing for a later
    index. *)
Theorem batch_generate_files
        (server : nat -> Batch.post_result) (disk : path -> option exn)
        (timer : float -> option exn) (prompt : string) (steps : Z)
        (url : string) (out_dir : path) (prefix : string) (count : Z)
        (delay : float) (k : nat) :
  lacks "/"%char prefix = true ->
  (PrimFloat.ltb 0 delay = true -> Batch.sleep_error timer delay = None) ->
  k <= Z.to_nat count ->
  (forall i, i < k -> Batch.accepted (server i) = true) ->
  (k < Z.to_nat count -> Batch.accepted (server k) = false) ->
  (forall i, i < k ->
     disk (out_dir ++ [Batch.file_name prefix (S i)]) = None) ->
  let n := Z.to_nat count in
  let run := Batch.generate server disk timer prompt steps url out_dir prefix
               count delay Batch.initial in
  fst run = (if Nat.eqb k n then Return tt
             else Raise (Batch.failure_of (server k))) /\
  Batch.posts (snd run) = (if Nat.eqb k n then n else S k) /\
  Batch.posted (Batch.trace (snd run))
  = repeat (url, Batch.payload prompt steps) (Batch.posts (snd run)) /\
  Batch.writes (Batch.trace (snd run))
  = map (fun i => (out_dir ++ [Batch.file_name prefix (S i)],
                   Batch.body_of server i)) (seq 0 k) /\
  (forall i, i < k ->
     Batch.file_content (Batch.trace (snd run))
       (out_dir ++ [Batch.file_name prefix (S i)])
     = Some (Batch.body_of server i)).
Proof.
  intros Hplain Hsleep Hk Hok Hbad Hdisk n run.
  destruct (generate_loop_run server disk timer prompt steps url out_dir
              prefix count delay Hplain Hsleep n 0 k
              {| Batch.posts := 0; Batch.trace := [Batch.EvMkdir out_dir] |}
              eq_refl Hk) as (s' & Hrun & Hp & Hw & Ho).
  { intros i Hi. apply Hok. lia. }
  { exact Hbad. }
  { intros i Hi. apply Hdisk. lia. }
  assert (Hgen : run = (if Nat.eqb k n then Return tt
                        else Raise (Batch.failure_of (server k)), s')).
  { subst run. unfold Batch.generate, bind, Batch.emit, modify.
    cbn [Batch.posts Batch.trace Batch.initial app]. exact Hrun. }
  assert (Hfiles : Batch.expected_writes server out_dir prefix k
                   = map (fun i => (out_dir ++ [Batch.file_name prefix (S i)],
                                    Batch.body_of server i)) (seq 0 k)).
  { unfold Batch.expected_writes. apply map_ext. intros i.
    now rewrite (path_div_plain _ _ (file_name_plain _ _ Hplain)). }
  rewrite Hgen. cbn [fst snd]. cbn in Hp, Hw, Ho.
  change (map _ (seq 0 k)) with (Batch.expected_writes server out_dir prefix k)
    in Hw.
  split; [reflexivity|]. split; [exact Hp|]. split; [now rewrite Hp|].
  split; [now rewrite Hw|].
  intros i Hi. unfold Batch.file_content. rewrite Hw.
  apply last_write_unique; [now apply expected_writes_NoDup|].
  rewrite Hfiles. apply in_map_iff. exists i. split; [reflexivity|].
  apply in_seq. lia.
Qed.

Lemma batch_generate_files_witness :
  let server := fun _ : nat =>
    Batch.Responded {| Batch.status_code := 200; Batch.content := "png" |} in
  let run := Batch.generate server (fun _ => None) (fun _ => None) "cat" 30
               "http://api/generate" ["out"] "p" 2 0.5%float Batch.initial in
  fst run = Return tt /\
  Batch.posts (snd run) = 2 /\
  Batch.writes (Batch.trace (snd run))
  = [(["out"; "p_01.png"], "png"); (["out"; "p_02.png"], "png")].
Proof.
  intros server run.
  destruct (batch_generate_files server (fun _ => None) (fun _ => None) "cat"
              30 "http://api/generate" ["out"] "p" 2 0.5%float 2)
    as (Hr & Hp & _ & Hw & _).
  - reflexivity.
  - intros _. reflexivity.
  - vm_compute. lia.
  - intros i _. reflexivity.
  - vm_compute. lia.
  - intros i _. reflexivity.
  - repeat split; assumption.
Defined.

(** ** The request builder *)

(** C5: [build_prompt] is a pure function of its twenty arguments.  Run in
    any two states, of any two state types, it raises nothing, leaves the
    state as it found it and returns the same payload, which is the closed
    form [expected_graph] of the arguments alone. *)
Theorem build_prompt_deterministic
        (prompt_text negative_text seed width height frames steps cfg
         sampler scheduler denoise clip_name unet_name vae_name fps_webm
         fps_webp filename_prefix include_webm include_webp
         include_images : json)
        (S1 S2 : Type) (s1 : S1) (s2 : S2) :
  let payload :=
    JDict (expected_graph prompt_text negative_text seed width height frames
             steps cfg sampler scheduler denoise clip_name unet_name vae_name
             fps_webm fps_webp filename_prefix include_webm include_webp
             include_images) in
  Wan.build_prompt prompt_text negative_text seed width height frames steps
    cfg sampler scheduler denoise clip_name unet_name vae_name fps_webm
    fps_webp filename_prefix include_webm include_webp include_images s1
  = (Return payload, s1) /\
  Wan.build_prompt prompt_text negative_text seed width height frames steps
    cfg sampler scheduler denoise clip_name unet_name vae_name fps_webm
    fps_webp filename_prefix include_webm include_webp include_images s2
  = (Return payload, s2).
Proof.
  unfold Wan.build_prompt, expected_graph, Wan.set_item, bind, ret.
  destruct (truthy include_webp), (truthy include_webm),
    (truthy include_images); split; reflexivity.
Qed.

(** ** Seeds *)

Lemma make_seeds_run (e : Wan.env) (base : option Z) (m : nat) :
  forall (j : nat) (w : Wan.world),
  exists seeds w',
    Wan.make_seeds e base (seq j m) w = (Return seeds, w') /\
    List.length seeds = m /\
    Wan.trace w' = Wan.trace w /\
    Wan.net_calls w' = Wan.net_calls w /\
    Wan.now w' = Wan.now w /\
    Wan.port_forward_proc w' = Wan.port_forward_proc w /\
    Wan.draws w' = (match base with
                    | Some _ => Wan.draws w
                    | None => Wan.draws w + m
                    end) /\
    forall i, i < m ->
      nth i seeds 0%Z
      = match base with
        | Some b => (b + Z.of_nat (j + i))%Z
        | None => (Z.of_N (Wan.entropy e (Wan.draws w + i)) mod 2 ^ 63)%Z
        end.
Proof.
  induction m as [|m IH]; intros j w.
  - exists [], w. cbn. destruct base; repeat split; auto; intros; lia.
  - cbn [seq Wan.make_seeds]. destruct base as [b|].
    + destruct (IH (S j) w) as (seeds & w' & Hrun & Hlen & Ht & Hn & Hc & Hp & Hd & Hnth).
      exists ((b + Z.of_nat j)%Z :: seeds), w'.
      unfold bind at 1. unfold ret at 1. unfold bind at 1. rewrite Hrun.
      repeat split; auto; [cbn; lia|].
      intros [|i] Hi; cbn [nth].
      * now rewrite Nat.add_0_r.
      * rewrite Hnth by lia. f_equal. lia.
    + set (w1 := {| Wan.now := Wan.now w; Wan.net_calls := Wan.net_calls w;
                    Wan.draws := S (Wan.draws w);
                    Wan.port_forward_proc := Wan.port_forward_proc w;
                    Wan.trace := Wan.trace w |}).
      destruct (IH (S j) w1) as (seeds & w' & Hrun & Hlen & Ht & Hn & Hc & Hp & Hd & Hnth).
      exists ((0 + Z.of_N (Wan.entropy e (Wan.draws w)) mod (2 ^ 63 - 0))%Z :: seeds), w'.
      unfold bind at 1. unfold Wan.randrange at 1.
      replace (Z.leb (2 ^ 63) 0) with false by reflexivity.
      fold w1. unfold bind at 1. rewrite Hrun.
      repeat split; auto; [cbn; lia | cbn in Hd; lia |].
      intros [|i] Hi; cbn [nth].
      * rewrite Nat.add_0_r, Z.sub_0_r. reflexivity.
      * rewrite Hnth by lia. cbn [Wan.draws w1].
        replace (S (Wan.draws w) + i) with (Wan.draws w + S i) by lia.
        reflexivity.
Qed.

(** C6, the claim as written, fails twice over: with [--seed 7] and a count
    of 2 the second entry is 8, not the supplied seed, and with a negative
    count the list is empty, so its length is not the count. *)
Lemma seeds_not_as_worded :
  (fst (Wan.make_seeds (constant_env Wan.Unavailable) (Some 7%Z)
          (seq 0 (Z.to_nat 2)) (Wan.initial 0)) = Return [7%Z; 8%Z]
   /\ ~ seeds_as_worded (Some 7%Z) 2 [7%Z; 8%Z])
  /\
  (fst (Wan.make_seeds (constant_env Wan.Unavailable) None
          (seq 0 (Z.to_nat (-1))) (Wan.initial 0)) = Return []
   /\ ~ seeds_as_worded None (-1) []).
Proof.
  repeat split.
  - intros [_ H]. inversion H as [|x l _ H']; subst.
    inversion H' as [|y l' Hy _]; subst. discriminate.
  - intros [H _]. discriminate.
Qed.

(** C6, amended: for every count [n] the loop draws nothing from the network
    and returns a list of [max n 0] seeds; with [--seed b] entry [i] is
    [b + i], and without it entry [i] is the [i]-th fresh draw of the run,
    a number in [0, 2^63). *)
Theorem make_seeds_spec (e : Wan.env) (base : option Z) (count : Z)
        (w : Wan.world) :
  exists seeds w',
    Wan.make_seeds e base (seq 0 (Z.to_nat count)) w = (Return seeds, w') /\
    Z.of_nat (List.length seeds) = Z.max count 0 /\
    Wan.trace w' = Wan.trace w /\
    forall i, i < List.length seeds ->
      match base with
      | Some b => nth i seeds 0%Z = (b + Z.of_nat i)%Z
      | None =>
          nth i seeds 0%Z
          = (Z.of_N (Wan.entropy e (Wan.draws w + i)) mod 2 ^ 63)%Z
          /\ (0 <= nth i seeds 0 < 2 ^ 63)%Z
      end.
Proof.
  destruct (make_seeds_run e base (Z.to_nat count) 0 w)
    as (seeds & w' & Hrun & Hlen & Ht & _ & _ & _ & _ & Hnth).
  exists seeds, w'. repeat split; auto; [lia|].
  intros i Hi. rewrite Hlen in Hi. specialize (Hnth i Hi).
  destruct base as [b|]; [exact Hnth|]. split; [exact Hnth|].
  rewrite Hnth. apply Z.mod_pos_bound. reflexivity.
Qed.

(** ** The mode and format guard *)

(** With the values [argparse] admits, video mode always enables one of
    the two video nodes: the guard of [main] cannot fire from the command
    line. *)
Lemma parsed_video_enables_a_format (a : Wan.args) :
  parsed a -> Wan.mode a = "video" ->
  (Wan.include_webm a || Wan.include_webp a)%bool = true.
Proof.
  intros [_ Hf] Hm. unfold Wan.include_webm, Wan.include_webp. rewrite Hm.
  cbn in Hf. destruct Hf as [<- | [<- | [<- | []]]]; reflexivity.
Qed.

(** C7: a command line whose mode is "video" and whose format enables
    neither the webm nor the webp node is rejected before anything is done.
    Such a format is outside the choices of [--format], so [parse_args]
    itself exits (status 2) and [main] never starts: the state is
    untouched, so no directory is made, no seed drawn and no request of
    any kind sent.  The guard of [main] would reject the same mode and
    format at once, also with the state untouched. *)
Theorem main_rejects_video_without_format
        (e : Wan.env) (given_mode given_format : option string)
        (rest : Wan.args) (fuel : nat) (w : Wan.world) :
  chosen "video" given_mode = "video" ->
  Wan.str_in (chosen "webm" given_format) ["webm"; "both"] = false ->
  Wan.str_in (chosen "webm" given_format) ["webp"; "both"] = false ->
  Wan.cli e given_mode given_format rest fuel w
  = (Raise (SystemExitCode 2), w) /\
  Wan.main e (Wan.set_mode_format (chosen "video" given_mode)
                                  (chosen "webm" given_format) rest) fuel w
  = (Raise (SystemExit "Select at least one video format."), w).
Proof.
  intros Hm Hwebm Hwebp. split.
  - unfold Wan.cli, Wan.parse_choice.
    destruct given_format as [f|]; [|discriminate].
    cbn [chosen] in Hwebm, Hwebp.
    assert (Hf : Wan.str_in f ["webm"; "webp"; "both"] = false).
    { unfold Wan.str_in in *. cbn [existsb] in *.
      apply orb_false_elim in Hwebm as [H1 H2].
      apply orb_false_elim in Hwebp as [H3 _].
      now rewrite H1, H2, H3. }
    rewrite Hf.
    destruct given_mode as [m|]; cbn [chosen] in Hm;
      [subst m|]; reflexivity.
  - unfold Wan.main, Wan.include_webm, Wan.include_webp.
    cbn [Wan.mode Wan.format Wan.set_mode_format].
    rewrite Hm, Hwebm, Hwebp. reflexivity.
Qed.

Lemma main_rejects_video_without_format_witness :
  Wan.cli (constant_env Wan.Unavailable) None (Some "gif")
          (default_args "a cat") 1 (Wan.initial 0)
  = (Raise (SystemExitCode 2), Wan.initial 0).
Proof.
  apply (main_rejects_video_without_format
           (constant_env Wan.Unavailable) None (Some "gif")
           (default_args "a cat") 1 (Wan.initial 0));
    reflexivity.
Defined.

(** ** The polling loop *)

Lemma wait_loop_step (e : Wan.env) (fuel : nat) (base_url : string)
      (prompt_id : json) (deadline poll_interval : Z) (w : Wan.world) :
  Wan.wait_for_prompt_loop e (S fuel) base_url prompt_id deadline
                           poll_interval w
  = if Z.ltb (Wan.now w) deadline then
      let w1 := after_call e (Wan.EvRequest base_url (Wan.History prompt_id)
                                            None) w in
      match Wan.reply_of e (Wan.net_calls w) with
      | Wan.Unavailable => (Raise TransportError, w1)
      | Wan.Body resp =>
          match poll_result prompt_id resp with
          | Return (Some entry) => (Return entry, w1)
          | Return None =>
              bind (Wan.sleep e poll_interval)
                   (fun _ => Wan.wait_for_prompt_loop e fuel base_url prompt_id
                               deadline poll_interval) w1
          | Raise x => (Raise x, w1)
          | OutOfFuel => (OutOfFuel, w1)
          end
      end
    else (Raise timed_out, w).
Proof.
  cbn [Wan.wait_for_prompt_loop]. unfold bind at 1. unfold Wan.time_time at 1.
  destruct (Z.ltb (Wan.now w) deadline); [|reflexivity].
  unfold bind at 1. unfold Wan.request_json at 1. unfold bind at 1.
  unfold Wan.net_call at 1. fold (after_call e (Wan.EvRequest base_url (Wan.History prompt_id) None) w).
  cbv zeta.
  destruct (Wan.reply_of e (Wan.net_calls w)) as [resp|]; [|reflexivity].
  unfold ret at 1. unfold bind at 1. unfold lift at 1. unfold poll_result.
  destruct (Wan.dict_contains resp prompt_id) as [[|]| |]; cbn [obind];
    try reflexivity.
  - unfold bind at 1. unfold bind at 1. unfold lift at 1.
    destruct (Wan.dict_item_at resp prompt_id) as [entry| |]; cbn [obind];
      try reflexivity.
    unfold lift at 1.
    destruct (Wan.completed_entry entry) as [[entry'|]| |]; reflexivity.
Qed.

Lemma pending_entry_polls_on (entry : json) :
  pending_entry entry -> Wan.completed_entry entry = Return None.
Proof.
  intros (d & -> & H). unfold Wan.completed_entry, py_get, py_get_default.
  cbn [obind]. destruct (dict_get d "status") as [st|].
  - destruct H as [Hf | (status & -> & Hc)].
    + unfold py_or. rewrite Hf. reflexivity.
    + unfold py_or. destruct (truthy (JDict status)); cbn [obind dict_get].
      * destruct (dict_get status "completed") as [c|]; [now rewrite Hc | reflexivity].
      * reflexivity.
  - reflexivity.
Qed.

Lemma pending_polls_on (prompt_id : json) (r : Wan.reply) :
  pending prompt_id r ->
  exists resp, r = Wan.Body resp /\ poll_result prompt_id resp = Return None.
Proof.
  intros (resp & -> & H). exists resp. split; [reflexivity|].
  unfold poll_result, Wan.dict_contains, Wan.dict_item_at, dict_mem, dict_item.
  destruct prompt_id as [| | | |k| |]; try reflexivity; try contradiction.
  destruct (dict_get resp k) as [entry|]; cbn [obind]; [|reflexivity].
  now apply pending_entry_polls_on.
Qed.

Lemma pending_hides_completion (prompt_id : json) (r : Wan.reply) :
  pending prompt_id r -> completion_flag prompt_id r = false.
Proof.
  intros (resp & -> & H). unfold completion_flag.
  destruct prompt_id as [| | | |k| |]; try reflexivity.
  destruct (dict_get resp k) as [entry|]; [|reflexivity].
  destruct H as (d & -> & H).
  destruct (dict_get d "status") as [st|]; [|reflexivity].
  destruct H as [Hf | (status & -> & Hc)].
  - destruct st; try reflexivity. cbn in Hf. destruct d0; [reflexivity | discriminate].
  - destruct (dict_get status "completed"); auto.
Qed.

Lemma sleep_accepted (e : Wan.env) (d : Z) (w : Wan.world) :
  Wan.sleep_error e d = None ->
  Wan.sleep e d w
  = (Return tt,
     {| Wan.now := (Wan.now w + d)%Z; Wan.net_calls := Wan.net_calls w;
        Wan.draws := Wan.draws w;
        Wan.port_forward_proc := Wan.port_forward_proc w;
        Wan.trace := Wan.trace w ++ [Wan.EvSleep d] |}).
Proof. intros H. unfold Wan.sleep. now rewrite H. Qed.

(** A sleep of up to [safe_sleep] seconds is accepted. *)
Lemma sleep_error_short (e : Wan.env) (d : Z) :
  (0 <= d <= Wan.seconds e Wan.safe_sleep)%Z -> Wan.sleep_error e d = None.
Proof.
  intros [Hlo Hhi]. unfold Wan.sleep_error.
  unfold Wan.seconds, Wan.safe_sleep, Wan.clock_max in *.
  replace (Z.ltb ((2 ^ 63 - 1) * Z.pos (Wan.hz e)) (d * 10 ^ 9)) with false
    by (symmetry; apply Z.ltb_ge; nia).
  replace (Z.ltb (d * 10 ^ 9) (- (2 ^ 63 - 1 + 1) * Z.pos (Wan.hz e)))
    with false by (symmetry; apply Z.ltb_ge; nia).
  cbn [orb].
  replace (Z.ltb d 0) with false by (symmetry; apply Z.ltb_ge; lia).
  replace (Z.leb d (10 ^ 9 * Z.pos (Wan.hz e))) with true
    by (symmetry; apply Z.leb_le; lia).
  reflexivity.
Qed.

Lemma sleep_error_seconds (e : Wan.env) (n : Z) :
  (0 <= n <= Wan.safe_sleep)%Z -> Wan.sleep_error e (Wan.seconds e n) = None.
Proof.
  intros H. apply sleep_error_short. unfold Wan.seconds, Wan.safe_sleep in *.
  nia.
Qed.

Lemma wait_loop_times_out (e : Wan.env) (base_url : string) (prompt_id : json)
      (deadline poll_interval : Z) :
  Wan.sleep_error e poll_interval = None ->
  forall (fuel : nat) (w : Wan.world),
    (forall i, Wan.net_calls w <= i -> pending prompt_id (Wan.reply_of e i)) ->
    (forall i, Wan.net_calls w <= i ->
               (0 < Z.of_N (Wan.latency_of e i) + poll_interval)%Z) ->
    Z.to_nat (deadline - Wan.now w) < fuel ->
    exists w',
      Wan.wait_for_prompt_loop e fuel base_url prompt_id deadline
                               poll_interval w = (Raise timed_out, w') /\
      (deadline <= Wan.now w')%Z.
Proof.
  intros Hpoll. induction fuel as [|fuel IH]; intros w Hpend Hprog Hfuel; [lia|].
  rewrite wait_loop_step. destruct (Z.ltb_spec (Wan.now w) deadline) as [Hlt|Hge].
  - cbv zeta.
    destruct (pending_polls_on _ _ (Hpend _ (le_n _))) as (resp & -> & ->).
    unfold bind at 1. rewrite (sleep_accepted _ _ _ Hpoll).
    pose proof (Hprog _ (le_n _)) as Hstep.
    apply IH; cbn [Wan.net_calls Wan.now after_call].
    + intros i Hi. apply Hpend. lia.
    + intros i Hi. apply Hprog. lia.
    + lia.
  - exists w. split; [reflexivity | lia].
Qed.

Lemma wait_loop_never_returns (e : Wan.env) (base_url : string)
      (prompt_id : json) (deadline poll_interval : Z) :
  forall (fuel : nat) (w : Wan.world) (entry : json),
    (forall i, Wan.net_calls w <= i -> pending prompt_id (Wan.reply_of e i)) ->
    fst (Wan.wait_for_prompt_loop e fuel base_url prompt_id deadline
                                  poll_interval w) <> Return entry.
Proof.
  induction fuel as [|fuel IH]; intros w entry Hpend; [discriminate|].
  rewrite wait_loop_step. destruct (Z.ltb (Wan.now w) deadline); [|discriminate].
  cbv zeta.
  destruct (pending_polls_on _ _ (Hpend _ (le_n _))) as (resp & -> & ->).
  unfold bind at 1, Wan.sleep at 1.
  destruct (Wan.sleep_error e poll_interval); [discriminate|].
  apply IH. cbn [Wan.net_calls after_call]. intros i Hi. apply Hpend. lia.
Qed.

(** C2, the claim as written, fails: the completion flag is never seen in
    any of these runs, yet none ends in the timeout error.  An unanswered
    poll lets the transport error escape, a negative poll interval makes
    [time.sleep] raise [ValueError] after the first poll, and a poll
    interval of 10^10 seconds makes it raise [OverflowError]. *)
Lemma polling_can_end_without_timeout :
  let base := "http://127.0.0.1:8181" in
  let down := constant_env Wan.Unavailable in
  let idle := constant_env (Wan.Body []) in
  ((forall i, completion_flag (JStr "abc") (Wan.reply_of down i) = false) /\
   forall fuel,
     fst (Wan.wait_for_prompt down (S fuel) base (JStr "abc") 10 5
                              (Wan.initial 0)) = Raise TransportError)
  /\
  ((forall i, completion_flag (JStr "abc") (Wan.reply_of idle i) = false) /\
   (forall fuel,
      fst (Wan.wait_for_prompt idle (S fuel) base (JStr "abc") 10 (-1)
                               (Wan.initial 0)) = Raise ValueError) /\
   (forall fuel,
      fst (Wan.wait_for_prompt idle (S fuel) base (JStr "abc") (10 ^ 11)
                               (10 ^ 10) (Wan.initial 0))
      = Raise OverflowError)).
Proof.
  cbv zeta. repeat split; try reflexivity; intros fuel;
    unfold Wan.wait_for_prompt, bind, Wan.time_time;
    rewrite wait_loop_step; reflexivity.
Qed.

(** C2, amended: for every timeout and every poll interval that
    [time.sleep] accepts (it is not negative, its nanoseconds fit the
    clock, and the platform's timer takes it: any interval from 0 to 10^9
    seconds will do), when every poll from the current state on is answered
    and shows the job absent or still running, and every round moves the
    clock (latency plus poll interval is positive), the loop never returns
    an entry and, given fuel for more rounds than the timeout has ticks,
    ends by raising the timeout error with the clock at or past the
    deadline. *)
Theorem wait_for_prompt_times_out
        (e : Wan.env) (base_url : string) (prompt_id : json)
        (timeout poll_interval : Z) (w : Wan.world) :
  Wan.sleep_error e poll_interval = None ->
  (forall i, Wan.net_calls w <= i -> pending prompt_id (Wan.reply_of e i)) ->
  (forall i, Wan.net_calls w <= i ->
             (0 < Z.of_N (Wan.latency_of e i) + poll_interval)%Z) ->
  (forall fuel entry,
     fst (Wan.wait_for_prompt e fuel base_url prompt_id timeout
                              poll_interval w) <> Return entry) /\
  (forall fuel, Z.to_nat timeout < fuel ->
     exists w',
       Wan.wait_for_prompt e fuel base_url prompt_id timeout poll_interval w
       = (Raise timed_out, w') /\
       (Wan.now w + timeout <= Wan.now w')%Z).
Proof.
  intros Hpoll Hpend Hprog. split.
  - intros fuel entry. unfold Wan.wait_for_prompt, bind, Wan.time_time.
    now apply wait_loop_never_returns.
  - intros fuel Hfuel. unfold Wan.wait_for_prompt, bind, Wan.time_time.
    apply wait_loop_times_out; auto.
    replace (Wan.now w + timeout - Wan.now w)%Z with timeout by lia.
    exact Hfuel.
Qed.

Lemma wait_for_prompt_times_out_witness :
  exists w',
    Wan.wait_for_prompt (constant_env (Wan.Body [])) 11
      "http://127.0.0.1:8181" (JStr "abc") 10 5 (Wan.initial 0)
    = (Raise timed_out, w') /\ (10 <= Wan.now w')%Z.
Proof.
  destruct (wait_for_prompt_times_out (constant_env (Wan.Body []))
              "http://127.0.0.1:8181" (JStr "abc") 10 5 (Wan.initial 0))
    as [_ H].
  - reflexivity.
  - intros i _. exists []. split; reflexivity.
  - intros i _. cbn. lia.
  - apply (H 11). cbn. lia.
Defined.

(** The loop hands back an entry only when its status reports completion
    with the status string "success". *)
Lemma completed_entry_returns_success (entry x : json) :
  Wan.completed_entry entry = Return (Some x) ->
  x = entry /\ succeeded_entry entry.
Proof.
  unfold Wan.completed_entry, py_get, py_get_default.
  destruct entry as [| | | | | |d]; try discriminate. cbn [obind].
  destruct (dict_get d "status") as [st|] eqn:Hst; [|discriminate].
  unfold py_or. destruct (truthy st) eqn:Hts; [|discriminate].
  destruct st as [| | | | | |status]; try discriminate. cbn [obind].
  destruct (dict_get status "completed") as [c|] eqn:Hc; [|discriminate].
  destruct (truthy c) eqn:Htc; [|discriminate]. cbn [obind].
  destruct (dict_get status "status_str") as [s|] eqn:Hs.
  - destruct (str_eq s "success") eqn:Heq; cbn [negb].
    + intros H. injection H as <-.
      destruct s as [| | | |s| |]; try discriminate. cbn in Heq.
      apply String.eqb_eq in Heq. subst s.
      split; [reflexivity|]. exists d, status, c. auto.
    + intros H. exfalso. cbn [obind] in H.
      destruct (dict_get status "messages") as [m|];
        destruct (py_iter _); cbn in H; try discriminate;
        destruct (str_join _ _); discriminate.
  - intros H. exfalso. cbn in H.
    destruct (dict_get status "messages") as [m|]; cbn in H;
      [destruct (py_iter _); cbn in H; try discriminate;
       destruct (str_join _ _)|]; discriminate.
Qed.

Lemma poll_result_returns_success (prompt_id : json) (resp : dict)
      (entry : json) :
  poll_result prompt_id resp = Return (Some entry) -> succeeded_entry entry.
Proof.
  unfold poll_result.
  destruct (Wan.dict_contains resp prompt_id) as [[|]| |]; cbn [obind];
    try discriminate.
  destruct (Wan.dict_item_at resp prompt_id) as [x| |]; cbn [obind];
    try discriminate.
  intros H. apply completed_entry_returns_success in H as [-> H]. exact H.
Qed.

Lemma wait_for_prompt_returns_success (e : Wan.env) (fuel : nat)
      (base_url : string) (prompt_id : json) (timeout poll_interval : Z)
      (w : Wan.world) (entry : json) :
  fst (Wan.wait_for_prompt e fuel base_url prompt_id timeout poll_interval w)
  = Return entry ->
  succeeded_entry entry.
Proof.
  unfold Wan.wait_for_prompt, bind, Wan.time_time.
  generalize (Wan.now w + timeout)%Z as deadline. intros deadline.
  revert w. induction fuel as [|fuel IH]; intros w; [discriminate|].
  rewrite wait_loop_step. destruct (Z.ltb (Wan.now w) deadline); [|discriminate].
  cbv zeta. destruct (Wan.reply_of e (Wan.net_calls w)) as [resp|];
    [|discriminate].
  destruct (poll_result prompt_id resp) as [[x|]| |] eqn:Hpoll;
    try discriminate.
  - cbn. intros H. injection H as <-.
    now apply poll_result_returns_success in Hpoll.
  - unfold bind at 1, Wan.sleep at 1.
    destruct (Wan.sleep_error e poll_interval); [discriminate|]. apply IH.
Qed.

Lemma str_join_strings (sep : string) (l : list json) :
  forallb is_str l = true -> exists s, str_join sep l = Return s.
Proof.
  induction l as [|v l IH]; cbn [forallb str_join]; [eauto|].
  destruct v as [| | | |s| |]; cbn [is_str andb]; try discriminate.
  intros Hl. destruct l as [|v' l']; [eauto|].
  destruct (IH Hl) as (t & ->). cbn [obind]. eauto.
Qed.

(** A completed entry without the success string raises the generation
    error when its messages are missing, falsy, or a list of strings. *)
Lemma completed_failure_with_text_messages (d status : dict) (c s : json) :
  dict_get d "status" = Some (JDict status) ->
  dict_get status "completed" = Some c -> truthy c = true ->
  dict_get status "status_str" = Some s -> str_eq s "success" = false ->
  match dict_get status "messages" with
  | None => True
  | Some m => truthy m = false \/ exists l, m = JList l /\ forallb is_str l = true
  end ->
  exists x, Wan.completed_entry (JDict d) = Raise x /\
            is_generation_error x = true.
Proof.
  intros Hst Hc Htc Hs Hne Hm.
  unfold Wan.completed_entry, py_get, py_get_default. cbn [obind].
  rewrite Hst. unfold py_or.
  assert (truthy (JDict status) = true) as ->
    by (destruct status; [discriminate | reflexivity]).
  cbn [obind]. rewrite Hc, Htc. cbn [obind]. rewrite Hs, Hne. cbn [negb obind].
  destruct (dict_get status "messages") as [m|].
  - destruct Hm as [Hf | (l & -> & Hl)].
    + rewrite Hf. cbn. eauto.
    + destruct l as [|v l]; [cbn; eauto|]. cbn [truthy py_iter obind].
      destruct (str_join_strings ", " (v :: l) Hl) as (t & ->). cbn [obind].
      eexists; split; [reflexivity|]. now destruct (String.eqb t "").
  - cbn. eauto.
Qed.

(** C3: a poll that finds the job completed without success, with messages
    in the server's usual shape of (event, data) pairs, does not end in the
    generation error: joining the messages raises [TypeError] first. *)
Theorem failed_job_raises_type_error :
  fst (Wan.wait_for_prompt (constant_env (Wan.Body failed_history)) 1
         "http://127.0.0.1:8181" (JStr "abc") 3600 5 (Wan.initial 0))
  = Raise TypeError
  /\ completion_flag (JStr "abc") (Wan.Body failed_history) = true
  /\ is_generation_error TypeError = false.
Proof. repeat split. Qed.

(** ** Extraction and the empty result *)

Lemma named_items_nameless (l : list json) :
  forallb lacks_filename l = true -> Wan.named_items l = [].
Proof.
  unfold Wan.named_items.
  induction l as [|item l IH]; cbn [forallb filter]; [reflexivity|].
  intros H. apply andb_prop in H as [Hi Hl]. rewrite (IH Hl).
  destruct item as [| | | | | |d]; try reflexivity.
  cbn in Hi. apply negb_true_iff in Hi. now rewrite Hi.
Qed.

Lemma output_files_nameless (d : dict) (keys : list string) :
  (forall key, In key keys ->
     match dict_get d key with
     | None => True
     | Some items =>
         truthy items = false \/
         exists l, items = JList l /\ forallb lacks_filename l = true
     end) ->
  Wan.output_files (JDict d) keys = Return [].
Proof.
  induction keys as [|key keys IH]; intros H; [reflexivity|].
  cbn [Wan.output_files]. unfold py_get, py_get_default. cbn [obind].
  pose proof (H key (or_introl eq_refl)) as Hk.
  assert (IH' := IH (fun k Hin => H k (or_intror Hin))).
  destruct (dict_get d key) as [items|]; [|exact IH'].
  destruct Hk as [Hf | (l & -> & Hl)].
  - rewrite Hf. exact IH'.
  - destruct l as [|x l]; [exact IH'|]. cbn [truthy negb py_iter obind].
    rewrite IH'. cbn [obind]. now rewrite named_items_nameless.
Qed.

Lemma outputs_files_nameless (outputs : list json) :
  Forall nameless_output outputs -> Wan.outputs_files outputs = Return [].
Proof.
  induction 1 as [|output outputs (d & -> & Hd) _ IH]; [reflexivity|].
  cbn [Wan.outputs_files]. rewrite (output_files_nameless d _ Hd), IH.
  reflexivity.
Qed.

Lemma generate_all_returns (e : Wan.env) (a : Wan.args) (fuel : nat)
      (run_dir : path) (client_id : string) (jobs : list (nat * Z)) :
  forall (w w' : Wan.world) (files : list path),
    Wan.generate_all e a fuel run_dir client_id jobs w = (Return files, w') ->
    all_jobs_saved e a fuel run_dir client_id jobs w.
Proof.
  induction jobs as [|[idx seed] rest IH]; intros w w' files H; [exact I|].
  cbn [Wan.generate_all all_jobs_saved] in *.
  unfold bind at 1 in H. unfold Wan.generate_one at 1 in H.
  unfold bind at 1 in H.
  destruct (Wan.run_job e a fuel client_id idx seed w) as [[entry| |] w1];
    try discriminate.
  destruct (Wan.save_outputs e a run_dir entry w1) as [[saved| |] w2] eqn:Hsave;
    try discriminate.
  unfold bind at 1 in H.
  destruct (Wan.generate_all e a fuel run_dir client_id rest w2)
    as [[more| |] w3] eqn:Hrest; try discriminate.
  assert (Hex : exists file fs, Wan.extract_files entry = Return (file :: fs)).
  { unfold Wan.save_outputs, bind, lift in Hsave.
    destruct (Wan.extract_files entry) as [[|file fs]| |]; try discriminate.
    eauto. }
  destruct Hex as (file & fs & Hex).
  exists entry, w1, file, fs, saved, w2. repeat split; auto.
  eapply IH. exact Hrest.
Qed.

Lemma try_finally_returns {S A : Type} (body : M S A) (fin : M S unit)
      (s s' : S) (x : A) :
  try_finally body fin s = (Return x, s') ->
  exists s1, body s = (Return x, s1).
Proof.
  unfold try_finally. destruct (body s) as [[y| |] s1]; intros H.
  - destruct (fin s1) as [[[]| |] s2]; try discriminate.
    injection H as -> _. eauto.
  - destruct (fin s1) as [[[]| |] s2]; discriminate.
  - discriminate.
Qed.

Lemma guarded_returns (e : Wan.env) (a : Wan.args) (fuel : nat)
      (run_dir : path) (client_id : string) (seeds : list Z)
      (w w' : Wan.world) (files : list path) :
  Wan.guarded e a fuel run_dir client_id seeds w = (Return files, w') ->
  exists w1,
    Wan.generate_all e a fuel run_dir client_id (Wan.enumerate1 seeds) w1
    = (Return files, w').
Proof.
  unfold Wan.guarded. unfold bind at 1.
  destruct (Wan.is_server_reachable e (Wan.comfy_url a) w) as [[r| |] w1];
    try discriminate.
  unfold bind at 1.
  match goal with
  | |- context [ (if r then ?m1 else ?m2) w1 ] =>
      destruct ((if r then m1 else m2) w1) as [[[]| |] w2]; try discriminate
  end.
  unfold bind at 1.
  match goal with
  | |- context [ (if Wan.skip_check a then ?m1 else ?m2) w2 ] =>
      destruct ((if Wan.skip_check a then m1 else m2) w2) as [[[]| |] w3];
        try discriminate
  end.
  eauto.
Qed.

(** ** The download step *)

Lemma saved_files_app (t u : list Wan.event) :
  saved_files (t ++ u) = saved_files t ++ saved_files u.
Proof. apply flat_map_app. Qed.

Lemma path_eqb_last (dir : path) (x y : string) :
  path_eqb (dir ++ [x]) (dir ++ [y]) = String.eqb x y.
Proof.
  destruct (String.eqb_spec x y) as [->|Hne].
  - now apply path_eqb_eq.
  - apply not_true_is_false. intros H. apply path_eqb_eq in H.
    apply app_inv_head in H. congruence.
Qed.

(** For a plain name only the disk decides whether the file can be
    created. *)
Lemma write_error_plain (e : Wan.env) (dir : path) (name : string) :
  plain_name name = true ->
  Wan.write_error e dir (dir ++ [name]) = Wan.open_error e (dir ++ [name]).
Proof.
  unfold plain_name. intros H. apply andb_prop in H as [_ Hdd].
  unfold Wan.write_error.
  rewrite path_below_differs, path_eqb_last.
  apply negb_true_iff in Hdd. now rewrite Hdd.
Qed.

Lemma writable_dest (e : Wan.env) (dir : path) (file_info : json) :
  writable e dir file_info ->
  exists name,
    file_name_of file_info = Some name /\ plain_name name = true /\
    dest_of dir file_info = dir ++ [name] /\
    Wan.write_error e dir (dir ++ [name]) = None.
Proof.
  unfold writable, dest_of. destruct (file_name_of file_info) as [name|];
    [|contradiction].
  intros [Hplain Hdisk]. exists name.
  rewrite path_div_plain, write_error_plain by exact Hplain. auto.
Qed.

Lemma download_file_saves (e : Wan.env) (base_url : string)
      (file_info : json) (run_dir : path) (w : Wan.world) :
  writable e run_dir file_info ->
  Wan.reply_of e (Wan.net_calls w) <> Wan.Unavailable ->
  exists w',
    Wan.download_file e base_url file_info run_dir w
    = (Return (dest_of run_dir file_info), w') /\
    Wan.net_calls w' = S (Wan.net_calls w) /\
    saved_files (Wan.trace w')
    = saved_files (Wan.trace w) ++ [dest_of run_dir file_info].
Proof.
  intros Hw Hreply.
  destruct (writable_dest _ _ _ Hw) as (name & Hname & Hplain & Hdest & Hfree).
  rewrite Hdest.
  destruct file_info as [| | | | | |d]; try discriminate.
  cbn [file_name_of] in Hname.
  destruct (dict_get d "filename") as [[| | | |name'| |]|] eqn:Hd;
    try discriminate.
  injection Hname as ->.
  unfold Wan.download_file, py_item, dict_item, py_get_default.
  rewrite Hd. unfold Wan.urlretrieve, Wan.net_call.
  unfold bind, lift, Wan.emit, modify, ret. cbn [Wan.net_calls Wan.trace].
  destruct (Wan.reply_of e (Wan.net_calls w)) as [body|]; [|now elim Hreply].
  rewrite (path_div_plain _ _ Hplain), Hfree.
  eexists. split; [reflexivity|]. cbn [Wan.net_calls Wan.trace].
  split; [reflexivity|].
  rewrite !saved_files_app. cbn. now rewrite !app_nil_r.
Qed.

Lemma download_files_run (e : Wan.env) (a : Wan.args) (run_dir : path)
      (files : list json) :
  forall w : Wan.world,
    Forall (fun f => file_name_of f <> None) files ->
    Forall (writable e run_dir) (filter (kept a) files) ->
    (forall i,
       Wan.net_calls w <= i < Wan.net_calls w + List.length (filter (kept a) files) ->
       Wan.reply_of e i <> Wan.Unavailable) ->
    exists w',
      Wan.download_files e a run_dir files w
      = (Return (map (dest_of run_dir) (filter (kept a) files)), w') /\
      Wan.net_calls w'
      = Wan.net_calls w + List.length (filter (kept a) files) /\
      saved_files (Wan.trace w')
      = saved_files (Wan.trace w)
        ++ map (dest_of run_dir) (filter (kept a) files).
Proof.
  induction files as [|f files IH]; intros w Hnames Hdisk Hnet.
  - exists w. cbn. rewrite Nat.add_0_r, app_nil_r. auto.
  - inversion Hnames as [|x l Hf Hrest]; subst.
    destruct f as [| | | | | |d]; try (now elim Hf).
    cbn [file_name_of] in Hf.
    destruct (dict_get d "filename") as [[| | | |name| |]|] eqn:Hd;
      try (now elim Hf).
    assert (Hk : kept a (JDict d)
                 = negb (Wan.skipped a (Wan.lower (Wan.splitext_ext name))))
      by (unfold kept; cbn [file_name_of]; now rewrite Hd).
    cbn [filter] in *. rewrite Hk in *.
    cbn [Wan.download_files].
    unfold bind at 1. unfold lift at 1, py_item, dict_item. rewrite Hd.
    unfold bind at 1. unfold ret at 1.
    destruct (Wan.skipped a (Wan.lower (Wan.splitext_ext name))) eqn:Hskip;
      cbn [negb] in *.
    + apply IH; assumption.
    + cbn [List.length map] in *.
      inversion Hdisk as [|y l' Hw Hdisk']; subst.
      destruct (download_file_saves e (Wan.comfy_url a) (JDict d) run_dir w Hw)
        as (w1 & Hdl & Hn1 & Hs1).
      { apply Hnet. lia. }
      destruct (IH w1 Hrest Hdisk') as (w' & Hrun & Hn & Hs).
      { intros i Hi. apply Hnet. lia. }
      exists w'. unfold bind at 1. rewrite Hdl. unfold bind at 1.
      rewrite Hrun. unfold ret. split; [reflexivity|].
      split; [lia|]. rewrite Hs, Hs1, <- app_assoc. reflexivity.
Qed.

Lemma kept_all (a : Wan.args) (files : list json) :
  Wan.mode a <> "video" \/ (Wan.format a <> "webm" /\ Wan.format a <> "webp") ->
  Forall (fun f => file_name_of f <> None) files ->
  filter (kept a) files = files.
Proof.
  intros Hsel. induction 1 as [|f files Hf _ IH]; [reflexivity|].
  cbn [filter]. rewrite IH. unfold kept.
  destruct (file_name_of f) as [name|]; [|now elim Hf].
  unfold Wan.skipped.
  destruct Hsel as [Hm | [Hwebm Hwebp]].
  - apply String.eqb_neq in Hm. now rewrite Hm.
  - apply String.eqb_neq in Hwebm, Hwebp. rewrite Hwebm, Hwebp.
    now rewrite andb_false_r.
Qed.

(** The filter of the loop selects the entries the amended claim names. *)
Lemma selected_kept (a : Wan.args) (file_info : json) :
  selected a file_info = kept a file_info.
Proof.
  unfold selected, kept, extension_of, Wan.skipped.
  destruct (file_name_of file_info) as [name|]; [|reflexivity].
  destruct (String.eqb (Wan.mode a) "video"); [|reflexivity].
  destruct (String.eqb_spec (Wan.format a) "webm") as [Hm|Hm].
  - rewrite Hm. cbn [String.eqb Ascii.eqb Bool.eqb andb orb].
    now rewrite orb_false_r, negb_involutive.
  - destruct (String.eqb_spec (Wan.format a) "webp") as [Hp|Hp];
      cbn [andb orb negb]; [now rewrite negb_involutive | reflexivity].
Qed.

(** C1, the claim as written, fails: in video mode with the default format
    "webm" a history entry that reports a video and a still image has two
    extracted entries, and only the video is written. *)
Lemma download_skips_other_extensions :
  let run := Wan.save_outputs (constant_env (Wan.Body []))
               (default_args "a cat") ["generated"] mixed_entry
               (Wan.initial 0) in
  Wan.extract_files mixed_entry
  = Return [JDict [("filename", JStr "a.webm")];
            JDict [("filename", JStr "a.png")]] /\
  fst run = Return [["generated"; "a.webm"]] /\
  saved_files (Wan.trace (snd run)) = [["generated"; "a.webm"]].
Proof. vm_compute. repeat split. Qed.

(** C1, amended: when the extracted entries of a history entry all have a
    string filename, the selected ones have a plain name (one path
    component, not empty, not [.] or [..]) that the disk lets the run
    create in the run directory, and every download is answered, the save
    step performs exactly one download per selected entry, in order, each
    written to the entry of the run directory that has the entry's
    filename.  Selected are: in video mode with format "webm" the entries
    whose lower-cased extension is ".webm", in video mode with format
    "webp" those whose lower-cased extension is ".webp", and otherwise
    (image mode, format "both") every entry, so that the downloads are then
    as many as the entries extracted.  Two entries with the same filename
    are two downloads to the same path. *)
Theorem save_outputs_downloads
        (e : Wan.env) (a : Wan.args) (run_dir : path) (entry : json)
        (files : list json) (w : Wan.world) :
  Wan.extract_files entry = Return files ->
  files <> [] ->
  Forall (fun f => file_name_of f <> None) files ->
  Forall (writable e run_dir) (filter (selected a) files) ->
  (forall i,
     Wan.net_calls w <= i
     < Wan.net_calls w + List.length (filter (selected a) files) ->
     Wan.reply_of e i <> Wan.Unavailable) ->
  exists w',
    Wan.save_outputs e a run_dir entry w
    = (Return (map (dest_of run_dir) (filter (selected a) files)), w') /\
    saved_files (Wan.trace w')
    = saved_files (Wan.trace w)
      ++ map (dest_of run_dir) (filter (selected a) files) /\
    Forall (fun f => exists name,
                file_name_of f = Some name /\
                dest_of run_dir f = run_dir ++ [name])
           (filter (selected a) files) /\
    (Wan.mode a <> "video" \/
     (Wan.format a <> "webm" /\ Wan.format a <> "webp") ->
     filter (selected a) files = files).
Proof.
  intros Hex Hne Hnames Hdisk Hnet.
  rewrite (filter_ext _ _ (selected_kept a)) in *.
  destruct (download_files_run e a run_dir files w Hnames Hdisk Hnet)
    as (w' & Hrun & _ & Hs).
  exists w'. unfold Wan.save_outputs, bind, lift. rewrite Hex.
  destruct files as [|f files]; [now elim Hne|].
  split; [exact Hrun|]. split; [exact Hs|]. split.
  - eapply Forall_impl; [|exact Hdisk]. intros f' Hw.
    destruct (writable_dest _ _ _ Hw) as (name & Hname & _ & Hdest & _).
    eauto.
  - intros Hsel. now apply kept_all.
Qed.

Lemma save_outputs_downloads_witness :
  exists w',
    Wan.save_outputs (constant_env (Wan.Body [])) (default_args "a cat")
                     ["generated"] mixed_entry (Wan.initial 0)
    = (Return [["generated"; "a.webm"]], w').
Proof.
  destruct (save_outputs_downloads (constant_env (Wan.Body []))
              (default_args "a cat") ["generated"] mixed_entry
              [JDict [("filename", JStr "a.webm")];
               JDict [("filename", JStr "a.png")]] (Wan.initial 0))
    as (w' & Hrun & _).
  - reflexivity.
  - discriminate.
  - repeat constructor; discriminate.
  - repeat constructor.
  - intros i _. discriminate.
  - exists w'. exact Hrun.
Defined.

Lemma build_prompt_returns (a : Wan.args) (idx : nat) (seed : Z)
      (w : Wan.world) :
  Wan.prompt_for a idx seed w = (Return (payload_of a idx seed), w).
Proof.
  unfold Wan.prompt_for, payload_of, Wan.build_prompt, expected_graph,
    Wan.set_item, bind, ret. cbn [truthy].
  destruct (Wan.include_webp a), (Wan.include_webm a),
    (Wan.include_images a); reflexivity.
Qed.

(** ** Rules for invariants *)

Section Respects.

Context {S : Type} (I : S -> Prop) (T : Prop).

Lemma respects_ret {A} (a : A) : respects I T (ret a).
Proof. intros s Hs. split; [exact Hs | discriminate]. Qed.

Lemma respects_raise {A} (x : exn) : respects I T (@raise S A x).
Proof. intros s Hs. split; [exact Hs | discriminate]. Qed.

Lemma respects_lift {A} (o : outcome A) : finishes o -> respects I T (lift o).
Proof. intros Ho s Hs. split; [exact Hs | intros _; exact Ho]. Qed.

Lemma respects_get_state : respects I T (@get_state S).
Proof. intros s Hs. split; [exact Hs | discriminate]. Qed.

Lemma respects_bind {A B} (m : M S A) (k : A -> M S B) :
  respects I T m -> (forall a, respects I T (k a)) -> respects I T (bind m k).
Proof.
  intros Hm Hk s Hs. destruct (Hm s Hs) as [H1 H2]. unfold bind.
  destruct (m s) as [[a|x|] s1]; cbn [fst snd] in *.
  - now apply Hk.
  - split; [exact H1 | discriminate].
  - split; [exact H1 | intros Ht; now elim (H2 Ht)].
Qed.

Lemma respects_try_finally {A} (body : M S A) (fin : M S unit) :
  respects I T body -> respects I T fin -> respects I T (try_finally body fin).
Proof.
  intros Hb Hf s Hs. destruct (Hb s Hs) as [H1 H2]. unfold try_finally.
  destruct (body s) as [[a|x|] s1]; cbn [fst snd] in *.
  - destruct (Hf s1 H1) as [H3 H4].
    destruct (fin s1) as [[[]|y|] s2]; cbn [fst snd] in *;
      (split; [exact H3 | first [discriminate | intros Ht; now elim (H4 Ht)]]).
  - destruct (Hf s1 H1) as [H3 H4].
    destruct (fin s1) as [[[]|y|] s2]; cbn [fst snd] in *;
      (split; [exact H3 | first [discriminate | intros Ht; now elim (H4 Ht)]]).
  - split; [exact H1 | exact H2].
Qed.

Lemma respects_try_except {A} (body handler : M S A) :
  respects I T body -> respects I T handler ->
  respects I T (try_except body handler).
Proof.
  intros Hb Hh s Hs. destruct (Hb s Hs) as [H1 H2]. unfold try_except.
  destruct (body s) as [[a|x|] s1]; cbn [fst snd] in *.
  - split; [exact H1 | discriminate].
  - destruct (is_Exception x); [now apply Hh|].
    split; [exact H1 | discriminate].
  - split; [exact H1 | exact H2].
Qed.

End Respects.

Lemma finishes_obind {A B} (o : outcome A) (k : A -> outcome B) :
  finishes o -> (forall a, finishes (k a)) -> finishes (obind o k).
Proof.
  intros Ho Hk. destruct o; cbn; [apply Hk | discriminate | now elim Ho].
Qed.

Lemma finishes_py_get_default (v : json) (k : string) (dflt : json) :
  finishes (py_get_default v k dflt).
Proof. destruct v; discriminate. Qed.

Lemma finishes_py_get (v : json) (k : string) : finishes (py_get v k).
Proof. apply finishes_py_get_default. Qed.

Lemma finishes_dict_item (d : dict) (k : string) : finishes (dict_item d k).
Proof. unfold dict_item. destruct (dict_get d k); discriminate. Qed.

Lemma finishes_py_item (v : json) (k : string) : finishes (py_item v k).
Proof. destruct v; try discriminate. apply finishes_dict_item. Qed.

Lemma finishes_py_iter (v : json) : finishes (py_iter v).
Proof. destruct v; discriminate. Qed.

Lemma finishes_str_join (sep : string) (l : list json) :
  finishes (str_join sep l).
Proof.
  induction l as [|v l IH]; [discriminate|]. cbn [str_join].
  destruct v; try discriminate. destruct l; [discriminate|].
  apply finishes_obind; [exact IH | discriminate].
Qed.

Lemma finishes_extract_option_list (info : dict) (n i : string) :
  finishes (Wan.extract_option_list info n i).
Proof.
  unfold Wan.extract_option_list.
  do 4 (apply finishes_obind; [apply finishes_py_get_default|]; intros ?).
  match goal with |- finishes (if ?b then _ else _) => destruct b end;
    [discriminate|].
  match goal with
  | |- finishes (match ?spec with _ => _ end) =>
      destruct spec as [| | | | |[|[] ?]|]; discriminate
  end.
Qed.

Lemma finishes_dict_contains (resp : dict) (key : json) :
  finishes (Wan.dict_contains resp key).
Proof. destruct key; discriminate. Qed.

Lemma finishes_dict_item_at (resp : dict) (key : json) :
  finishes (Wan.dict_item_at resp key).
Proof. destruct key; try discriminate. apply finishes_dict_item. Qed.

Lemma finishes_completed_entry (entry : json) :
  finishes (Wan.completed_entry entry).
Proof.
  unfold Wan.completed_entry.
  apply finishes_obind; [apply finishes_py_get|]. intros st.
  apply finishes_obind; [apply finishes_py_get|]. intros c.
  destruct (truthy c); [|discriminate].
  apply finishes_obind; [apply finishes_py_get|]. intros s.
  destruct (negb (str_eq s "success")); [|discriminate].
  apply finishes_obind; [apply finishes_py_get|]. intros m.
  apply finishes_obind; [apply finishes_py_iter|]. intros parts.
  apply finishes_obind; [apply finishes_str_join|]. discriminate.
Qed.

Lemma finishes_output_files (output : json) (keys : list string) :
  finishes (Wan.output_files output keys).
Proof.
  induction keys as [|key keys IH]; [discriminate|]. cbn [Wan.output_files].
  apply finishes_obind; [apply finishes_py_get|]. intros items.
  destruct (negb (truthy items)); [exact IH|].
  apply finishes_obind; [apply finishes_py_iter|]. intros its.
  apply finishes_obind; [exact IH | discriminate].
Qed.

Lemma finishes_outputs_files (outputs : list json) :
  finishes (Wan.outputs_files outputs).
Proof.
  induction outputs as [|o os IH]; [discriminate|]. cbn [Wan.outputs_files].
  apply finishes_obind; [apply finishes_output_files|]. intros here.
  apply finishes_obind; [exact IH | discriminate].
Qed.

Lemma finishes_extract_files (entry : json) :
  finishes (Wan.extract_files entry).
Proof.
  unfold Wan.extract_files.
  apply finishes_obind; [apply finishes_py_get|]. intros o.
  destruct (py_or o (JDict [])); try discriminate.
  apply finishes_outputs_files.
Qed.

Lemma finishes_poll_result (prompt_id : json) (resp : dict) :
  finishes (poll_result prompt_id resp).
Proof.
  unfold poll_result.
  apply finishes_obind; [apply finishes_dict_contains|].
  intros [|]; [|discriminate].
  apply finishes_obind; [apply finishes_dict_item_at|].
  apply finishes_completed_entry.
Qed.

(** ** Invariants through the functions of the run *)

Lemma is_server_reachable_eq (e : Wan.env) (base_url : string)
      (w : Wan.world) :
  Wan.is_server_reachable e base_url w
  = (Return (match Wan.reply_of e (Wan.net_calls w) with
             | Wan.Body _ => true
             | Wan.Unavailable => false
             end),
     after_call e (Wan.EvRequest base_url Wan.Queue None) w).
Proof.
  unfold Wan.is_server_reachable, try_except, bind, Wan.request_json, bind,
    Wan.net_call.
  destruct (Wan.reply_of e (Wan.net_calls w)); reflexivity.
Qed.

Section WanInvariant.

Variables (e : Wan.env) (I : Wan.world -> Prop) (ok : Wan.event -> Prop)
          (T : Prop).

Hypothesis I_stable : stable I ok.
Hypothesis ok_quiet : forall ev, quiet ev -> ok ev.

Lemma stable_counters (w : Wan.world) (t : Z) (n d : nat) :
  I w ->
  I {| Wan.now := t; Wan.net_calls := n; Wan.draws := d;
       Wan.port_forward_proc := Wan.port_forward_proc w;
       Wan.trace := Wan.trace w |}.
Proof.
  intros Hw. rewrite <- (app_nil_r (Wan.trace w)). now apply I_stable.
Qed.

Lemma stable_event (w : Wan.world) (t : Z) (n d : nat) (ev : Wan.event) :
  I w -> ok ev ->
  I {| Wan.now := t; Wan.net_calls := n; Wan.draws := d;
       Wan.port_forward_proc := Wan.port_forward_proc w;
       Wan.trace := Wan.trace w ++ [ev] |}.
Proof. intros Hw Hev. apply I_stable; [exact Hw | now constructor]. Qed.

Lemma respects_emit (ev : Wan.event) : ok ev -> respects I T (Wan.emit ev).
Proof.
  intros Hev w Hw. split; [|discriminate]. now apply stable_event.
Qed.

Lemma respects_time_time : respects I T Wan.time_time.
Proof. intros w Hw. split; [exact Hw | discriminate]. Qed.

Lemma respects_sleep (d : Z) : respects I T (Wan.sleep e d).
Proof.
  intros w Hw. unfold Wan.sleep.
  destruct (Wan.sleep_error e d); cbn [fst snd].
  - split; [exact Hw | discriminate].
  - split; [|discriminate]. apply stable_event; [exact Hw|].
    now apply ok_quiet.
Qed.

Lemma respects_randrange (lo hi : Z) : respects I T (Wan.randrange e lo hi).
Proof.
  intros w Hw. unfold Wan.randrange. destruct (Z.leb hi lo); cbn [fst snd].
  - split; [exact Hw | discriminate].
  - split; [|discriminate]. now apply stable_counters.
Qed.

Lemma respects_net_call (base_url : string) (ep : Wan.endpoint)
      (payload : option json) :
  ok (Wan.EvRequest base_url ep payload) ->
  respects I T (Wan.net_call e base_url ep payload).
Proof.
  intros Hev w Hw. split; [|discriminate]. now apply stable_event.
Qed.

Lemma respects_request_json (base_url : string) (ep : Wan.endpoint)
      (payload : option json) :
  ok (Wan.EvRequest base_url ep payload) ->
  respects I T (Wan.request_json e base_url ep payload).
Proof.
  intros Hev. apply respects_bind; [now apply respects_net_call|].
  intros [d|]; [apply respects_ret | apply respects_raise].
Qed.

Lemma respects_is_server_reachable (base_url : string) :
  respects I T (Wan.is_server_reachable e base_url).
Proof.
  intros w Hw. rewrite is_server_reachable_eq. split; [|discriminate].
  apply stable_event; [exact Hw|]. now apply ok_quiet.
Qed.

Lemma wait_for_server_loop_inv (base_url : string) (deadline : Z) :
  forall (n : nat) (w : Wan.world),
    I w ->
    I (snd (Wan.wait_for_server_loop e n base_url deadline w)) /\
    ((deadline - Wan.now w <= Z.of_nat n * Wan.seconds e 1)%Z ->
     fst (Wan.wait_for_server_loop e (S n) base_url deadline w) <> OutOfFuel).
Proof.
  assert (Hsec : (0 < Wan.seconds e 1)%Z) by (unfold Wan.seconds; lia).
  assert (Hstep : forall w, I w ->
            I (after_call e (Wan.EvRequest base_url Wan.Queue None) w)).
  { intros w Hw. apply stable_event; [exact Hw | now apply ok_quiet]. }
  assert (Hslept : forall w, I w ->
            Wan.sleep e (Wan.seconds e 1) w
            = (Return tt,
               {| Wan.now := (Wan.now w + Wan.seconds e 1)%Z;
                  Wan.net_calls := Wan.net_calls w; Wan.draws := Wan.draws w;
                  Wan.port_forward_proc := Wan.port_forward_proc w;
                  Wan.trace := Wan.trace w ++ [Wan.EvSleep (Wan.seconds e 1)] |})
            /\ I (snd (Wan.sleep e (Wan.seconds e 1) w))).
  { intros w Hw. rewrite sleep_accepted by (apply sleep_error_seconds; easy).
    split; [reflexivity|]. apply stable_event; [exact Hw | now apply ok_quiet]. }
  induction n as [|n IH]; intros w Hw.
  - split; [exact Hw|]. intros Hd. cbn [Wan.wait_for_server_loop].
    unfold bind at 1, Wan.time_time at 1.
    destruct (Z.ltb_spec (Wan.now w) deadline); [lia | discriminate].
  - split.
    + cbn [Wan.wait_for_server_loop]. unfold bind at 1, Wan.time_time at 1.
      destruct (Z.ltb (Wan.now w) deadline); [|exact Hw].
      unfold bind at 1. rewrite is_server_reachable_eq.
      destruct (Wan.reply_of e (Wan.net_calls w)); [now apply Hstep|].
      unfold bind at 1.
      destruct (Hslept _ (Hstep w Hw)) as [-> Hs]. now apply IH.
    + intros Hd.
      change (Wan.wait_for_server_loop e (S (S n)) base_url deadline w)
        with (bind Wan.time_time
                (fun t => if Z.ltb t deadline
                          then bind (Wan.is_server_reachable e base_url)
                                 (fun ok0 : bool =>
                                    if ok0 then ret true
                                    else bind (Wan.sleep e (Wan.seconds e 1))
                                           (fun _ => Wan.wait_for_server_loop
                                                       e (S n) base_url deadline))
                          else ret false) w).
      unfold bind at 1, Wan.time_time at 1.
      destruct (Z.ltb (Wan.now w) deadline); [|discriminate].
      unfold bind at 1. rewrite is_server_reachable_eq.
      destruct (Wan.reply_of e (Wan.net_calls w)); [discriminate|].
      unfold bind at 1.
      destruct (Hslept _ (Hstep w Hw)) as [Heq Hs]. rewrite Heq.
      rewrite Heq in Hs. cbn [snd] in Hs.
      apply IH; [exact Hs|]. cbn [Wan.now after_call]. lia.
Qed.

Lemma respects_wait_for_server (fuel : nat) (base_url : string) :
  (T -> 721 <= fuel) ->
  respects I T (Wan.wait_for_server e fuel base_url (Wan.seconds e 30)).
Proof.
  intros Hfuel w Hw. unfold Wan.wait_for_server, bind, Wan.time_time. split.
  - now apply wait_for_server_loop_inv.
  - intros Ht. apply Hfuel in Ht. destruct fuel as [|n]; [lia|].
    apply wait_for_server_loop_inv; [exact Hw|].
    unfold Wan.seconds. nia.
Qed.

Lemma wait_for_prompt_loop_inv (base_url : string) (prompt_id : json)
      (deadline poll_interval : Z) :
  (0 < poll_interval)%Z ->
  Wan.sleep_error e poll_interval = None ->
  forall (n : nat) (w : Wan.world),
    I w ->
    I (snd (Wan.wait_for_prompt_loop e n base_url prompt_id deadline
                                     poll_interval w)) /\
    ((deadline - Wan.now w <= Z.of_nat n * poll_interval)%Z ->
     fst (Wan.wait_for_prompt_loop e (S n) base_url prompt_id deadline
                                   poll_interval w) <> OutOfFuel).
Proof.
  intros Hpoll Hsleep.
  assert (Hstep : forall w, I w ->
            I (after_call e (Wan.EvRequest base_url (Wan.History prompt_id)
                                           None) w)).
  { intros w Hw. apply stable_event; [exact Hw | now apply ok_quiet]. }
  assert (Hslept : forall w, I w ->
            Wan.sleep e poll_interval w
            = (Return tt,
               {| Wan.now := (Wan.now w + poll_interval)%Z;
                  Wan.net_calls := Wan.net_calls w; Wan.draws := Wan.draws w;
                  Wan.port_forward_proc := Wan.port_forward_proc w;
                  Wan.trace := Wan.trace w ++ [Wan.EvSleep poll_interval] |})
            /\ I (snd (Wan.sleep e poll_interval w))).
  { intros w Hw. rewrite sleep_accepted by exact Hsleep.
    split; [reflexivity|]. apply stable_event; [exact Hw | now apply ok_quiet]. }
  induction n as [|n IH]; intros w Hw.
  - split; [exact Hw|]. intros Hd. rewrite wait_loop_step.
    destruct (Z.ltb_spec (Wan.now w) deadline); [lia | discriminate].
  - split.
    + rewrite wait_loop_step.
      destruct (Z.ltb (Wan.now w) deadline); [|exact Hw]. cbv zeta.
      destruct (Wan.reply_of e (Wan.net_calls w)) as [resp|];
        [|now apply Hstep].
      destruct (poll_result prompt_id resp) as [[entry|]| |];
        try (now apply Hstep).
      unfold bind at 1. destruct (Hslept _ (Hstep w Hw)) as [-> Hs].
      now apply IH.
    + intros Hd. rewrite wait_loop_step.
      destruct (Z.ltb (Wan.now w) deadline); [|discriminate]. cbv zeta.
      destruct (Wan.reply_of e (Wan.net_calls w)) as [resp|];
        [|discriminate].
      pose proof (finishes_poll_result prompt_id resp) as Hfin.
      destruct (poll_result prompt_id resp) as [[entry|]| |];
        try discriminate; [|now elim Hfin].
      unfold bind at 1. destruct (Hslept _ (Hstep w Hw)) as [Heq Hs].
      rewrite Heq. rewrite Heq in Hs. cbn [snd] in Hs.
      apply IH; [exact Hs|]. cbn [Wan.now after_call]. lia.
Qed.

Lemma respects_wait_for_prompt (fuel : nat) (base_url : string)
      (prompt_id : json) :
  (T -> 721 <= fuel) ->
  respects I T (Wan.wait_for_prompt e fuel base_url prompt_id
                                    (Wan.seconds e 3600) (Wan.seconds e 5)).
Proof.
  assert (Hsec : (0 < Wan.seconds e 5)%Z) by (unfold Wan.seconds; lia).
  assert (Hsleep : Wan.sleep_error e (Wan.seconds e 5) = None)
    by (apply sleep_error_seconds; easy).
  intros Hfuel w Hw. unfold Wan.wait_for_prompt, bind, Wan.time_time. split.
  - now apply wait_for_prompt_loop_inv.
  - intros Ht. apply Hfuel in Ht. destruct fuel as [|n]; [lia|].
    apply wait_for_prompt_loop_inv; [exact Hsec | exact Hsleep | exact Hw|].
    unfold Wan.seconds. nia.
Qed.

Lemma respects_parse_port (url : string) : respects I T (Wan.parse_port e url).
Proof.
  unfold Wan.parse_port. destruct (Wan.url_port e url) as [| |p].
  - apply respects_raise.
  - apply respects_ret.
  - destruct (Z.eqb p 0); apply respects_ret.
Qed.

Lemma respects_preflight_check (base_url unet clip vae : string) :
  respects I T (Wan.preflight_check e base_url unet clip vae).
Proof.
  unfold Wan.preflight_check.
  apply respects_bind; [apply respects_request_json; now apply ok_quiet|].
  intros info.
  do 3 (apply respects_bind;
        [apply respects_lift, finishes_extract_option_list | intros ?]).
  match goal with
  | |- respects _ _ (match ?l with _ => _ end) => destruct l
  end; [apply respects_ret | apply respects_raise].
Qed.

Lemma respects_submit_prompt (base_url : string) (prompt : json)
      (client_id : string) :
  ok (Wan.EvRequest base_url Wan.Prompt
        (Some (JDict [("prompt", prompt); ("client_id", JStr client_id)]))) ->
  respects I T (Wan.submit_prompt e base_url prompt client_id).
Proof.
  intros Hok. unfold Wan.submit_prompt.
  apply respects_bind; [now apply respects_request_json|]. intros resp.
  destruct (dict_mem resp "error").
  - apply respects_bind; [apply respects_lift, finishes_dict_item|].
    intros err. apply respects_raise.
  - destruct (negb (dict_mem resp "prompt_id")); [apply respects_raise|].
    apply respects_lift, finishes_dict_item.
Qed.

Lemma respects_download_file (base_url : string) (file_info : json)
      (dest_dir : path) :
  respects I T (Wan.download_file e base_url file_info dest_dir).
Proof.
  unfold Wan.download_file.
  apply respects_bind; [apply respects_lift, finishes_py_item|]. intros fn.
  do 2 (apply respects_bind;
        [apply respects_lift, finishes_py_get_default | intros ?]).
  apply respects_bind; [apply respects_emit; now apply ok_quiet|]. intros _.
  apply respects_bind.
  { destruct fn; first [apply respects_ret | apply respects_raise]. }
  intros dest. apply respects_bind; [|intros _; apply respects_ret].
  unfold Wan.urlretrieve.
  apply respects_bind; [apply respects_net_call; now apply ok_quiet|].
  intros [body|]; [|apply respects_raise].
  destruct (Wan.write_error e dest_dir dest);
    [apply respects_raise | apply respects_emit; now apply ok_quiet].
Qed.

Lemma respects_download_files (a : Wan.args) (run_dir : path)
      (files : list json) :
  respects I T (Wan.download_files e a run_dir files).
Proof.
  induction files as [|f files IH]; [apply respects_ret|].
  cbn [Wan.download_files].
  apply respects_bind; [apply respects_lift, finishes_py_item|]. intros fn.
  apply respects_bind.
  { destruct fn; first [apply respects_ret | apply respects_raise]. }
  intros ext. destruct (Wan.skipped a ext); [exact IH|].
  apply respects_bind; [apply respects_download_file|]. intros dest.
  apply respects_bind; [exact IH|]. intros more. apply respects_ret.
Qed.

Lemma respects_save_outputs (a : Wan.args) (run_dir : path) (entry : json) :
  respects I T (Wan.save_outputs e a run_dir entry).
Proof.
  unfold Wan.save_outputs.
  apply respects_bind; [apply respects_lift, finishes_extract_files|].
  intros [|f files]; [apply respects_raise | apply respects_download_files].
Qed.

Lemma respects_make_seeds (base : option Z) (indices : list nat) :
  respects I T (Wan.make_seeds e base indices).
Proof.
  induction indices as [|i rest IH]; [apply respects_ret|].
  cbn [Wan.make_seeds]. apply respects_bind.
  { destruct base; [apply respects_ret | apply respects_randrange]. }
  intros s. apply respects_bind; [exact IH|]. intros more. apply respects_ret.
Qed.

Lemma respects_write_index (dest_dir : path) (prompt_text : string)
      (files : list path) :
  respects I T (Wan.write_index e dest_dir prompt_text files).
Proof.
  unfold Wan.write_index. cbv zeta.
  destruct (Wan.write_error e dest_dir (path_div dest_dir "index.html"));
    [apply respects_raise | apply respects_emit; now apply ok_quiet].
Qed.

Lemma respects_bind_pure {A B} (m : M Wan.world A) (k : A -> M Wan.world B)
      (a : A) :
  (forall w, m w = (Return a, w)) ->
  respects I T (k a) -> respects I T (bind m k).
Proof.
  intros Hm Hk w Hw. unfold bind. rewrite Hm. now apply Hk.
Qed.

Section Jobs.

Variables (a : Wan.args) (fuel : nat).

Hypothesis enough_fuel : T -> 721 <= fuel.
Hypothesis ok_prompt :
  forall idx seed client_id,
    ok (Wan.EvRequest (Wan.comfy_url a) Wan.Prompt
          (Some (queue_request (payload_of a idx seed) client_id))).
Hypothesis I_child : forall w cmd, I w -> I (with_child cmd w).

Lemma respects_run_job (client_id : string) (idx : nat) (seed : Z) :
  respects I T (Wan.run_job e a fuel client_id idx seed).
Proof.
  unfold Wan.run_job.
  apply (respects_bind_pure _ _ (payload_of a idx seed)).
  { intros w. apply build_prompt_returns. }
  apply respects_bind; [apply respects_submit_prompt, ok_prompt|].
  intros prompt_id. now apply respects_wait_for_prompt.
Qed.

Lemma respects_generate_all (run_dir : path) (client_id : string)
      (jobs : list (nat * Z)) :
  respects I T (Wan.generate_all e a fuel run_dir client_id jobs).
Proof.
  induction jobs as [|[idx seed] rest IH]; [apply respects_ret|].
  cbn [Wan.generate_all]. apply respects_bind.
  { unfold Wan.generate_one.
    apply respects_bind; [apply respects_run_job|]. intros entry.
    apply respects_save_outputs. }
  intros saved. apply respects_bind; [exact IH|]. intros more.
  apply respects_ret.
Qed.

Lemma respects_start_port_forward {A} (ns dep : string) (port : Z)
      (rest : M Wan.world A) :
  respects I T rest ->
  respects I T
    (bind (Wan.start_port_forward e ns dep port)
          (fun _ => bind (Wan.set_port_forward_proc true) (fun _ => rest))).
Proof.
  intros Hrest w Hw. unfold bind at 1. unfold Wan.start_port_forward.
  destruct (Wan.kubectl_starts e).
  - unfold Wan.emit, modify. unfold bind at 1.
    unfold Wan.set_port_forward_proc, modify.
    cbn [Wan.now Wan.net_calls Wan.draws Wan.trace].
    apply Hrest. apply (I_child w _ Hw).
  - split; [exact Hw | discriminate].
Qed.

Lemma respects_guarded (run_dir : path) (client_id : string)
      (seeds : list Z) :
  respects I T (Wan.guarded e a fuel run_dir client_id seeds).
Proof.
  unfold Wan.guarded.
  apply respects_bind; [apply respects_is_server_reachable|].
  intros reachable. apply respects_bind.
  { destruct reachable; [apply respects_ret|].
    destruct (negb (Wan.port_forward a)); [apply respects_raise|].
    apply respects_bind; [apply respects_parse_port|]. intros local_port.
    apply respects_start_port_forward.
    apply respects_bind; [now apply respects_wait_for_server|].
    intros [|]; [apply respects_ret | apply respects_raise]. }
  intros _. apply respects_bind.
  { destruct (Wan.skip_check a);
      [apply respects_ret | apply respects_preflight_check]. }
  intros _. apply respects_generate_all.
Qed.

End Jobs.

End WanInvariant.

(** ** Image mode *)

Lemma single_frames_stable : stable single_frames single_frame.
Proof.
  intros w t n d evs Hw Hevs. unfold single_frames in *. cbn [Wan.trace].
  apply Forall_app. now split.
Qed.

Lemma quiet_single_frame (ev : Wan.event) : quiet ev -> single_frame ev.
Proof. destruct ev as [b [] p| | | | | | |]; cbn; tauto. Qed.

Lemma image_payload_single_frame (a : Wan.args) (idx : nat) (seed : Z)
      (client_id : string) :
  Wan.mode a = "image" ->
  latent_length (queue_request (payload_of a idx seed) client_id)
  = Some (JInt 1).
Proof.
  intros Hm. unfold queue_request, payload_of, expected_graph, latent_length.
  cbn. unfold Wan.effective_frames. rewrite Hm. cbn.
  destruct (Z.eqb_spec (Wan.frames a) 1) as [->|]; reflexivity.
Qed.

Lemma respects_single_frames_main (e : Wan.env) (a : Wan.args) (fuel : nat) :
  Wan.mode a = "image" ->
  respects single_frames False (Wan.main e a fuel).
Proof.
  intros Hm.
  pose proof single_frames_stable as Hst.
  pose proof quiet_single_frame as Hq.
  assert (Hproc : forall b,
            respects single_frames False (Wan.set_port_forward_proc b)).
  { intros b w Hw. split; [exact Hw | discriminate]. }
  unfold Wan.main.
  match goal with |- respects _ _ (if ?c then _ else _) => destruct c end;
    [apply respects_raise|].
  cbv zeta.
  apply respects_bind; [apply (respects_emit _ _ _ Hst); exact I|]. intros _.
  apply respects_bind; [apply (respects_make_seeds _ _ _ _ Hst)|]. intros seeds.
  apply respects_bind; [apply (respects_randrange _ _ _ _ Hst)|]. intros n.
  apply respects_bind; [apply Hproc|]. intros _.
  apply respects_bind.
  - apply respects_try_finally.
    + apply (respects_guarded e _ _ _ Hst Hq); [tauto | |].
      * intros idx seed cid. now apply image_payload_single_frame.
      * intros w cmd Hw. unfold single_frames, with_child in *.
        cbn [Wan.trace]. apply Forall_app. split; [exact Hw|].
        now repeat constructor.
    + unfold Wan.cleanup.
      apply respects_bind; [apply respects_get_state|]. intros w.
      destruct (Wan.port_forward_proc w); [|apply respects_ret].
      apply respects_bind; [apply (respects_emit _ _ _ Hst); exact I|].
      intros _.
      apply respects_bind; [apply (respects_emit _ _ _ Hst); exact I|].
      intros _. destruct (Wan.child_exits e);
        [apply respects_ret | apply respects_raise].
  - intros [|f files]; [apply respects_ret|].
    apply (respects_write_index e _ _ _ Hst Hq).
Qed.

(** C9: in image mode every payload a run queues asks its latent-video
    node for exactly one frame, whatever [--frames] was given: the graph of
    each round has length 1 there, and so has every prompt request added to
    the trace. *)
Theorem image_mode_single_frame
        (e : Wan.env) (a : Wan.args) (fuel : nat) (w : Wan.world) :
  Wan.mode a = "image" ->
  Forall single_frame (Wan.trace w) ->
  (forall idx seed client_id,
     latent_length (queue_request (payload_of a idx seed) client_id)
     = Some (JInt 1)) /\
  Forall single_frame (Wan.trace (snd (Wan.main e a fuel w))).
Proof.
  intros Hm Hw. split.
  - intros idx seed cid. now apply image_payload_single_frame.
  - now apply (respects_single_frames_main e a fuel Hm w).
Qed.

Lemma image_mode_single_frame_witness :
  let a := with_mode_format "image" "webm" (default_args "a cat") in
  Wan.frames a = 16%Z /\
  Forall single_frame
    (Wan.trace (snd (Wan.main (constant_env (Wan.Body [])) a 1
                              (Wan.initial 0)))).
Proof.
  intros a. split; [reflexivity|].
  apply (image_mode_single_frame (constant_env (Wan.Body [])) a 1
           (Wan.initial 0)); [reflexivity | constructor].
Defined.

(** ** The port-forward child *)

Lemma fold_child_leaves (evs : list Wan.event) (alive : bool) :
  Forall leaves_child evs ->
  fold_left (fun alive ev =>
               match ev with
               | Wan.EvPopen _ => true
               | Wan.EvTerminate => false
               | _ => alive
               end) evs alive = alive.
Proof.
  intros H. revert alive. induction H as [|ev evs Hev _ IH]; intros alive;
    [reflexivity|].
  cbn [fold_left]. rewrite IH. destruct ev; cbn in Hev; tauto.
Qed.

Lemma child_running_leaves (tr evs : list Wan.event) :
  Forall leaves_child evs -> child_running (tr ++ evs) = child_running tr.
Proof.
  intros H. unfold child_running. rewrite fold_left_app.
  now apply fold_child_leaves.
Qed.

Lemma proc_tracks_child_stable : stable proc_tracks_child leaves_child.
Proof.
  intros w t n d evs Hw Hevs. unfold proc_tracks_child in *.
  cbn [Wan.trace Wan.port_forward_proc]. now rewrite child_running_leaves.
Qed.

Lemma no_child_stable : stable no_child leaves_child.
Proof.
  intros w t n d evs Hw Hevs. unfold no_child in *. cbn [Wan.trace].
  now rewrite child_running_leaves.
Qed.

Lemma quiet_leaves_child (ev : Wan.event) : quiet ev -> leaves_child ev.
Proof. destruct ev; cbn; tauto. Qed.

Lemma cleanup_ends_child (e : Wan.env) (w : Wan.world) :
  proc_tracks_child w ->
  no_child (snd (Wan.cleanup e w)) /\ fst (Wan.cleanup e w) <> OutOfFuel.
Proof.
  intros Hw. unfold Wan.cleanup, bind, get_state, Wan.emit, modify.
  destruct (Wan.port_forward_proc w) eqn:Hp.
  - cbn [Wan.trace]. assert (Hdone : child_running
                       ((Wan.trace w ++ [Wan.EvTerminate]) ++ [Wan.EvWait])
                     = false).
    { unfold child_running. rewrite !fold_left_app. reflexivity. }
    destruct (Wan.child_exits e); (split; [exact Hdone | discriminate]).
  - split; [|discriminate]. unfold no_child, proc_tracks_child in *.
    cbn [snd ret]. destruct (child_running (Wan.trace w)); [|reflexivity].
    rewrite Hp in Hw. symmetry. now apply Hw.
Qed.

Lemma child_stopped_by_terminate (t2 : list Wan.event) :
  fold_left (fun alive ev =>
               match ev with
               | Wan.EvPopen _ => true
               | Wan.EvTerminate => false
               | _ => alive
               end) t2 true = false ->
  In Wan.EvTerminate t2.
Proof.
  induction t2 as [|ev t2 IH]; [discriminate|]. cbn [fold_left].
  destruct ev; try (intros H; right; now apply IH).
  intros _. now left.
Qed.

Lemma started_child_is_terminated (t1 t2 : list Wan.event)
      (cmd : list string) :
  child_running (t1 ++ Wan.EvPopen cmd :: t2) = false ->
  In Wan.EvTerminate t2.
Proof.
  unfold child_running. rewrite fold_left_app. cbn [fold_left].
  apply child_stopped_by_terminate.
Qed.

Lemma ends_in_bind_left {S A B} (P : S -> Prop) (T : Prop) (m : M S A)
      (k : A -> M S B) :
  respects P T m -> (forall a, ends_in P P T (k a)) ->
  ends_in P P T (bind m k).
Proof.
  intros Hm Hk s Hs. destruct (Hm s Hs) as [H1 H2]. unfold bind.
  destruct (m s) as [[a|x|] s1]; cbn [fst snd] in *.
  - now apply Hk.
  - split; [intros _; exact H1 | discriminate].
  - split; [intros H; now elim H | intros Ht; now elim (H2 Ht)].
Qed.

Lemma ends_in_bind_right {S A B} (P Q : S -> Prop) (T : Prop) (m : M S A)
      (k : A -> M S B) :
  ends_in P Q T m -> (forall a, respects Q T (k a)) ->
  ends_in P Q T (bind m k).
Proof.
  intros Hm Hk s Hs. destruct (Hm s Hs) as [H1 H2]. unfold bind.
  destruct (m s) as [[a|x|] s1]; cbn [fst snd] in *.
  - destruct (Hk a s1 (H1 ltac:(discriminate))) as [H3 H4].
    split; [intros _; exact H3 | exact H4].
  - split; [intros _; apply H1; discriminate | discriminate].
  - split; [intros H; now elim H | intros Ht; now elim (H2 Ht)].
Qed.

Lemma try_block_ends_child (e : Wan.env) (a : Wan.args) (fuel : nat)
      (run_dir : path) (client_id : string) (seeds : list Z) :
  ends_in no_child no_child (721 <= fuel)
    (try_finally (Wan.guarded e a fuel run_dir client_id seeds)
                 (Wan.cleanup e)).
Proof.
  intros w Hw.
  assert (Hbody : respects proc_tracks_child (721 <= fuel)
                    (Wan.guarded e a fuel run_dir client_id seeds)).
  { apply (respects_guarded e _ _ _ proc_tracks_child_stable
             quiet_leaves_child); [tauto | |].
    - intros idx seed cid. exact I.
    - intros w0 cmd _ _. reflexivity. }
  destruct (Hbody w) as [H1 H2].
  { unfold no_child in Hw. unfold proc_tracks_child. rewrite Hw. discriminate. }
  unfold try_finally.
  destruct (Wan.guarded e a fuel run_dir client_id seeds w)
    as [[files|x|] w1]; cbn [fst snd] in *.
  - destruct (cleanup_ends_child e w1 H1) as [H3 H4].
    destruct (Wan.cleanup e w1) as [[[]|y|] w2]; cbn [fst snd] in *;
      try (split; [intros _; exact H3 | discriminate]).
    now elim H4.
  - destruct (cleanup_ends_child e w1 H1) as [H3 H4].
    destruct (Wan.cleanup e w1) as [[[]|y|] w2]; cbn [fst snd] in *;
      try (split; [intros _; exact H3 | discriminate]).
    now elim H4.
  - split; [intros H; now elim H | intros Ht; now elim (H2 Ht)].
Qed.

Lemma main_ends_child (e : Wan.env) (a : Wan.args) (fuel : nat) :
  ends_in no_child no_child (721 <= fuel) (Wan.main e a fuel).
Proof.
  pose proof no_child_stable as Hst.
  pose proof quiet_leaves_child as Hq.
  unfold Wan.main.
  match goal with |- ends_in _ _ _ (if ?c then _ else _) => destruct c end.
  { intros w Hw. split; [intros _; exact Hw | discriminate]. }
  cbv zeta.
  apply ends_in_bind_left; [apply (respects_emit _ _ _ Hst); exact I|].
  intros _.
  apply ends_in_bind_left; [apply (respects_make_seeds _ _ _ _ Hst)|].
  intros seeds.
  apply ends_in_bind_left; [apply (respects_randrange _ _ _ _ Hst)|].
  intros n.
  apply ends_in_bind_left.
  { intros w Hw. split; [exact Hw | discriminate]. }
  intros _.
  apply ends_in_bind_right; [apply try_block_ends_child|].
  intros [|f files]; [apply respects_ret|].
  apply (respects_write_index e _ _ _ Hst Hq).
Qed.

(** C8: a run of [main] that starts without a child and ends, in a return
    or in any exception, ends with no port-forward child alive: wherever the
    trace shows the child started, the cleanup's [terminate] follows.  Given
    fuel for 721 rounds of each wait loop, every run ends. *)
Theorem port_forward_child_is_terminated
        (e : Wan.env) (a : Wan.args) (fuel : nat) (w : Wan.world) :
  child_running (Wan.trace w) = false ->
  let run := Wan.main e a fuel w in
  (fst run <> OutOfFuel ->
   child_running (Wan.trace (snd run)) = false /\
   forall t1 cmd t2,
     Wan.trace (snd run) = t1 ++ Wan.EvPopen cmd :: t2 ->
     In Wan.EvTerminate t2) /\
  (721 <= fuel -> fst run <> OutOfFuel).
Proof.
  intros Hw run. destruct (main_ends_child e a fuel w Hw) as [H1 H2].
  fold run in H1, H2. split; [|exact H2].
  intros Hend. specialize (H1 Hend). split; [exact H1|].
  intros t1 cmd t2 Heq. unfold no_child in H1. rewrite Heq in H1.
  now apply started_child_is_terminated in H1.
Qed.

Lemma port_forward_child_is_terminated_witness :
  let run := Wan.main cold_env (with_port_forward (default_args "a cat")) 721
               (Wan.initial 0) in
  fst run <> OutOfFuel /\ child_running (Wan.trace (snd run)) = false.
Proof.
  intros run.
  destruct (port_forward_child_is_terminated cold_env
              (with_port_forward (default_args "a cat")) 721 (Wan.initial 0)
              eq_refl) as [H1 H2].
  fold run in H1, H2.
  assert (Hend : fst run <> OutOfFuel) by (apply H2; apply le_n).
  split; [exact Hend | apply (H1 Hend)].
Defined.

(** In that run the child is started, the preflight check fails, and the
    cleanup terminates the child before the error leaves [main]. *)
Example cold_run_trace :
  let run := Wan.main cold_env (with_port_forward (default_args "a cat")) 721
               (Wan.initial 0) in
  fst run
  = Raise (RuntimeError
             (Text "Missing model files in ComfyUI. UNET: wan2.1_t2v_1.3B_bf16.safetensors, CLIP: umt5_xxl_fp16.safetensors, VAE: wan_2.1_vae.safetensors"))
  /\ Wan.trace (snd run)
     = [Wan.EvMkdir ["generated"; "20260101_000000"];
        Wan.EvRequest "http://127.0.0.1:8181" Wan.Queue None;
        Wan.EvPopen (Wan.port_forward_cmd "llm" "wan-video-gen" 8181);
        Wan.EvRequest "http://127.0.0.1:8181" Wan.Queue None;
        Wan.EvRequest "http://127.0.0.1:8181" Wan.ObjectInfo None;
        Wan.EvTerminate; Wan.EvWait].
Proof. vm_compute. split; reflexivity. Qed.

(** * Further properties of the scripts *)

(** ** Submitting and the preflight check *)

Lemma submit_prompt_eq (e : Wan.env) (base_url : string) (prompt : json)
      (client_id : string) (w : Wan.world) :
  Wan.submit_prompt e base_url prompt client_id w
  = (match Wan.reply_of e (Wan.net_calls w) with
     | Wan.Unavailable => Raise TransportError
     | Wan.Body resp =>
         match dict_get resp "error" with
         | Some err => Raise (RuntimeError (ServerError err))
         | None =>
             match dict_get resp "prompt_id" with
             | Some prompt_id => Return prompt_id
             | None => Raise (RuntimeError (UnexpectedResponse (JDict resp)))
             end
         end
     end,
     after_call e (Wan.EvRequest base_url Wan.Prompt
                     (Some (queue_request prompt client_id))) w).
Proof.
  unfold Wan.submit_prompt, Wan.request_json, Wan.net_call, bind, after_call,
    queue_request.
  destruct (Wan.reply_of e (Wan.net_calls w)) as [resp|]; [|reflexivity].
  unfold ret, dict_mem, dict_item, lift, raise.
  destruct (dict_get resp "error"); [reflexivity|].
  destruct (dict_get resp "prompt_id"); reflexivity.
Qed.

(** X1: [submit_prompt] sends one POST and returns a prompt id exactly when
    the reply is an object that has no "error" key and has a "prompt_id"
    key; an "error" key wins whatever its value and whatever else the reply
    holds, and a reply with neither key is an unexpected-response error. *)
Theorem submit_prompt_outcome
        (e : Wan.env) (base_url : string) (prompt : json)
        (client_id : string) (w : Wan.world) :
  let run := Wan.submit_prompt e base_url prompt client_id w in
  snd run
  = after_call e (Wan.EvRequest base_url Wan.Prompt
                    (Some (queue_request prompt client_id))) w /\
  (forall prompt_id,
     fst run = Return prompt_id <->
     exists resp,
       Wan.reply_of e (Wan.net_calls w) = Wan.Body resp /\
       dict_get resp "error" = None /\
       dict_get resp "prompt_id" = Some prompt_id) /\
  (forall resp err,
     Wan.reply_of e (Wan.net_calls w) = Wan.Body resp ->
     dict_get resp "error" = Some err ->
     fst run = Raise (RuntimeError (ServerError err))) /\
  (forall resp,
     Wan.reply_of e (Wan.net_calls w) = Wan.Body resp ->
     dict_get resp "error" = None -> dict_get resp "prompt_id" = None ->
     fst run = Raise (RuntimeError (UnexpectedResponse (JDict resp)))).
Proof.
  cbv zeta. rewrite submit_prompt_eq. cbn [fst snd].
  split; [reflexivity|]. split; [|split].
  - intros prompt_id. split.
    + destruct (Wan.reply_of e (Wan.net_calls w)) as [resp|]; [|discriminate].
      destruct (dict_get resp "error") eqn:He; [discriminate|].
      destruct (dict_get resp "prompt_id") eqn:Hp; [|discriminate].
      intros H. injection H as <-. exists resp. auto.
    + intros (resp & -> & -> & ->). reflexivity.
  - intros resp err -> ->. reflexivity.
  - intros resp -> -> ->. reflexivity.
Qed.

(** X2: [extract_option_list] never fails on a missing key: when the node,
    its "input", its "required" block or the input itself is absent from
    dictionaries, the result is the empty list; and it reads both shapes of
    an option list, returning the inner list of [[options...], ...] and the
    list itself when its first element is not a list. *)
Theorem extract_option_list_shapes
        (info : dict) (node_name input_name : string) :
  (dict_get info node_name = None ->
   Wan.extract_option_list info node_name input_name = Return []) /\
  (forall node,
     dict_get info node_name = Some (JDict node) ->
     dict_get node "input" = None ->
     Wan.extract_option_list info node_name input_name = Return []) /\
  (forall node input,
     dict_get info node_name = Some (JDict node) ->
     dict_get node "input" = Some (JDict input) ->
     dict_get input "required" = None ->
     Wan.extract_option_list info node_name input_name = Return []) /\
  (forall node input required,
     dict_get info node_name = Some (JDict node) ->
     dict_get node "input" = Some (JDict input) ->
     dict_get input "required" = Some (JDict required) ->
     match dict_get required input_name with
     | None => Wan.extract_option_list info node_name input_name = Return []
     | Some (JList (JList options :: _)) =>
         Wan.extract_option_list info node_name input_name = Return options
     | Some (JList (first :: rest)) =>
         Wan.extract_option_list info node_name input_name
         = Return (first :: rest)
     | Some _ => Wan.extract_option_list info node_name input_name = Return []
     end).
Proof.
  unfold Wan.extract_option_list, py_get, py_get_default.
  repeat split.
  - intros ->. reflexivity.
  - intros node -> . cbn [obind]. intros ->. reflexivity.
  - intros node input ->. cbn [obind]. intros ->. cbn [obind].
    intros ->. reflexivity.
  - intros node input required ->. cbn [obind]. intros ->. cbn [obind].
    intros ->. cbn [obind].
    destruct (dict_get required input_name) as [spec|]; [|reflexivity].
    destruct spec as [|[]|z|f|s|[|first rest]|[|p d]]; try reflexivity.
    + cbn. destruct (Z.eqb z 0); reflexivity.
    + cbn. destruct (PrimFloat.eqb f 0); reflexivity.
    + cbn. destruct (String.eqb s ""); reflexivity.
    + destruct first; reflexivity.
Qed.

Lemma preflight_check_eq
      (e : Wan.env) (base_url unet clip vae : string) (w : Wan.world)
      (info : dict) (unets clips vaes : list json) :
  Wan.reply_of e (Wan.net_calls w) = Wan.Body info ->
  Wan.extract_option_list info "UNETLoader" "unet_name" = Return unets ->
  Wan.extract_option_list info "CLIPLoader" "clip_name" = Return clips ->
  Wan.extract_option_list info "VAELoader" "vae_name" = Return vaes ->
  Wan.preflight_check e base_url unet clip vae w
  = (match missing_models unets clips vaes unet clip vae with
     | [] => Return tt
     | _ :: _ =>
         Raise (RuntimeError
                  (Text ("Missing model files in ComfyUI. "
                         ++ String.concat ", "
                              (missing_models unets clips vaes unet clip vae))))
     end,
     after_call e (Wan.EvRequest base_url Wan.ObjectInfo None) w).
Proof.
  intros Hreply Hu Hc Hv.
  unfold Wan.preflight_check, Wan.request_json, Wan.net_call, bind, lift,
    after_call.
  rewrite Hreply. unfold ret at 1. rewrite Hu, Hc, Hv.
  fold (missing_models unets clips vaes unet clip vae).
  destruct (missing_models unets clips vaes unet clip vae); reflexivity.
Qed.

(** X3: once [/object_info] is answered and the three option lists are
    read, [preflight_check] returns exactly when each model name is a string
    of its list; otherwise it raises a [RuntimeError] whose text names the
    missing models in the order UNET, CLIP, VAE.  It sends one request. *)
Theorem preflight_check_outcome
        (e : Wan.env) (base_url unet clip vae : string) (w : Wan.world)
        (info : dict) (unets clips vaes : list json) :
  Wan.reply_of e (Wan.net_calls w) = Wan.Body info ->
  Wan.extract_option_list info "UNETLoader" "unet_name" = Return unets ->
  Wan.extract_option_list info "CLIPLoader" "clip_name" = Return clips ->
  Wan.extract_option_list info "VAELoader" "vae_name" = Return vaes ->
  let run := Wan.preflight_check e base_url unet clip vae w in
  snd run = after_call e (Wan.EvRequest base_url Wan.ObjectInfo None) w /\
  (fst run = Return tt <->
   str_in_list unet unets = true /\ str_in_list clip clips = true /\
   str_in_list vae vaes = true) /\
  (missing_models unets clips vaes unet clip vae <> [] ->
   fst run
   = Raise (RuntimeError
              (Text ("Missing model files in ComfyUI. "
                     ++ String.concat ", "
                          (missing_models unets clips vaes unet clip vae))))).
Proof.
  intros Hreply Hu Hc Hv. cbv zeta.
  rewrite (preflight_check_eq e base_url unet clip vae w info unets clips
             vaes Hreply Hu Hc Hv).
  cbn [fst snd]. split; [reflexivity|]. unfold missing_models.
  destruct (str_in_list unet unets), (str_in_list clip clips),
    (str_in_list vae vaes); cbn [app];
    (split; [split; [intros H; try discriminate; auto
                    | intros (H1 & H2 & H3); try discriminate; reflexivity]
            | intros H; try (now elim H); reflexivity]).
Qed.

Lemma preflight_check_outcome_witness :
  let info := object_info ["wan2.1_t2v_1.3B_bf16.safetensors"; "other.safetensors"]
                          ["umt5_xxl_fp16.safetensors"]
                          ["wan_2.1_vae.safetensors"] in
  fst (Wan.preflight_check (constant_env (Wan.Body info))
         "http://127.0.0.1:8181" Wan.unet_name Wan.clip_name Wan.vae_name
         (Wan.initial 0)) = Return tt.
Proof.
  intros info.
  destruct (preflight_check_outcome (constant_env (Wan.Body info))
              "http://127.0.0.1:8181" Wan.unet_name Wan.clip_name
              Wan.vae_name (Wan.initial 0) info
              [JStr "wan2.1_t2v_1.3B_bf16.safetensors";
               JStr "other.safetensors"]
              [JStr "umt5_xxl_fp16.safetensors"]
              [JStr "wan_2.1_vae.safetensors"])
    as (_ & Hiff & _);
    [reflexivity | reflexivity | reflexivity | reflexivity |].
  apply (proj2 Hiff). repeat split.
Defined.

(** ** Extraction *)

Lemma named_items_have_filename (items : list json) :
  Forall has_filename (Wan.named_items items).
Proof.
  unfold Wan.named_items. induction items as [|item items IH];
    cbn [filter]; [constructor|].
  destruct item as [| | | | | |d]; try exact IH.
  unfold dict_mem. destruct (dict_get d "filename") as [v|] eqn:Hd;
    [|exact IH].
  constructor; [|exact IH]. exists d, v. auto.
Qed.

Lemma output_files_have_filename (output : json) (keys : list string)
      (files : list json) :
  Wan.output_files output keys = Return files -> Forall has_filename files.
Proof.
  revert files. induction keys as [|key keys IH]; intros files;
    cbn [Wan.output_files].
  - intros H. injection H as <-. constructor.
  - destruct (py_get output key) as [items| |]; cbn [obind];
      try discriminate.
    destruct (negb (truthy items)); [apply IH|].
    destruct (py_iter items) as [its| |]; cbn [obind]; try discriminate.
    destruct (Wan.output_files output keys) as [rest| |]; cbn [obind];
      try discriminate.
    intros H. injection H as <-. apply Forall_app. split.
    + apply named_items_have_filename.
    + now apply IH.
Qed.

Lemma outputs_files_have_filename (outputs files : list json) :
  Wan.outputs_files outputs = Return files -> Forall has_filename files.
Proof.
  revert files. induction outputs as [|o os IH]; intros files;
    cbn [Wan.outputs_files].
  - intros H. injection H as <-. constructor.
  - destruct (Wan.output_files o ["images"; "videos"; "gifs"])
      as [here| |] eqn:Ho; cbn [obind]; try discriminate.
    destruct (Wan.outputs_files os) as [rest| |]; cbn [obind];
      try discriminate.
    intros H. injection H as <-. apply Forall_app. split.
    + eapply output_files_have_filename. exact Ho.
    + now apply IH.
Qed.

(** X4: every entry [extract_files] returns is a dictionary that has a
    "filename" key, so the lookup [file_info["filename"]] of the download
    loop and of [download_file] never raises on an extracted entry. *)
Theorem extract_files_have_filename (entry : json) (files : list json) :
  Wan.extract_files entry = Return files ->
  Forall has_filename files /\
  Forall (fun f => exists v, py_item f "filename" = Return v) files.
Proof.
  intros H.
  assert (Hall : Forall has_filename files).
  { unfold Wan.extract_files in H.
    destruct (py_get entry "outputs") as [o| |]; cbn [obind] in H;
      try discriminate.
    destruct (py_or o (JDict [])); try discriminate.
    eapply outputs_files_have_filename. exact H. }
  split; [exact Hall|].
  eapply Forall_impl; [|exact Hall].
  intros f (d & v & -> & Hd). exists v. cbn. unfold dict_item.
  now rewrite Hd.
Qed.

Lemma extract_files_have_filename_witness :
  Forall has_filename
    [JDict [("filename", JStr "a.webm")]; JDict [("filename", JStr "a.png")]].
Proof.
  apply (extract_files_have_filename mixed_entry). reflexivity.
Defined.

Lemma output_files_listed (d : dict) (keys : list string) :
  (forall key, In key keys ->
     match dict_get d key with
     | None => True
     | Some items => exists l, items = JList l
     end) ->
  Wan.output_files (JDict d) keys
  = Return (flat_map (fun key => Wan.named_items (listed (JDict d) key)) keys).
Proof.
  induction keys as [|key keys IH]; intros H; [reflexivity|].
  cbn [Wan.output_files flat_map]. unfold py_get, py_get_default.
  cbn [obind listed].
  pose proof (H key (or_introl eq_refl)) as Hk.
  rewrite (IH (fun k Hin => H k (or_intror Hin))).
  destruct (dict_get d key) as [items|]; [|reflexivity].
  destruct Hk as (l & ->). destruct l as [|x l]; reflexivity.
Qed.

(** X5: when the outputs of a history entry are dictionaries whose
    "images", "videos" and "gifs" entries are absent or lists, [extract_files]
    returns, output by output and within an output in the order images,
    videos, gifs, exactly the listed items that are dictionaries with a
    "filename" key; items of any other key are never looked at. *)
Theorem extract_files_list_valued (d outputs : dict) :
  dict_get d "outputs" = Some (JDict outputs) ->
  Forall list_valued_output (dict_values outputs) ->
  Wan.extract_files (JDict d)
  = Return (flat_map
              (fun output =>
                 flat_map (fun key => Wan.named_items (listed output key))
                          ["images"; "videos"; "gifs"])
              (dict_values outputs)).
Proof.
  intros Hd Hall. unfold Wan.extract_files, py_get, py_get_default.
  cbn [obind]. rewrite Hd. unfold py_or.
  destruct outputs as [|p outputs]; [reflexivity|]. cbn [truthy].
  induction Hall as [|output rest (od & -> & Hod) _ IH]; [reflexivity|].
  cbn [Wan.outputs_files flat_map]. rewrite (output_files_listed od _ Hod).
  cbn [obind]. rewrite IH. reflexivity.
Qed.

Lemma extract_files_list_valued_witness :
  Wan.extract_files mixed_entry
  = Return [JDict [("filename", JStr "a.webm")];
            JDict [("filename", JStr "a.png")]].
Proof.
  unfold mixed_entry.
  rewrite (extract_files_list_valued _
             [("47", JDict [("images",
                             JList [JDict [("filename", JStr "a.webm")];
                                    JDict [("filename", JStr "a.png")]])])]).
  - reflexivity.
  - reflexivity.
  - constructor; [|constructor]. eexists. split; [reflexivity|].
    intros key [<- | [<- | [<- | []]]]; cbn; eauto.
Defined.

(** ** Strings and names *)

Lemma str_of_nat_not_empty (n : nat) : str_of_nat n <> "".
Proof.
  unfold str_of_nat. intros H.
  assert (Hnil : Nat.to_uint n <> Nil).
  { rewrite <- (Unsigned.of_to n) at 1. rewrite Unsigned.to_of.
    apply DecimalFacts.unorm_nonnil. }
  destruct (Nat.to_uint n); try discriminate. now apply Hnil.
Qed.

(** X6: the index format [{idx:02d}] has at least two characters and reads
    back as the index, so two different rounds never get the same label:
    neither the filename prefixes [wan_t2v_NN] nor the batch file names of
    two rounds coincide. *)
Theorem round_labels_distinct (i j : nat) :
  2 <= String.length (fmt02d i) /\
  nat_of_digits (fmt02d i) = Some i /\
  (i <> j ->
   fmt02d i <> fmt02d j /\
   forall prefix, Batch.file_name prefix i <> Batch.file_name prefix j).
Proof.
  split; [|split].
  - unfold fmt02d. pose proof (str_of_nat_not_empty i) as Hne.
    destruct (Nat.ltb_spec (String.length (str_of_nat i)) 2) as [Hlt|Hge].
    + destruct (str_of_nat i); [now elim Hne|]. cbn. lia.
    + exact Hge.
  - apply nat_of_digits_fmt02d.
  - intros Hij. split.
    + intros H. apply Hij. now apply fmt02d_inj.
    + intros prefix H. apply Hij. now apply (file_name_inj prefix).
Qed.

Lemma round_labels_distinct_witness :
  fmt02d 7 = "07" /\ fmt02d 123 = "123" /\ fmt02d 7 <> fmt02d 70.
Proof.
  repeat split.
  apply (proj1 (proj2 (proj2 (round_labels_distinct 7 70)) ltac:(discriminate))).
Defined.

Lemma rfind_from_app (c : ascii) (s t : string) :
  forall (i : nat) (found : option nat),
    Wan.rfind_from c (s ++ t) i found
    = Wan.rfind_from c t (i + String.length s) (Wan.rfind_from c s i found).
Proof.
  induction s as [|a s IH]; intros i found; cbn [append Wan.rfind_from String.length].
  - now rewrite Nat.add_0_r.
  - rewrite IH. f_equal. lia.
Qed.

Lemma rfind_from_lacks (c : ascii) (t : string) :
  lacks c t = true ->
  forall i found, Wan.rfind_from c t i found = found.
Proof.
  induction t as [|a t IH]; cbn [lacks Wan.rfind_from]; intros H i found;
    [reflexivity|].
  apply andb_prop in H as [Ha Ht]. apply negb_true_iff in Ha.
  rewrite Ha. now apply IH.
Qed.

Lemma rfind_from_bound (c : ascii) (s : string) :
  forall i found k,
    Wan.rfind_from c s i found = Some k ->
    found = Some k \/ (i <= k < i + String.length s).
Proof.
  induction s as [|a s IH]; cbn [Wan.rfind_from String.length]; intros i found k H.
  - now left.
  - apply IH in H as [H | H]; [|right; lia].
    destruct (Ascii.eqb a c); [|now left].
    injection H as <-. right. lia.
Qed.

Lemma substring_app_l (s t : string) :
  forall n m, n + m <= String.length s ->
              substring n m (s ++ t) = substring n m s.
Proof.
  induction s as [|a s IH]; intros n m H; cbn [String.length] in H.
  - assert (n = 0) as -> by lia. assert (m = 0) as -> by lia.
    destruct t; reflexivity.
  - destruct n as [|n]; cbn [append substring].
    + destruct m as [|m]; [reflexivity|]. f_equal. apply IH. lia.
    + apply IH. lia.
Qed.

Lemma substring_app_r (s t : string) :
  substring (String.length s) (String.length t) (s ++ t) = t.
Proof.
  induction s as [|a s IH]; cbn [String.length append substring];
    [|exact IH].
  induction t as [|b t IHt]; [reflexivity|].
  cbn [String.length substring]. now rewrite IHt.
Qed.

Lemma lower_app (s t : string) :
  Wan.lower (s ++ t) = (Wan.lower s ++ Wan.lower t)%string.
Proof. induction s as [|a s IH]; cbn; [reflexivity | now rewrite IH]. Qed.

(** X7: for a name [stem.e] whose last part [e] holds neither a dot nor a
    slash, [splitext_ext] is [.e], unless the final path component of the
    stem is empty or all dots: a hidden file such as [.webm] has no
    extension.  Hence in video mode with format "webm" the download loop
    keeps [stem.e] exactly when [e] is "webm" in any case and the file is
    not hidden. *)
Theorem splitext_of_dotted_name (a : Wan.args) (stem e : string) :
  lacks "."%char e = true -> lacks "/"%char e = true ->
  Wan.splitext_ext (stem ++ "." ++ e)
  = (if Wan.all_dots (basename stem) then "" else "." ++ e)%string /\
  (Wan.mode a = "video" -> Wan.format a = "webm" ->
   Wan.skipped a (Wan.lower (Wan.splitext_ext (stem ++ "." ++ e)))
   = (Wan.all_dots (basename stem)
      || negb (String.eqb (Wan.lower e) "webm"))%bool).
Proof.
  intros Hdot Hslash.
  assert (Hext : Wan.splitext_ext (stem ++ "." ++ e)
                 = (if Wan.all_dots (basename stem) then ""
                    else "." ++ e)%string).
  { unfold Wan.splitext_ext, Wan.rfind, basename.
    rewrite !rfind_from_app. cbn [append Wan.rfind_from Nat.add].
    cbn [Ascii.eqb Bool.eqb]. 
    rewrite (rfind_from_lacks _ e Hdot), (rfind_from_lacks _ e Hslash).
    change (Wan.rfind_from "/" stem 0 None) with (Wan.rfind "/" stem).
    set (start := match Wan.rfind "/" stem with
                  | None => 0 | Some sep => S sep end).
    assert (Hstart : start <= String.length stem).
    { subst start. destruct (Wan.rfind "/" stem) as [k|] eqn:Hk; [|lia].
      apply rfind_from_bound in Hk as [Hk | Hk]; [discriminate | lia]. }
    destruct (Nat.leb_spec start (String.length stem)) as [_|]; [|lia].
    rewrite substring_app_l by lia.
    destruct (Wan.all_dots (substring start (String.length stem - start) stem));
      [reflexivity|].
    rewrite append_length.
    replace (String.length stem + String.length (String "." e)
             - String.length stem)
      with (String.length (String "." e)) by lia.
    apply substring_app_r. }
  split; [exact Hext|].
  intros Hm Hf. rewrite Hext. unfold Wan.skipped. rewrite Hm, Hf.
  cbn [String.eqb Ascii.eqb Bool.eqb andb orb].
  destruct (Wan.all_dots (basename stem)); [reflexivity|].
  rewrite lower_app. cbn [Wan.lower append]. 
  change (Wan.lower_ascii ".") with "."%char.
  cbn [String.eqb Ascii.eqb Bool.eqb]. rewrite orb_false_r. reflexivity.
Qed.

Lemma splitext_of_dotted_name_witness :
  Wan.splitext_ext "out/clip_01.WebM" = ".WebM" /\
  Wan.splitext_ext "out/.webm" = "".
Proof.
  split.
  - apply (proj1 (splitext_of_dotted_name (default_args "a cat")
                    "out/clip_01" "WebM" eq_refl eq_refl)).
  - apply (proj1 (splitext_of_dotted_name (default_args "a cat")
                    "out/" "webm" eq_refl eq_refl)).
Defined.

(** ** The wait loops *)

Lemma wait_for_server_loop_step (e : Wan.env) (n : nat) (base_url : string)
      (deadline : Z) (w : Wan.world) :
  Wan.wait_for_server_loop e (S n) base_url deadline w
  = if Z.ltb (Wan.now w) deadline then
      let w1 := after_call e (Wan.EvRequest base_url Wan.Queue None) w in
      if answered (Wan.reply_of e (Wan.net_calls w)) then (Return true, w1)
      else bind (Wan.sleep e (Wan.seconds e 1))
                (fun _ => Wan.wait_for_server_loop e n base_url deadline) w1
    else (Return false, w).
Proof.
  cbn [Wan.wait_for_server_loop]. unfold bind at 1, Wan.time_time at 1.
  destruct (Z.ltb (Wan.now w) deadline); [|reflexivity].
  unfold bind at 1. rewrite is_server_reachable_eq. cbv zeta.
  destruct (Wan.reply_of e (Wan.net_calls w)); reflexivity.
Qed.

Lemma wait_for_server_loop_run (e : Wan.env) (base_url : string)
      (deadline : Z) :
  forall (n : nat) (w : Wan.world),
    (deadline - Wan.now w <= Z.of_nat n * Wan.seconds e 1)%Z ->
    exists b w',
      Wan.wait_for_server_loop e (S n) base_url deadline w = (Return b, w') /\
      Wan.net_calls w <= Wan.net_calls w' /\
      (forall i, Wan.net_calls w <= i -> S i < Wan.net_calls w' ->
                 Wan.reply_of e i = Wan.Unavailable) /\
      (b = true ->
       Wan.net_calls w < Wan.net_calls w' /\
       answered (Wan.reply_of e (Wan.net_calls w' - 1)) = true) /\
      (b = false ->
       (deadline <= Wan.now w')%Z /\
       forall i, Wan.net_calls w <= i < Wan.net_calls w' ->
                 Wan.reply_of e i = Wan.Unavailable) /\
      (Wan.net_calls w' = Wan.net_calls w \/
       (Wan.now w
        + (Z.of_nat (Wan.net_calls w' - Wan.net_calls w) - 1) * Wan.seconds e 1
        < deadline)%Z) /\
      child_running (Wan.trace w') = child_running (Wan.trace w).
Proof.
  assert (Hsec : (0 < Wan.seconds e 1)%Z) by (unfold Wan.seconds; lia).
  assert (Hstay : forall w : Wan.world,
            (deadline <= Wan.now w)%Z ->
            exists b w',
              (Return false, w) = (Return b, w') /\
              Wan.net_calls w <= Wan.net_calls w' /\
              (forall i, Wan.net_calls w <= i -> S i < Wan.net_calls w' ->
                         Wan.reply_of e i = Wan.Unavailable) /\
              (b = true ->
               Wan.net_calls w < Wan.net_calls w' /\
               answered (Wan.reply_of e (Wan.net_calls w' - 1)) = true) /\
              (b = false ->
               (deadline <= Wan.now w')%Z /\
               forall i, Wan.net_calls w <= i < Wan.net_calls w' ->
                         Wan.reply_of e i = Wan.Unavailable) /\
              (Wan.net_calls w' = Wan.net_calls w \/
               (Wan.now w
                + (Z.of_nat (Wan.net_calls w' - Wan.net_calls w) - 1)
                  * Wan.seconds e 1 < deadline)%Z) /\
              child_running (Wan.trace w') = child_running (Wan.trace w)).
  { intros w Hge. exists false, w.
    refine (conj eq_refl (conj (le_n _) (conj _ (conj _ (conj _ (conj _ eq_refl)))))).
    - intros i Hi1 Hi2. lia.
    - discriminate.
    - intros _. split; [exact Hge|]. intros i Hi. lia.
    - now left. }
  induction n as [|n IH]; intros w Hd; rewrite wait_for_server_loop_step.
  - destruct (Z.ltb_spec (Wan.now w) deadline) as [Hlt|Hge]; [lia|].
    now apply Hstay.
  - destruct (Z.ltb_spec (Wan.now w) deadline) as [Hlt|Hge];
      [|now apply Hstay].
    cbv zeta.
    destruct (answered (Wan.reply_of e (Wan.net_calls w))) eqn:Hans.
    + eexists true, _. split; [reflexivity|].
      cbn [Wan.net_calls Wan.now Wan.trace after_call].
      refine (conj _ (conj _ (conj _ (conj _ (conj _ _))))).
      * lia.
      * intros i Hi1 Hi2. lia.
      * intros _. split; [lia|].
        replace (S (Wan.net_calls w) - 1) with (Wan.net_calls w) by lia.
        exact Hans.
      * discriminate.
      * right.
        replace (S (Wan.net_calls w) - Wan.net_calls w) with 1 by lia. lia.
      * apply child_running_leaves. now repeat constructor.
    + unfold bind at 1.
      rewrite sleep_accepted by (apply sleep_error_seconds; easy).
      cbv beta iota.
      match goal with
      | |- context [Wan.wait_for_server_loop e (S n) base_url deadline ?w2] =>
          destruct (IH w2) as (b & w' & Hrun & Hn & Hfail & Ht & Hf & Hb & Hc)
      end.
      { cbn [Wan.now after_call]. lia. }
      cbn [Wan.net_calls Wan.now Wan.trace after_call] in *.
      exists b, w'. split; [exact Hrun|].
      assert (Hhere : Wan.reply_of e (Wan.net_calls w) = Wan.Unavailable)
        by (destruct (Wan.reply_of e (Wan.net_calls w));
            [discriminate | reflexivity]).
      refine (conj _ (conj _ (conj _ (conj _ (conj _ _))))).
      * lia.
      * intros i Hi1 Hi2.
        destruct (Nat.eq_dec i (Wan.net_calls w)) as [->|];
          [exact Hhere | apply Hfail; lia].
      * intros Hb1. destruct (Ht Hb1) as [Ht1 Ht2]. split; [lia | exact Ht2].
      * intros Hb0. destruct (Hf Hb0) as [Hf1 Hf2]. split; [exact Hf1|].
        intros i Hi. destruct (Nat.eq_dec i (Wan.net_calls w)) as [->|];
          [exact Hhere | apply Hf2; lia].
      * right. destruct Hb as [Hb | Hb].
        -- rewrite Hb.
           replace (S (Wan.net_calls w) - Wan.net_calls w) with 1 by lia. lia.
        -- replace (Z.of_nat (Wan.net_calls w' - Wan.net_calls w))
             with (Z.of_nat (Wan.net_calls w' - S (Wan.net_calls w)) + 1)%Z
             by lia.
           nia.
      * rewrite Hc. rewrite <- app_assoc. apply child_running_leaves.
        now repeat constructor.
Qed.

(** X8: [wait_for_server] never raises.  Given fuel for its rounds it
    returns [True] as soon as a reachability check is answered, every check
    before that one having failed, and [False] once the clock has reached
    the deadline with every check failed.  A check is only started before
    the deadline and failed checks are one second apart, so with [n] checks
    made, [n - 1] seconds fit strictly inside the timeout; the child process
    is neither started nor terminated. *)
Theorem wait_for_server_outcome
        (e : Wan.env) (n : nat) (base_url : string) (timeout : Z)
        (w : Wan.world) :
  (timeout <= Z.of_nat n * Wan.seconds e 1)%Z ->
  exists b w',
    Wan.wait_for_server e (S n) base_url timeout w = (Return b, w') /\
    (forall i, Wan.net_calls w <= i -> S i < Wan.net_calls w' ->
               Wan.reply_of e i = Wan.Unavailable) /\
    (b = true ->
     Wan.net_calls w < Wan.net_calls w' /\
     answered (Wan.reply_of e (Wan.net_calls w' - 1)) = true) /\
    (b = false ->
     (Wan.now w + timeout <= Wan.now w')%Z /\
     forall i, Wan.net_calls w <= i < Wan.net_calls w' ->
               Wan.reply_of e i = Wan.Unavailable) /\
    (Wan.net_calls w' = Wan.net_calls w \/
     ((Z.of_nat (Wan.net_calls w' - Wan.net_calls w) - 1) * Wan.seconds e 1
      < timeout)%Z) /\
    child_running (Wan.trace w') = child_running (Wan.trace w).
Proof.
  intros Hfuel. unfold Wan.wait_for_server, bind, Wan.time_time.
  destruct (wait_for_server_loop_run e base_url (Wan.now w + timeout) n w)
    as (b & w' & Hrun & _ & Hfail & Ht & Hf & Hb & Hc); [lia|].
  exists b, w'. split; [exact Hrun|]. split; [exact Hfail|].
  split; [exact Ht|]. split; [exact Hf|]. split; [|exact Hc].
  destruct Hb as [Hb | Hb]; [now left | right; lia].
Qed.

Lemma wait_for_server_outcome_witness :
  exists w',
    Wan.wait_for_server (constant_env Wan.Unavailable) 31
      "http://127.0.0.1:8181" 30 (Wan.initial 0) = (Return false, w') /\
    Wan.net_calls w' <= 30.
Proof.
  destruct (wait_for_server_outcome (constant_env Wan.Unavailable) 30
              "http://127.0.0.1:8181" 30 (Wan.initial 0))
    as (b & w' & Hrun & _ & Ht & _ & Hb & _).
  - cbn. lia.
  - destruct b.
    + destruct (Ht eq_refl) as [_ Hans]. discriminate.
    + exists w'. split; [exact Hrun|].
      cbn [Wan.net_calls Wan.initial] in Hb. unfold Wan.seconds in Hb.
      cbn [Wan.hz constant_env] in Hb. lia.
Defined.

Lemma succeeded_entry_completes (entry : json) :
  succeeded_entry entry -> Wan.completed_entry entry = Return (Some entry).
Proof.
  intros (d & status & c & -> & Hst & Hc & Htc & Hs).
  unfold Wan.completed_entry, py_get, py_get_default. cbn [obind].
  rewrite Hst. unfold py_or.
  assert (truthy (JDict status) = true) as ->
    by (destruct status; [discriminate | reflexivity]).
  cbn [obind]. rewrite Hc, Htc. cbn [obind]. rewrite Hs. reflexivity.
Qed.

Lemma round_time_shift (e : Wan.env) (pause : Z) (w : Wan.world)
      (ev1 ev2 : Wan.event) (j : nat) :
  round_time e pause
    {| Wan.now := (Wan.now (after_call e ev1 w) + pause)%Z;
       Wan.net_calls := Wan.net_calls (after_call e ev1 w);
       Wan.draws := Wan.draws w;
       Wan.port_forward_proc := Wan.port_forward_proc w;
       Wan.trace := Wan.trace (after_call e ev1 w) ++ [ev2] |} j
  = round_time e pause w (S j).
Proof.
  induction j as [|j IH]; cbn [round_time Wan.now Wan.net_calls after_call].
  - rewrite Nat.add_0_r. reflexivity.
  - cbn [round_time Wan.now Wan.net_calls after_call] in IH. rewrite IH.
    cbn [round_time]. replace (S (Wan.net_calls w) + j)
      with (Wan.net_calls w + S j) by lia. reflexivity.
Qed.

Lemma wait_for_prompt_loop_returns (e : Wan.env) (base_url key : string)
      (deadline poll_interval : Z) (resp : dict) (entry : json) :
  dict_get resp key = Some entry -> succeeded_entry entry ->
  forall (k fuel : nat) (w : Wan.world),
    (0 < k -> Wan.sleep_error e poll_interval = None) ->
    k < fuel ->
    (forall j, j < k ->
       pending (JStr key) (Wan.reply_of e (Wan.net_calls w + j))) ->
    (forall j, j <= k -> (round_time e poll_interval w j < deadline)%Z) ->
    Wan.reply_of e (Wan.net_calls w + k) = Wan.Body resp ->
    exists w',
      Wan.wait_for_prompt_loop e fuel base_url (JStr key) deadline
                               poll_interval w = (Return entry, w') /\
      Wan.net_calls w' = Wan.net_calls w + S k /\
      Wan.now w'
      = (round_time e poll_interval w k
         + Z.of_N (Wan.latency_of e (Wan.net_calls w + k)))%Z.
Proof.
  intros Hget Hok.
  induction k as [|k IH]; intros fuel w Hpoll Hfuel Hpend Ht Hr;
    (destruct fuel as [|fuel]; [lia|]); rewrite wait_loop_step;
    pose proof (Ht 0 ltac:(lia)) as Ht0; cbn [round_time] in Ht0;
    (destruct (Z.ltb_spec (Wan.now w) deadline) as [_|]; [|lia]); cbv zeta.
  - rewrite Nat.add_0_r in Hr. rewrite Hr.
    unfold poll_result, Wan.dict_contains, Wan.dict_item_at, dict_mem,
      dict_item. rewrite Hget. cbn [obind].
    rewrite (succeeded_entry_completes entry Hok).
    eexists. split; [reflexivity|].
    cbn [Wan.net_calls Wan.now after_call round_time].
    rewrite Nat.add_0_r. split; [lia | reflexivity].
  - destruct (pending_polls_on _ _ (Hpend 0 ltac:(lia))) as (r0 & Hr0 & Hp0).
    rewrite Nat.add_0_r in Hr0. rewrite Hr0, Hp0.
    unfold bind at 1. rewrite sleep_accepted by (apply Hpoll; lia).
    cbv beta iota.
    match goal with
    | |- context [Wan.wait_for_prompt_loop e fuel base_url (JStr key) deadline
                    poll_interval ?w2] =>
        destruct (IH fuel w2) as (w' & Hrun & Hn & Hnow)
    end.
    + intros _. apply Hpoll. lia.
    + lia.
    + intros j Hj. cbn [Wan.net_calls after_call].
      replace (S (Wan.net_calls w) + j) with (Wan.net_calls w + S j) by lia.
      apply Hpend. lia.
    + intros j Hj.
      rewrite (round_time_shift e poll_interval w _ _ j). apply Ht. lia.
    + cbn [Wan.net_calls after_call].
      replace (S (Wan.net_calls w) + k) with (Wan.net_calls w + S k) by lia.
      exact Hr.
    + exists w'. split; [exact Hrun|].
      rewrite (round_time_shift e poll_interval w _ _ k) in Hnow.
      cbn [Wan.net_calls after_call] in Hn, Hnow.
      replace (S (Wan.net_calls w) + k) with (Wan.net_calls w + S k) in Hnow
        by lia.
      split; [lia | exact Hnow].
Qed.

(** X9: the happy path of [wait_for_prompt].  When the first [k] polls are
    answered and show the job absent or still running, [time.sleep] accepts
    the poll interval (needed only when [k > 0]; any interval from 0 to
    10^9 seconds is accepted), each of the [k + 1] polls starts before the
    deadline, and poll [k] maps the prompt id to an entry completed with
    status "success", the loop returns exactly that entry after [k + 1]
    requests and [k] sleeps, without waiting further. *)
Theorem wait_for_prompt_returns_entry
        (e : Wan.env) (base_url key : string) (timeout poll_interval : Z)
        (resp : dict) (entry : json) (k fuel : nat) (w : Wan.world) :
  (0 < k -> Wan.sleep_error e poll_interval = None) ->
  dict_get resp key = Some entry -> succeeded_entry entry ->
  k < fuel ->
  (forall j, j < k ->
     pending (JStr key) (Wan.reply_of e (Wan.net_calls w + j))) ->
  (forall j, j <= k ->
     (round_time e poll_interval w j < Wan.now w + timeout)%Z) ->
  Wan.reply_of e (Wan.net_calls w + k) = Wan.Body resp ->
  exists w',
    Wan.wait_for_prompt e fuel base_url (JStr key) timeout poll_interval w
    = (Return entry, w') /\
    Wan.net_calls w' = Wan.net_calls w + S k /\
    Wan.now w'
    = (round_time e poll_interval w k
       + Z.of_N (Wan.latency_of e (Wan.net_calls w + k)))%Z.
Proof.
  intros Hpoll Hget Hok Hfuel Hpend Ht Hr.
  unfold Wan.wait_for_prompt, bind, Wan.time_time.
  now apply (wait_for_prompt_loop_returns e base_url key _ poll_interval
               resp entry Hget Hok k fuel w).
Qed.

Lemma wait_for_prompt_returns_entry_witness :
  let entry := JDict [("status", JDict [("status_str", JStr "success");
                                        ("completed", JBool true)]);
                      ("outputs", JDict [])] in
  let e := {| Wan.hz := 1;
              Wan.reply_of := fun i => match i with
                                       | O => Wan.Body []
                                       | _ => Wan.Body [("abc", entry)]
                                       end;
              Wan.latency_of := fun _ => 0%N; Wan.entropy := fun _ => 0%N;
              Wan.kubectl_starts := true; Wan.child_exits := true;
              Wan.url_port := fun _ => Wan.PortAbsent;
              Wan.resolve := fun dir => [dir];
              Wan.timestamp := "20260101_000000";
              Wan.open_error := fun _ => None;
              Wan.timer_error := fun _ => None |} in
  exists w',
    Wan.wait_for_prompt e 2 "http://127.0.0.1:8181" (JStr "abc") 3600 5
                        (Wan.initial 0)
    = (Return entry, w') /\ Wan.net_calls w' = 2 /\ Wan.now w' = 5%Z.
Proof.
  intros entry e.
  destruct (wait_for_prompt_returns_entry e "http://127.0.0.1:8181" "abc"
              3600 5 [("abc", entry)] entry 1 2 (Wan.initial 0))
    as (w' & Hrun & Hn & Hnow).
  - intros _. reflexivity.
  - reflexivity.
  - exists [("status", JDict [("status_str", JStr "success");
                              ("completed", JBool true)]);
            ("outputs", JDict [])],
           [("status_str", JStr "success"); ("completed", JBool true)],
           (JBool true).
    repeat split.
  - lia.
  - intros j Hj. assert (j = 0) as -> by lia. exists []. split; reflexivity.
  - intros j Hj. destruct j as [|[|j]]; [cbn; lia | cbn; lia | lia].
  - reflexivity.
  - exists w'. split; [exact Hrun|]. split; [exact Hn | exact Hnow].
Defined.

(** X10: whatever the server answers, an entry that [wait_for_prompt]
    returns is a dictionary whose status is a dictionary with a truthy
    "completed" and the status string "success". *)
Theorem wait_for_prompt_only_returns_success
        (e : Wan.env) (fuel : nat) (base_url : string) (prompt_id : json)
        (timeout poll_interval : Z) (w : Wan.world) (entry : json) :
  fst (Wan.wait_for_prompt e fuel base_url prompt_id timeout poll_interval w)
  = Return entry ->
  succeeded_entry entry.
Proof. apply wait_for_prompt_returns_success. Qed.

Lemma wait_for_prompt_only_returns_success_witness :
  succeeded_entry
    (JDict [("status", JDict [("status_str", JStr "success");
                              ("completed", JInt 1)])]).
Proof.
  apply (wait_for_prompt_only_returns_success
           (constant_env
              (Wan.Body [("abc",
                          JDict [("status",
                                  JDict [("status_str", JStr "success");
                                         ("completed", JInt 1)])])]))
           1 "http://127.0.0.1:8181" (JStr "abc") 3600 5 (Wan.initial 0)).
  reflexivity.
Defined.

(** X11: with a timeout of zero or less neither wait loop contacts the
    server: [wait_for_prompt] raises the timeout error and
    [wait_for_server] returns [False], both leaving the state as it was. *)
Theorem nonpositive_timeout_contacts_nobody
        (e : Wan.env) (fuel : nat) (base_url : string) (prompt_id : json)
        (timeout poll_interval : Z) (w : Wan.world) :
  (timeout <= 0)%Z ->
  Wan.wait_for_prompt e (S fuel) base_url prompt_id timeout poll_interval w
  = (Raise timed_out, w) /\
  Wan.wait_for_server e (S fuel) base_url timeout w = (Return false, w).
Proof.
  intros Ht. unfold Wan.wait_for_prompt, Wan.wait_for_server, bind,
    Wan.time_time.
  rewrite wait_loop_step, wait_for_server_loop_step.
  destruct (Z.ltb_spec (Wan.now w) (Wan.now w + timeout)); [lia|].
  split; reflexivity.
Qed.

Lemma nonpositive_timeout_contacts_nobody_witness :
  Wan.wait_for_prompt (constant_env (Wan.Body [])) 1 "http://127.0.0.1:8181"
    (JStr "abc") 0 5 (Wan.initial 0)
  = (Raise timed_out, Wan.initial 0).
Proof.
  apply (nonpositive_timeout_contacts_nobody (constant_env (Wan.Body [])) 0
           "http://127.0.0.1:8181" (JStr "abc") 0 5 (Wan.initial 0)).
  lia.
Defined.

Lemma str_join_texts (sep : string) (texts : list string) :
  str_join sep (map JStr texts) = Return (String.concat sep texts).
Proof.
  induction texts as [|t texts IH]; [reflexivity|].
  cbn [map str_join String.concat].
  destruct texts as [|t' texts]; [reflexivity|].
  cbn [map] in *. rewrite IH. reflexivity.
Qed.

(** X12: a poll made before the deadline that finds the job completed
    without the status string "success", its messages missing or a list of
    strings, raises the generation error after that one request: its detail
    is the messages joined by ", ", or the status itself when the joined
    text is empty. *)
Theorem failed_job_with_text_messages
        (e : Wan.env) (fuel : nat) (base_url key : string)
        (timeout poll_interval : Z) (w : Wan.world)
        (resp d status : dict) (c : json) (texts : list string) :
  (0 < timeout)%Z ->
  Wan.reply_of e (Wan.net_calls w) = Wan.Body resp ->
  dict_get resp key = Some (JDict d) ->
  dict_get d "status" = Some (JDict status) ->
  dict_get status "completed" = Some c -> truthy c = true ->
  match dict_get status "status_str" with
  | Some s => str_eq s "success" = false
  | None => True
  end ->
  match dict_get status "messages" with
  | Some m => m = JList (map JStr texts)
  | None => texts = []
  end ->
  Wan.wait_for_prompt e (S fuel) base_url (JStr key) timeout poll_interval w
  = (Raise (RuntimeError
              (if String.eqb (String.concat ", " texts) ""
               then GenerationFailedStatus (JDict status)
               else GenerationFailed (String.concat ", " texts))),
     after_call e (Wan.EvRequest base_url (Wan.History (JStr key)) None) w).
Proof.
  intros Ht Hr Hk Hst Hc Htc Hs Hm.
  unfold Wan.wait_for_prompt, bind, Wan.time_time. rewrite wait_loop_step.
  destruct (Z.ltb_spec (Wan.now w) (Wan.now w + timeout)); [|lia].
  cbv zeta. rewrite Hr.
  unfold poll_result, Wan.dict_contains, Wan.dict_item_at, dict_mem,
    dict_item. rewrite Hk. cbn [obind].
  unfold Wan.completed_entry, py_get, py_get_default. cbn [obind].
  rewrite Hst. unfold py_or.
  assert (truthy (JDict status) = true) as ->
    by (destruct status; [discriminate | reflexivity]).
  cbn [obind]. rewrite Hc, Htc. cbn [obind].
  assert (Hfail : negb (str_eq match dict_get status "status_str" with
                               | Some x => x | None => JNull end "success")
                  = true).
  { destruct (dict_get status "status_str"); [now rewrite Hs | reflexivity]. }
  rewrite Hfail.
  destruct (dict_get status "messages") as [m|].
  - subst m. destruct texts as [|t texts]; [reflexivity|].
    cbn [map truthy py_iter obind].
    change (JStr t :: map JStr texts) with (map JStr (t :: texts)).
    rewrite str_join_texts. reflexivity.
  - subst texts. reflexivity.
Qed.

Lemma failed_job_with_text_messages_witness :
  let status := [("status_str", JStr "error"); ("completed", JBool true);
                 ("messages", JList [JStr "out of memory"; JStr "node 3"])] in
  fst (Wan.wait_for_prompt
         (constant_env (Wan.Body [("abc", JDict [("status", JDict status)])]))
         1 "http://127.0.0.1:8181" (JStr "abc") 3600 5 (Wan.initial 0))
  = Raise (RuntimeError (GenerationFailed "out of memory, node 3")).
Proof.
  intros status.
  rewrite (failed_job_with_text_messages
             (constant_env (Wan.Body [("abc", JDict [("status", JDict status)])]))
             0 "http://127.0.0.1:8181" "abc" 3600 5 (Wan.initial 0)
             [("abc", JDict [("status", JDict status)])]
             [("status", JDict status)] status (JBool true)
             ["out of memory"; "node 3"]);
    reflexivity.
Defined.

(** ** The batch script, action by action *)

Lemma batch_loop_trace
      (server : nat -> Batch.post_result) (disk : path -> option exn)
      (timer : float -> option exn) (prompt : string) (steps : Z)
      (url : string) (out_dir : path) (prefix : string) (count : Z)
      (delay : float) (m : nat) :
  lacks "/"%char prefix = true ->
  (PrimFloat.ltb 0 delay = true -> Batch.sleep_error timer delay = None) ->
  forall (j : nat) (s : Batch.state),
    Batch.posts s = j ->
    (forall i, j <= i < j + m -> Batch.accepted (server i) = true) ->
    (forall i, j <= i < j + m ->
               disk (out_dir ++ [Batch.file_name prefix (S i)]) = None) ->
    Batch.generate_loop server disk timer prompt steps url out_dir prefix
                        count delay (seq (S j) m) s
    = (Return tt,
       {| Batch.posts := j + m;
          Batch.trace :=
            Batch.trace s
            ++ flat_map (batch_round server prompt steps url out_dir prefix
                                     count delay) (seq (S j) m) |}).
Proof.
  intros Hplain Hsleep.
  induction m as [|m IH]; intros j s Hj Hok Hdisk.
  - cbn. rewrite Nat.add_0_r, app_nil_r. subst j. now destruct s.
  - cbn [seq Batch.generate_loop flat_map].
    unfold bind at 1. unfold Batch.session_post at 1. rewrite Hj.
    pose proof (Hok j ltac:(lia)) as Hj0.
    destruct (server j) as [r|] eqn:Hr; cbn in Hj0; [|discriminate].
    apply negb_true_iff in Hj0.
    unfold bind at 1. unfold Batch.raise_for_status. rewrite Hj0.
    unfold ret at 1. unfold bind at 1.
    rewrite (batch_write disk out_dir prefix Hplain)
      by (apply Hdisk; lia).
    rewrite (batch_target out_dir prefix Hplain).
    unfold Batch.emit at 1, modify at 1.
    unfold bind at 1. rewrite (batch_sleep timer delay Hsleep).
    unfold batch_round at 1.
    replace (S j - 1) with j by lia. unfold Batch.body_of at 1. rewrite Hr.
    destruct (PrimFloat.ltb 0 delay && negb (Z.eqb (Z.of_nat (S j)) count))%bool.
    + unfold Batch.emit, modify. cbn [Batch.posts Batch.trace].
      rewrite IH;
        [|reflexivity | intros i Hi; apply Hok; lia
         | intros i Hi; apply Hdisk; lia].
      cbn [Batch.posts Batch.trace]. f_equal. f_equal; [lia|].
      rewrite <- !app_assoc. reflexivity.
    + unfold ret. cbn [Batch.posts Batch.trace].
      rewrite IH;
        [|reflexivity | intros i Hi; apply Hok; lia
         | intros i Hi; apply Hdisk; lia].
      cbn [Batch.posts Batch.trace]. f_equal. f_equal; [lia|].
      rewrite <- !app_assoc. reflexivity.
Qed.

Lemma batch_sleeps_rounds
      (server : nat -> Batch.post_result) (prompt : string) (steps : Z)
      (url : string) (out_dir : path) (prefix : string) (delay : float)
      (m : nat) :
  forall j : nat,
    batch_sleeps
      (flat_map (batch_round server prompt steps url out_dir prefix
                             (Z.of_nat (j + m)) delay) (seq (S j) m))
    = repeat delay (if PrimFloat.ltb 0 delay then m - 1 else 0).
Proof.
  induction m as [|m IH]; intros j; [now destruct (PrimFloat.ltb 0 delay)|].
  cbn [seq flat_map]. unfold batch_sleeps in *. rewrite flat_map_app.
  replace (j + S m) with (S j + m) by lia. rewrite IH.
  unfold batch_round. cbn [flat_map app].
  destruct (PrimFloat.ltb 0 delay); cbn [andb]; [|reflexivity].
  destruct (Z.eqb_spec (Z.of_nat (S j)) (Z.of_nat (S j + m))) as [Heq|Hne];
    cbn [negb app flat_map].
  - assert (m = 0) as -> by lia. reflexivity.
  - destruct m as [|m]; [lia|]. cbn. now rewrite Nat.sub_0_r.
Qed.

(** X13: when every response of the batch run is accepted, the prefix holds
    no slash, the disk lets the files of the rounds be created and
    [time.sleep] accepts the delay (needed only when the delay is positive;
    any delay up to 10^9 seconds is accepted), the actions of the run are
    exactly: create the output directory, then for each index from 1 to the
    count, in order, one POST of the same payload and one write of the
    response body to the entry [prefix_NN.png] of the output directory; a
    sleep of [delay] follows a round only when the delay is positive and the
    round is not the last.  So a run of [n >= 1] rounds sleeps [n - 1]
    times, and a run with a count of zero or less only creates the
    directory. *)
Theorem batch_run_actions
        (server : nat -> Batch.post_result) (disk : path -> option exn)
        (timer : float -> option exn) (prompt : string) (steps : Z)
        (url : string) (out_dir : path) (prefix : string) (count : Z)
        (delay : float) :
  lacks "/"%char prefix = true ->
  (PrimFloat.ltb 0 delay = true -> Batch.sleep_error timer delay = None) ->
  (forall i, i < Z.to_nat count -> Batch.accepted (server i) = true) ->
  (forall i, i < Z.to_nat count ->
             disk (out_dir ++ [Batch.file_name prefix (S i)]) = None) ->
  let run := Batch.generate server disk timer prompt steps url out_dir prefix
               count delay Batch.initial in
  run
  = (Return tt,
     {| Batch.posts := Z.to_nat count;
        Batch.trace :=
          Batch.EvMkdir out_dir
          :: flat_map (batch_round server prompt steps url out_dir prefix
                                   count delay) (seq 1 (Z.to_nat count)) |}) /\
  batch_sleeps (Batch.trace (snd run))
  = repeat delay (if PrimFloat.ltb 0 delay then Z.to_nat count - 1 else 0) /\
  ((count <= 0)%Z -> Batch.trace (snd run) = [Batch.EvMkdir out_dir]).
Proof.
  intros Hplain Hsleep Hok Hdisk run.
  assert (Hrun : run
    = (Return tt,
       {| Batch.posts := Z.to_nat count;
          Batch.trace :=
            Batch.EvMkdir out_dir
            :: flat_map (batch_round server prompt steps url out_dir prefix
                                     count delay) (seq 1 (Z.to_nat count)) |})).
  { subst run. unfold Batch.generate, bind, Batch.emit, modify.
    cbn [Batch.initial Batch.posts Batch.trace app].
    rewrite (batch_loop_trace server disk timer prompt steps url out_dir
               prefix count delay (Z.to_nat count) Hplain Hsleep 0);
      [reflexivity | reflexivity | |].
    - intros i Hi. apply Hok. lia.
    - intros i Hi. apply Hdisk. lia. }
  split; [exact Hrun|]. rewrite Hrun. cbn [snd Batch.trace]. split.
  - destruct (Z.le_gt_cases count 0) as [Hle|Hgt].
    + replace (Z.to_nat count) with 0 by lia.
      now destruct (PrimFloat.ltb 0 delay).
    + change (batch_sleeps (Batch.EvMkdir out_dir :: ?l)) with (batch_sleeps l).
      replace count with (Z.of_nat (0 + Z.to_nat count)) at 1 by lia.
      apply batch_sleeps_rounds.
  - intros Hle. replace (Z.to_nat count) with 0 by lia. reflexivity.
Qed.

Lemma batch_run_actions_witness :
  let server := fun _ : nat =>
    Batch.Responded {| Batch.status_code := 200; Batch.content := "png" |} in
  Batch.trace (snd (Batch.generate server (fun _ => None) (fun _ => None)
                      "cat" 30 "http://api/generate" ["out"] "p" 2
                      1.5%float Batch.initial))
  = [Batch.EvMkdir ["out"];
     Batch.EvPost "http://api/generate" (Batch.payload "cat" 30);
     Batch.EvWrite ["out"; "p_01.png"] "png";
     Batch.EvSleep 1.5%float;
     Batch.EvPost "http://api/generate" (Batch.payload "cat" 30);
     Batch.EvWrite ["out"; "p_02.png"] "png"].
Proof.
  intros server.
  rewrite (proj1 (batch_run_actions server (fun _ => None) (fun _ => None)
                    "cat" 30 "http://api/generate" ["out"] "p" 2 1.5%float
                    eq_refl (fun _ => eq_refl) (fun i _ => eq_refl)
                    (fun i _ => eq_refl))).
  reflexivity.
Defined.

(** ** How a run of [main] fails before any job *)

Lemma main_reaches_try (e : Wan.env) (a : Wan.args) (fuel : nat)
      (w : Wan.world) :
  passes_guard a ->
  exists seeds client_id w0,
    Wan.main e a fuel w
    = bind (try_finally
              (Wan.guarded e a fuel (run_dir_of e a) client_id seeds)
              (Wan.cleanup e))
           (finish e a) w0 /\
    Wan.trace w0 = Wan.trace w ++ [Wan.EvMkdir (run_dir_of e a)] /\
    Wan.net_calls w0 = Wan.net_calls w /\
    Wan.now w0 = Wan.now w /\
    Wan.port_forward_proc w0 = false.
Proof.
  intros Hguard. unfold Wan.main. unfold passes_guard in Hguard.
  rewrite Hguard. cbv zeta. fold (run_dir_of e a).
  unfold bind at 1. unfold Wan.emit at 1, modify at 1. unfold bind at 1.
  match goal with
  | |- context [Wan.make_seeds e ?b (seq 0 ?m) ?w1] =>
      destruct (make_seeds_run e b m 0 w1)
        as (seeds & w2 & Hseeds & _ & Ht & Hn & Hc & _ & _ & _)
  end.
  rewrite Hseeds. cbn [Wan.trace Wan.net_calls Wan.now] in Ht, Hn, Hc.
  unfold bind at 1. unfold Wan.randrange at 1.
  replace (Z.leb 1000000 0) with false by reflexivity.
  unfold bind at 1. unfold Wan.set_port_forward_proc at 1, modify at 1.
  eexists seeds, _, _. split; [reflexivity|].
  cbn [Wan.trace Wan.net_calls Wan.now Wan.port_forward_proc]. auto.
Qed.

Lemma cleanup_without_child (e : Wan.env) (w : Wan.world) :
  Wan.port_forward_proc w = false -> Wan.cleanup e w = (Return tt, w).
Proof.
  intros H. unfold Wan.cleanup, bind, get_state. now rewrite H.
Qed.

(** X14: when the arguments pass the format guard, the first reachability
    check fails and [--port-forward] is not given, [main] raises the
    "not reachable" error having only created the run directory and sent
    that one request: no child is started, nothing is queued, downloaded or
    indexed. *)
Theorem main_unreachable_without_port_forward
        (e : Wan.env) (a : Wan.args) (fuel : nat) (w : Wan.world) :
  passes_guard a ->
  Wan.port_forward a = false ->
  Wan.reply_of e (Wan.net_calls w) = Wan.Unavailable ->
  let run := Wan.main e a fuel w in
  fst run = Raise unreachable_error /\
  Wan.trace (snd run)
  = Wan.trace w ++ [Wan.EvMkdir (run_dir_of e a);
                    Wan.EvRequest (Wan.comfy_url a) Wan.Queue None].
Proof.
  intros Hguard Hpf Hreply run.
  destruct (main_reaches_try e a fuel w Hguard)
    as (seeds & cid & w0 & Hmain & Ht & Hn & _ & Hp).
  assert (Hrun : run
                 = (Raise unreachable_error,
                    after_call e (Wan.EvRequest (Wan.comfy_url a) Wan.Queue
                                                None) w0)).
  { subst run. rewrite Hmain.
    unfold bind at 1, try_finally, Wan.guarded. unfold bind at 1.
    rewrite is_server_reachable_eq, Hn, Hreply. unfold bind at 1.
    rewrite Hpf. cbn [negb]. unfold raise at 1.
    rewrite cleanup_without_child by exact Hp. reflexivity. }
  rewrite Hrun. cbn [fst snd Wan.trace after_call].
  rewrite Ht, <- app_assoc. split; reflexivity.
Qed.

Lemma main_unreachable_without_port_forward_witness :
  fst (Wan.main (constant_env Wan.Unavailable) (default_args "a cat") 1
                (Wan.initial 0)) = Raise unreachable_error.
Proof.
  apply (main_unreachable_without_port_forward
           (constant_env Wan.Unavailable) (default_args "a cat") 1
           (Wan.initial 0)); reflexivity.
Defined.

(** X15: when the port-forward cannot be started, because the port of the
    URL is invalid or [kubectl] cannot be launched, the error leaves [main]
    as it is ([ValueError], [OSError]) and the cleanup calls neither
    [terminate] nor [wait]: the trace holds the directory and the one failed
    check only. *)
Theorem main_port_forward_not_started
        (e : Wan.env) (a : Wan.args) (fuel : nat) (w : Wan.world) :
  passes_guard a ->
  Wan.port_forward a = true ->
  Wan.reply_of e (Wan.net_calls w) = Wan.Unavailable ->
  Wan.url_port e (Wan.comfy_url a) = Wan.PortInvalid \/
  Wan.kubectl_starts e = false ->
  let run := Wan.main e a fuel w in
  fst run = Raise (match Wan.url_port e (Wan.comfy_url a) with
                   | Wan.PortInvalid => ValueError
                   | _ => OSError
                   end) /\
  Wan.trace (snd run)
  = Wan.trace w ++ [Wan.EvMkdir (run_dir_of e a);
                    Wan.EvRequest (Wan.comfy_url a) Wan.Queue None].
Proof.
  intros Hguard Hpf Hreply Hfail run.
  destruct (main_reaches_try e a fuel w Hguard)
    as (seeds & cid & w0 & Hmain & Ht & Hn & _ & Hp).
  assert (Hstate : Wan.port_forward_proc
                     (after_call e (Wan.EvRequest (Wan.comfy_url a) Wan.Queue
                                                  None) w0) = false)
    by exact Hp.
  assert (Hrun : run
                 = (Raise (match Wan.url_port e (Wan.comfy_url a) with
                           | Wan.PortInvalid => ValueError
                           | _ => OSError
                           end),
                    after_call e (Wan.EvRequest (Wan.comfy_url a) Wan.Queue
                                                None) w0)).
  { subst run. rewrite Hmain.
    unfold bind at 1, try_finally, Wan.guarded. unfold bind at 1.
    rewrite is_server_reachable_eq, Hn, Hreply. unfold bind at 1.
    rewrite Hpf. cbn [negb]. unfold bind at 1. unfold Wan.parse_port.
    destruct (Wan.url_port e (Wan.comfy_url a)) as [| |p] eqn:Hport.
    - unfold raise at 1. rewrite cleanup_without_child by exact Hstate.
      reflexivity.
    - destruct Hfail as [Hfail | Hfail]; [discriminate|].
      unfold ret at 1. unfold bind at 1. unfold Wan.start_port_forward.
      rewrite Hfail. unfold raise at 1.
      rewrite cleanup_without_child by exact Hstate. reflexivity.
    - destruct Hfail as [Hfail | Hfail]; [discriminate|].
      assert (Hret : (if Z.eqb p 0 then @ret Wan.world Z 8181%Z else ret p)
                     = ret (if Z.eqb p 0 then 8181%Z else p))
        by (destruct (Z.eqb p 0); reflexivity).
      rewrite Hret. unfold ret at 1. unfold bind at 1.
      unfold Wan.start_port_forward. rewrite Hfail. unfold raise at 1.
      rewrite cleanup_without_child by exact Hstate. reflexivity. }
  rewrite Hrun. cbn [fst snd Wan.trace after_call].
  rewrite Ht, <- app_assoc. split; reflexivity.
Qed.

Lemma main_port_forward_not_started_witness :
  let e := {| Wan.hz := 1; Wan.reply_of := fun _ => Wan.Unavailable;
              Wan.latency_of := fun _ => 0%N; Wan.entropy := fun _ => 0%N;
              Wan.kubectl_starts := false; Wan.child_exits := true;
              Wan.url_port := fun _ => Wan.PortAbsent;
              Wan.resolve := fun dir => [dir];
              Wan.timestamp := "20260101_000000";
              Wan.open_error := fun _ => None;
              Wan.timer_error := fun _ => None |} in
  fst (Wan.main e (with_port_forward (default_args "a cat")) 31
                (Wan.initial 0)) = Raise OSError.
Proof.
  intros e.
  apply (main_port_forward_not_started e
           (with_port_forward (default_args "a cat")) 31 (Wan.initial 0));
    try reflexivity.
  now right.
Defined.

Lemma probes_until_deadline (e : Wan.env) (base_url : string) (deadline : Z) :
  forall (n : nat) (w : Wan.world),
    (forall i, Wan.net_calls w <= i -> Wan.reply_of e i = Wan.Unavailable) ->
    (deadline - Wan.now w <= Z.of_nat n * Wan.seconds e 1)%Z ->
    exists k w',
      Wan.wait_for_server_loop e (S n) base_url deadline w
      = (Return false, w') /\
      (k = 0 \/ (Wan.now w + (Z.of_nat k - 1) * Wan.seconds e 1 < deadline)%Z) /\
      ((Wan.now w < deadline)%Z -> 1 <= k) /\
      Wan.trace w' = Wan.trace w ++ probes e base_url k /\
      Wan.port_forward_proc w' = Wan.port_forward_proc w.
Proof.
  assert (Hsec : (0 < Wan.seconds e 1)%Z) by (unfold Wan.seconds; lia).
  assert (Hstay : forall w : Wan.world,
            (deadline <= Wan.now w)%Z ->
            exists k w',
              (@Return bool false, w) = (Return false, w') /\
              (k = 0 \/
               (Wan.now w + (Z.of_nat k - 1) * Wan.seconds e 1 < deadline)%Z) /\
              ((Wan.now w < deadline)%Z -> 1 <= k) /\
              Wan.trace w' = Wan.trace w ++ probes e base_url k /\
              Wan.port_forward_proc w' = Wan.port_forward_proc w).
  { intros w Hlate. exists 0, w. unfold probes. cbn [repeat List.concat].
    rewrite app_nil_r. repeat split; auto. lia. }
  induction n as [|n IH]; intros w Hdown Hfuel;
    rewrite wait_for_server_loop_step;
    destruct (Z.ltb (Wan.now w) deadline) eqn:Hnow;
    try (apply Hstay; apply Z.ltb_ge; exact Hnow).
  - apply Z.ltb_lt in Hnow. lia.
  - apply Z.ltb_lt in Hnow. cbv zeta.
    rewrite (Hdown (Wan.net_calls w)) by lia. cbn [answered].
    unfold bind at 1.
    rewrite sleep_accepted by (apply sleep_error_seconds; easy).
    match goal with
    | |- context [Wan.wait_for_server_loop e (S n) base_url deadline ?w2] =>
        destruct (IH w2) as (k & w' & Hrun & Hk & _ & Ht & Hp)
    end.
    + cbn [Wan.net_calls after_call]. intros i Hi. apply Hdown. lia.
    + cbn [Wan.now after_call]. lia.
    + rewrite Hrun. exists (S k), w'. split; [reflexivity|].
      cbn [Wan.now Wan.trace Wan.port_forward_proc after_call] in Hk, Ht, Hp.
      split; [|split; [|split]].
      * right. destruct Hk as [-> | Hk]; lia.
      * lia.
      * rewrite Ht. unfold probes. cbn [repeat List.concat].
        rewrite <- !app_assoc. reflexivity.
      * exact Hp.
Qed.

(** X16: when the arguments pass the format guard, [--port-forward] is given,
    [kubectl] starts and the server answers no request at all, [main] makes
    between 1 and 30 further reachability checks one second apart, each
    failing, and then raises "Port-forward started, but ComfyUI is not
    reachable." (or [TimeoutExpired] when the child does not exit within the
    wait); the child it started on the port of the URL is terminated and
    waited for as the last two actions. *)
Theorem main_port_forward_never_reachable
        (e : Wan.env) (a : Wan.args) (fuel : nat) (w : Wan.world) :
  passes_guard a ->
  Wan.port_forward a = true ->
  (forall i, Wan.net_calls w <= i -> Wan.reply_of e i = Wan.Unavailable) ->
  Wan.url_port e (Wan.comfy_url a) <> Wan.PortInvalid ->
  Wan.kubectl_starts e = true ->
  31 <= fuel ->
  let run := Wan.main e a fuel w in
  exists k,
    1 <= k <= 30 /\
    fst run = Raise (if Wan.child_exits e then still_unreachable_error
                     else TimeoutExpired) /\
    Wan.trace (snd run)
    = Wan.trace w
      ++ [Wan.EvMkdir (run_dir_of e a);
          Wan.EvRequest (Wan.comfy_url a) Wan.Queue None;
          Wan.EvPopen (Wan.port_forward_cmd (Wan.namespace a)
                                            (Wan.deployment a)
                                            (local_port_of e a))]
      ++ probes e (Wan.comfy_url a) k
      ++ [Wan.EvTerminate; Wan.EvWait].
Proof.
  intros Hguard Hpf Hdown Hport Hstart Hfuel run.
  assert (Hsec : Wan.seconds e 30 = (30 * Wan.seconds e 1)%Z)
    by (unfold Wan.seconds; lia).
  assert (Hpos : (0 < Wan.seconds e 1)%Z) by (unfold Wan.seconds; lia).
  destruct (main_reaches_try e a fuel w Hguard)
    as (seeds & cid & w0 & Hmain & Ht & Hn & _ & Hp).
  destruct fuel as [|n]; [lia|].
  set (w1 := after_call e (Wan.EvRequest (Wan.comfy_url a) Wan.Queue None) w0).
  set (w2 := {| Wan.now := Wan.now w1; Wan.net_calls := Wan.net_calls w1;
                Wan.draws := Wan.draws w1; Wan.port_forward_proc := true;
                Wan.trace := Wan.trace w1
                             ++ [Wan.EvPopen
                                   (Wan.port_forward_cmd
                                      (Wan.namespace a) (Wan.deployment a)
                                      (local_port_of e a))] |}).
  destruct (probes_until_deadline e (Wan.comfy_url a)
              (Wan.now w2 + Wan.seconds e 30)%Z n w2)
    as (k & w3 & Hloop & Hk & Hone & Ht3 & Hp3).
  { intros i Hi. apply Hdown. subst w2 w1.
    cbn [Wan.net_calls after_call] in Hi. lia. }
  { rewrite Hsec. nia. }
  assert (Hparse : Wan.parse_port e (Wan.comfy_url a)
                   = ret (local_port_of e a)).
  { unfold Wan.parse_port, local_port_of.
    destruct (Wan.url_port e (Wan.comfy_url a)) as [| |p];
      [congruence | reflexivity | destruct (Z.eqb p 0); reflexivity]. }
  assert (Hrun : run
                 = (Raise (if Wan.child_exits e then still_unreachable_error
                           else TimeoutExpired),
                    {| Wan.now := Wan.now w3; Wan.net_calls := Wan.net_calls w3;
                       Wan.draws := Wan.draws w3;
                       Wan.port_forward_proc := Wan.port_forward_proc w3;
                       Wan.trace := (Wan.trace w3 ++ [Wan.EvTerminate])
                                    ++ [Wan.EvWait] |})).
  { subst run. rewrite Hmain.
    unfold bind at 1, try_finally, Wan.guarded. unfold bind at 1.
    rewrite is_server_reachable_eq, Hn, (Hdown (Wan.net_calls w)) by lia.
    fold w1. unfold bind at 1. rewrite Hpf. cbn [negb].
    rewrite Hparse. unfold bind at 1, ret at 1. unfold bind at 1.
    unfold Wan.start_port_forward. rewrite Hstart.
    unfold Wan.emit at 1, modify at 1. unfold bind at 1.
    unfold Wan.set_port_forward_proc at 1, modify at 1.
    unfold bind at 1. unfold Wan.wait_for_server, bind at 1, Wan.time_time at 1.
    cbn [Wan.now Wan.net_calls Wan.draws Wan.trace]. fold w2.
    change (Wan.now w1) with (Wan.now w2). rewrite Hloop.
    unfold raise at 1. unfold Wan.cleanup, bind at 1, get_state at 1.
    assert (Hp3' : Wan.port_forward_proc w3 = true) by exact Hp3.
    rewrite Hp3'.
    unfold bind at 1. unfold Wan.emit at 1, modify at 1.
    unfold bind at 1. unfold Wan.emit at 1, modify at 1.
    cbn [Wan.now Wan.net_calls Wan.draws Wan.trace Wan.port_forward_proc].
    rewrite ?Hp3'.
    destruct (Wan.child_exits e); reflexivity. }
  exists k. split; [|split].
  - split; [apply Hone; lia|]. destruct Hk as [-> | Hk]; [lia|]. nia.
  - rewrite Hrun. reflexivity.
  - rewrite Hrun. cbn [snd Wan.trace]. rewrite Ht3. subst w2 w1.
    cbn [Wan.trace after_call]. rewrite Ht, <- !app_assoc. reflexivity.
Qed.

Lemma main_port_forward_never_reachable_witness :
  exists k,
    1 <= k <= 30 /\
    fst (Wan.main (constant_env Wan.Unavailable)
                  (with_port_forward (default_args "a cat")) 31
                  (Wan.initial 0))
    = Raise still_unreachable_error /\
    List.length
      (Wan.trace
         (snd (Wan.main (constant_env Wan.Unavailable)
                        (with_port_forward (default_args "a cat")) 31
                        (Wan.initial 0))))
    = 5 + 2 * k.
Proof.
  destruct (main_port_forward_never_reachable
              (constant_env Wan.Unavailable)
              (with_port_forward (default_args "a cat")) 31 (Wan.initial 0))
    as (k & Hk & Hraise & Htrace).
  - reflexivity.
  - reflexivity.
  - reflexivity.
  - discriminate.
  - reflexivity.
  - lia.
  - exists k. split; [exact Hk|]. split; [exact Hraise|].
    rewrite Htrace. cbn [Wan.trace Wan.initial app].
    rewrite !length_app. unfold probes.
    assert (Hlen : forall j, List.length
                     (List.concat (repeat
                        [Wan.EvRequest
                           (Wan.comfy_url
                              (with_port_forward (default_args "a cat")))
                           Wan.Queue None;
                         Wan.EvSleep
                           (Wan.seconds (constant_env Wan.Unavailable) 1)] j))
                   = 2 * j).
    { induction j as [|j IHj]; [reflexivity|].
      cbn [repeat List.concat]. rewrite length_app, IHj. cbn [List.length]. lia. }
    rewrite Hlen. cbn [List.length]. lia.
Defined.

(** ** A download that fails *)

Lemma download_file_fails (e : Wan.env) (base_url : string)
      (file_info : json) (run_dir : path) (w : Wan.world) :
  file_name_of file_info <> None ->
  Wan.reply_of e (Wan.net_calls w) = Wan.Unavailable ->
  exists w',
    Wan.download_file e base_url file_info run_dir w
    = (Raise TransportError, w') /\
    Wan.net_calls w' = S (Wan.net_calls w) /\
    saved_files (Wan.trace w') = saved_files (Wan.trace w).
Proof.
  intros Hname Hreply.
  destruct file_info as [| | | | | |d]; try (now elim Hname).
  cbn [file_name_of] in *.
  destruct (dict_get d "filename") as [[| | | |name| |]|] eqn:Hd;
    try (now elim Hname).
  unfold Wan.download_file, py_item, dict_item, py_get_default.
  rewrite Hd. unfold Wan.urlretrieve, Wan.net_call.
  unfold bind, lift, Wan.emit, modify, ret. cbn [Wan.net_calls Wan.trace].
  rewrite Hreply. unfold raise.
  eexists. split; [reflexivity|]. cbn [Wan.net_calls Wan.trace].
  split; [reflexivity|].
  rewrite !saved_files_app. cbn. now rewrite !app_nil_r.
Qed.

(** X17: the download loop stops at the first download that is not
    answered.  When the entries before [f] all have a file name, those the
    filter keeps have a plain name that the disk lets the run create in the
    run directory and their downloads are answered, and the download of the
    kept entry [f] is not answered, the loop raises the transport error
    right there: the files saved are exactly the kept entries before [f],
    and none of the entries after [f] is requested. *)
Theorem download_stops_at_first_failure
        (e : Wan.env) (a : Wan.args) (run_dir : path)
        (pre : list json) (f : json) (post : list json) :
  forall w : Wan.world,
    Forall (fun x => file_name_of x <> None) pre ->
    Forall (writable e run_dir) (filter (kept a) pre) ->
    kept a f = true ->
    (forall i,
       Wan.net_calls w <= i
       < Wan.net_calls w + List.length (filter (kept a) pre) ->
       Wan.reply_of e i <> Wan.Unavailable) ->
    Wan.reply_of e (Wan.net_calls w + List.length (filter (kept a) pre))
    = Wan.Unavailable ->
    exists w',
      Wan.download_files e a run_dir (pre ++ f :: post) w
      = (Raise TransportError, w') /\
      saved_files (Wan.trace w')
      = saved_files (Wan.trace w)
        ++ map (dest_of run_dir) (filter (kept a) pre) /\
      Wan.net_calls w'
      = S (Wan.net_calls w + List.length (filter (kept a) pre)).
Proof.
  induction pre as [|x pre IH]; intros w Hnames Hdisk Hkept Hnet Hfail.
  - cbn [app filter List.length map] in *. rewrite Nat.add_0_r in *.
    rewrite app_nil_r.
    assert (Hname : file_name_of f <> None).
    { unfold kept in Hkept. destruct (file_name_of f); discriminate. }
    destruct f as [| | | | | |d]; try (now elim Hname).
    cbn [file_name_of] in Hname.
    destruct (dict_get d "filename") as [[| | | |name| |]|] eqn:Hd;
      try (now elim Hname).
    assert (Hk : Wan.skipped a (Wan.lower (Wan.splitext_ext name)) = false).
    { unfold kept in Hkept. cbn [file_name_of] in Hkept. rewrite Hd in Hkept.
      now apply negb_true_iff in Hkept. }
    destruct (download_file_fails e (Wan.comfy_url a) (JDict d) run_dir w)
      as (w1 & Hdl & Hn1 & Hs1).
    { cbn [file_name_of]. rewrite Hd. discriminate. }
    { exact Hfail. }
    exists w1. rewrite app_nil_l. cbn [Wan.download_files].
    unfold bind at 1. unfold lift at 1, py_item, dict_item. rewrite Hd.
    unfold bind at 1. unfold ret at 1. rewrite Hk.
    unfold bind at 1. rewrite Hdl. auto.
  - inversion Hnames as [|y l Hx Hrest]; subst.
    destruct x as [| | | | | |d]; try (now elim Hx).
    cbn [file_name_of] in Hx.
    destruct (dict_get d "filename") as [[| | | |name| |]|] eqn:Hd;
      try (now elim Hx).
    assert (Hk : kept a (JDict d)
                 = negb (Wan.skipped a (Wan.lower (Wan.splitext_ext name))))
      by (unfold kept; cbn [file_name_of]; now rewrite Hd).
    cbn [filter] in *. rewrite Hk in *.
    rewrite <- app_comm_cons. cbn [Wan.download_files].
    unfold bind at 1. unfold lift at 1, py_item, dict_item. rewrite Hd.
    unfold bind at 1. unfold ret at 1.
    destruct (Wan.skipped a (Wan.lower (Wan.splitext_ext name))) eqn:Hskip;
      cbn [negb] in *.
    + apply IH; assumption.
    + cbn [List.length map] in *.
      inversion Hdisk as [|y' l' Hw Hdisk']; subst.
      destruct (download_file_saves e (Wan.comfy_url a) (JDict d) run_dir w Hw)
        as (w1 & Hdl & Hn1 & Hs1).
      { apply Hnet. lia. }
      destruct (IH w1 Hrest Hdisk' Hkept) as (w' & Hrun & Hs & Hn).
      { intros i Hi. apply Hnet. lia. }
      { rewrite Hn1. rewrite <- Hfail. f_equal. lia. }
      exists w'. unfold bind at 1. rewrite Hdl. unfold bind at 1.
      rewrite Hrun. split; [reflexivity|].
      split; [|lia]. rewrite Hs, Hs1, <- app_assoc. reflexivity.
Qed.

Lemma download_stops_at_first_failure_witness :
  let e := {| Wan.hz := 1;
              Wan.reply_of := fun i => match i with
                                       | O => Wan.Body []
                                       | _ => Wan.Unavailable
                                       end;
              Wan.latency_of := fun _ => 0%N; Wan.entropy := fun _ => 0%N;
              Wan.kubectl_starts := true; Wan.child_exits := true;
              Wan.url_port := fun _ => Wan.PortAbsent;
              Wan.resolve := fun dir => [dir];
              Wan.timestamp := "20260101_000000";
              Wan.open_error := fun _ => None;
              Wan.timer_error := fun _ => None |} in
  exists w',
    Wan.download_files e (default_args "a cat") ["generated"]
      ([JDict [("filename", JStr "a.webm")];
        JDict [("filename", JStr "a.png")]]
       ++ JDict [("filename", JStr "b.webm")]
          :: [JDict [("filename", JStr "c.webm")]])
      (Wan.initial 0)
    = (Raise TransportError, w') /\
    saved_files (Wan.trace w') = [["generated"; "a.webm"]] /\
    Wan.net_calls w' = 2.
Proof.
  intros e.
  apply (download_stops_at_first_failure e (default_args "a cat")
           ["generated"]
           [JDict [("filename", JStr "a.webm")];
            JDict [("filename", JStr "a.png")]]
           (JDict [("filename", JStr "b.webm")])
           [JDict [("filename", JStr "c.webm")]] (Wan.initial 0)).
  - repeat constructor; discriminate.
  - repeat constructor.
  - reflexivity.
  - intros i Hi. vm_compute in Hi. assert (i = 0) as -> by lia. discriminate.
  - reflexivity.
Defined.

(** ** The graph that is queued *)

(** X18: for every command line [argparse] lets through, the graph queued
    for a round is well linked, whichever outputs are selected: every node
    has a class and inputs, and every link of every node leads to a node of
    the graph.  Its save nodes are the ones the mode and the format select,
    and there is at least one. *)
Theorem queued_graph_well_linked (a : Wan.args) (idx : nat) (seed : Z)
        (w : Wan.world) :
  parsed a ->
  exists graph,
    Wan.prompt_for a idx seed w = (Return (JDict graph), w) /\
    well_linked graph = true /\
    save_classes graph
    = (if String.eqb (Wan.mode a) "image" then ["SaveImage"]
       else if String.eqb (Wan.format a) "webm" then ["SaveWEBM"]
       else if String.eqb (Wan.format a) "webp" then ["SaveAnimatedWEBP"]
       else ["SaveAnimatedWEBP"; "SaveWEBM"]).
Proof.
  intros [Hmode Hformat]. rewrite build_prompt_returns.
  unfold payload_of, expected_graph. eexists. split; [reflexivity|].
  unfold Wan.include_webm, Wan.include_webp, Wan.include_images.
  cbn [In] in Hmode, Hformat.
  destruct Hmode as [Hm | [Hm | []]];
    destruct Hformat as [Hf | [Hf | [Hf | []]]];
    rewrite <- Hm, <- Hf; split; reflexivity.
Qed.

Lemma queued_graph_well_linked_witness :
  exists graph,
    Wan.prompt_for (default_args "a cat") 1 7 (Wan.initial 0)
    = (Return (JDict graph), Wan.initial 0) /\
    well_linked graph = true /\
    save_classes graph = ["SaveWEBM"].
Proof.
  apply (queued_graph_well_linked (default_args "a cat") 1 7 (Wan.initial 0)).
  split; cbn; auto.
Defined.

(** ** The filter of the download loop and the index page *)

Lemma substring_length_le (s : string) :
  forall n m, String.length (substring n m s) <= m.
Proof.
  induction s as [|c s IH]; intros [|n] [|m]; cbn [substring String.length];
    try lia.
  - specialize (IH 0 m). lia.
  - apply IH.
  - apply IH.
Qed.

Lemma lower_length (s : string) :
  String.length (Wan.lower s) = String.length s.
Proof. induction s as [|c s IH]; cbn; [reflexivity | now rewrite IH]. Qed.

Lemma suffix_of_plain_name (name : string) :
  lacks "/"%char name = true ->
  2 <= String.length (Wan.splitext_ext name) ->
  Wan.suffix name = Wan.splitext_ext name.
Proof.
  intros Hslash Hlen. unfold Wan.splitext_ext, Wan.suffix in *.
  replace (Wan.rfind "/"%char name) with (@None nat) in *
    by (symmetry; apply (rfind_from_lacks _ _ Hslash)).
  destruct (Wan.rfind "."%char name) as [dot|]; [|reflexivity].
  cbn [Nat.leb] in *. rewrite Nat.sub_0_r in *.
  destruct (Wan.all_dots (substring 0 dot name)) eqn:Hdots;
    [cbn in Hlen; lia|].
  assert (Hpos : 0 < dot).
  { destruct dot as [|dot]; [|lia].
    destruct name; cbn in Hdots; discriminate. }
  pose proof (substring_length_le name dot (String.length name - dot)) as Hle.
  apply Nat.ltb_lt in Hpos. rewrite Hpos.
  replace (Nat.ltb dot (String.length name - 1)) with true
    by (symmetry; apply Nat.ltb_lt; lia).
  reflexivity.
Qed.

(** X19: the extension filter of the download loop and the index page agree.
    In video mode, a file the loop keeps whose name holds no slash is shown
    in the index by a [<video>] element when the format is "webm" and by an
    [<img>] element when the format is "webp". *)
Theorem index_tag_follows_format (a : Wan.args) (run_dir : path)
        (file_info : json) (name : string) :
  Wan.mode a = "video" ->
  file_name_of file_info = Some name ->
  kept a file_info = true ->
  lacks "/"%char name = true ->
  (Wan.format a = "webm" ->
   Wan.index_line (dest_of run_dir file_info) = video_tag name) /\
  (Wan.format a = "webp" ->
   Wan.index_line (dest_of run_dir file_info) = img_tag name).
Proof.
  intros Hmode Hname Hkept Hslash.
  unfold kept in Hkept. rewrite Hname in Hkept.
  apply negb_true_iff in Hkept. unfold Wan.skipped in Hkept.
  rewrite Hmode in Hkept. cbn [String.eqb Ascii.eqb Bool.eqb andb] in Hkept.
  assert (Hline : forall ext,
            Wan.lower (Wan.splitext_ext name) = ext ->
            2 <= String.length ext ->
            Wan.index_line (dest_of run_dir file_info)
            = if Wan.str_in ext [".webm"; ".mp4"]
              then video_tag name else img_tag name).
  { intros ext Hlow Hlen.
    assert (Hext : 2 <= String.length (Wan.splitext_ext name))
      by (rewrite <- lower_length, Hlow; exact Hlen).
    assert (Hplain : plain_name name = true).
    { unfold plain_name. rewrite Hslash.
      destruct (String.eqb_spec name "") as [->|_]; [cbn in Hext; lia|].
      destruct (String.eqb_spec name ".") as [->|_]; [cbn in Hext; lia|].
      destruct (String.eqb_spec name "..") as [->|_]; [cbn in Hext; lia|].
      reflexivity. }
    unfold dest_of. rewrite Hname, (path_div_plain _ _ Hplain).
    unfold Wan.index_line. rewrite (path_name_plain _ _ Hslash). cbv zeta.
    rewrite (suffix_of_plain_name _ Hslash Hext), Hlow. reflexivity. }
  split; intros Hformat; rewrite Hformat in Hkept;
    cbn [String.eqb Ascii.eqb Bool.eqb andb orb] in Hkept.
  - rewrite orb_false_r in Hkept. apply negb_false_iff, String.eqb_eq in Hkept.
    rewrite (Hline ".webm" Hkept) by (cbn; lia). reflexivity.
  - apply negb_false_iff, String.eqb_eq in Hkept.
    rewrite (Hline ".webp" Hkept) by (cbn; lia). reflexivity.
Qed.

Lemma index_tag_follows_format_witness :
  Wan.index_line
    (dest_of ["generated"] (JDict [("filename", JStr "wan_t2v_01.WEBM")]))
  = video_tag "wan_t2v_01.WEBM".
Proof.
  apply (index_tag_follows_format (default_args "a cat") ["generated"]
           (JDict [("filename", JStr "wan_t2v_01.WEBM")])
           "wan_t2v_01.WEBM");
    reflexivity.
Defined.

(** ** What a run leaves on disk *)

Section Appends.

Variable e : Wan.env.

Lemma appends_ret {A} (a : A) : appends (@ret Wan.world A a).
Proof. intros w. exists []. cbn. now rewrite app_nil_r. Qed.

Lemma appends_raise {A} (x : exn) : appends (@raise Wan.world A x).
Proof. intros w. exists []. cbn. now rewrite app_nil_r. Qed.

Lemma appends_lift {A} (o : outcome A) : appends (@lift Wan.world A o).
Proof. intros w. exists []. cbn. now rewrite app_nil_r. Qed.

Lemma appends_bind {A B} (m : M Wan.world A) (k : A -> M Wan.world B) :
  appends m -> (forall x, appends (k x)) -> appends (bind m k).
Proof.
  intros Hm Hk w. unfold bind. destruct (Hm w) as (evs & Ht & Hok).
  destruct (m w) as [[x|x|] w1]; cbn [snd] in *; try (exists evs; now split).
  destruct (Hk x w1) as (evs' & Ht' & Hok').
  exists (evs ++ evs'). rewrite Ht', Ht, app_assoc. split; [reflexivity|].
  now apply Forall_app.
Qed.

Lemma appends_try_except {A} (body handler : M Wan.world A) :
  appends body -> appends handler -> appends (try_except body handler).
Proof.
  intros Hb Hh w. unfold try_except. destruct (Hb w) as (evs & Ht & Hok).
  destruct (body w) as [[x|x|] w1]; cbn [snd] in *; try (exists evs; now split).
  destruct (is_Exception x); [|exists evs; now split].
  destruct (Hh w1) as (evs' & Ht' & Hok').
  exists (evs ++ evs'). rewrite Ht', Ht, app_assoc. split; [reflexivity|].
  now apply Forall_app.
Qed.

Lemma appends_emit (ev : Wan.event) : keeps_files ev -> appends (Wan.emit ev).
Proof.
  intros Hev w. exists [ev]. split; [reflexivity | now constructor].
Qed.

Lemma appends_request_json (base_url : string) (ep : Wan.endpoint)
      (payload : option json) :
  appends (Wan.request_json e base_url ep payload).
Proof.
  intros w. exists [Wan.EvRequest base_url ep payload].
  unfold Wan.request_json, bind, Wan.net_call.
  destruct (Wan.reply_of e (Wan.net_calls w)); split;
    first [reflexivity | now repeat constructor].
Qed.

Lemma appends_is_server_reachable (base_url : string) :
  appends (Wan.is_server_reachable e base_url).
Proof.
  intros w. rewrite is_server_reachable_eq.
  exists [Wan.EvRequest base_url Wan.Queue None].
  split; [reflexivity | now repeat constructor].
Qed.

Lemma appends_time_time : appends Wan.time_time.
Proof. intros w. exists []. cbn. now rewrite app_nil_r. Qed.

Lemma appends_sleep (d : Z) : appends (Wan.sleep e d).
Proof.
  intros w. unfold Wan.sleep. destruct (Wan.sleep_error e d).
  - exists []. cbn. now rewrite app_nil_r.
  - exists [Wan.EvSleep d]. split; [reflexivity | now repeat constructor].
Qed.

Lemma appends_randrange (lo hi : Z) : appends (Wan.randrange e lo hi).
Proof.
  intros w. exists []. unfold Wan.randrange.
  destruct (Z.leb hi lo); cbn; now rewrite app_nil_r.
Qed.

Lemma appends_set_port_forward_proc (b : bool) :
  appends (Wan.set_port_forward_proc b).
Proof. intros w. exists []. cbn. now rewrite app_nil_r. Qed.

Lemma appends_wait_for_server (fuel : nat) (base_url : string) (timeout : Z) :
  appends (Wan.wait_for_server e fuel base_url timeout).
Proof.
  unfold Wan.wait_for_server. apply appends_bind; [apply appends_time_time|].
  intros t. generalize (t + timeout)%Z as deadline. intros deadline.
  induction fuel as [|fuel IH]; cbn [Wan.wait_for_server_loop].
  - intros w. exists []. cbn. now rewrite app_nil_r.
  - apply appends_bind; [apply appends_time_time|]. intros t'.
    destruct (Z.ltb t' deadline); [|apply appends_ret].
    apply appends_bind; [apply appends_is_server_reachable|].
    intros [|]; [apply appends_ret|].
    apply appends_bind; [apply appends_sleep | intros _; exact IH].
Qed.

Lemma appends_preflight_check (base_url unet clip vae : string) :
  appends (Wan.preflight_check e base_url unet clip vae).
Proof.
  unfold Wan.preflight_check.
  apply appends_bind; [apply appends_request_json|]. intros info.
  do 3 (apply appends_bind; [apply appends_lift | intros ?]).
  cbv zeta.
  match goal with
  | |- appends (match ?l with [] => _ | _ :: _ => _ end) =>
      destruct l; [apply appends_ret | apply appends_raise]
  end.
Qed.

Lemma appends_submit_prompt (base_url : string) (prompt : json)
      (client_id : string) :
  appends (Wan.submit_prompt e base_url prompt client_id).
Proof.
  unfold Wan.submit_prompt.
  apply appends_bind; [apply appends_request_json|]. intros resp.
  destruct (dict_mem resp "error").
  - apply appends_bind; [apply appends_lift | intros ?; apply appends_raise].
  - destruct (negb (dict_mem resp "prompt_id"));
      [apply appends_raise | apply appends_lift].
Qed.

Lemma appends_wait_for_prompt (fuel : nat) (base_url : string)
      (prompt_id : json) (timeout poll_interval : Z) :
  appends (Wan.wait_for_prompt e fuel base_url prompt_id timeout
                               poll_interval).
Proof.
  unfold Wan.wait_for_prompt. apply appends_bind; [apply appends_time_time|].
  intros t. generalize (t + timeout)%Z as deadline. intros deadline.
  induction fuel as [|fuel IH]; cbn [Wan.wait_for_prompt_loop].
  - intros w. exists []. cbn. now rewrite app_nil_r.
  - apply appends_bind; [apply appends_time_time|]. intros t'.
    destruct (Z.ltb t' deadline); [|apply appends_raise].
    apply appends_bind; [apply appends_request_json|]. intros resp.
    apply appends_bind; [apply appends_lift|]. intros found.
    apply appends_bind.
    { destruct found; [|apply appends_ret].
      apply appends_bind; [apply appends_lift | intros ?; apply appends_lift]. }
    intros [entry|]; [apply appends_ret|].
    apply appends_bind; [apply appends_sleep | intros _; exact IH].
Qed.

Lemma appends_run_job (a : Wan.args) (fuel : nat) (client_id : string)
      (idx : nat) (seed : Z) :
  appends (Wan.run_job e a fuel client_id idx seed).
Proof.
  unfold Wan.run_job. apply appends_bind.
  { intros w. rewrite build_prompt_returns. exists []. cbn.
    now rewrite app_nil_r. }
  intros prompt. apply appends_bind; [apply appends_submit_prompt|].
  intros prompt_id. apply appends_wait_for_prompt.
Qed.

Lemma appends_cleanup : appends (Wan.cleanup e).
Proof.
  unfold Wan.cleanup. apply appends_bind.
  { intros w. exists []. cbn. now rewrite app_nil_r. }
  intros w. destruct (Wan.port_forward_proc w); [|apply appends_ret].
  apply appends_bind; [now apply appends_emit|]. intros _.
  apply appends_bind; [now apply appends_emit|]. intros _.
  destruct (Wan.child_exits e); [apply appends_ret | apply appends_raise].
Qed.

Lemma appends_port_forward (a : Wan.args) (fuel : nat) :
  appends
    (bind (Wan.parse_port e (Wan.comfy_url a))
          (fun local_port =>
             bind (Wan.start_port_forward e (Wan.namespace a)
                     (Wan.deployment a) local_port)
                  (fun _ =>
                     bind (Wan.set_port_forward_proc true)
                          (fun _ =>
                             bind (Wan.wait_for_server e fuel (Wan.comfy_url a)
                                     (Wan.seconds e 30))
                                  (fun up =>
                                     if up then ret tt
                                     else raise still_unreachable_error))))).
Proof.
  apply appends_bind.
  { unfold Wan.parse_port.
    destruct (Wan.url_port e (Wan.comfy_url a)) as [| |p];
      [apply appends_raise | apply appends_ret |].
    destruct (Z.eqb p 0); apply appends_ret. }
  intros local_port. apply appends_bind.
  { unfold Wan.start_port_forward.
    destruct (Wan.kubectl_starts e);
      [now apply appends_emit | apply appends_raise]. }
  intros _. apply appends_bind; [apply appends_set_port_forward_proc|].
  intros _. apply appends_bind; [apply appends_wait_for_server|].
  intros [|]; [apply appends_ret | apply appends_raise].
Qed.

End Appends.

Lemma keeps_files_silent (evs : list Wan.event) :
  Forall keeps_files evs -> saved_files evs = [] /\ written evs = [].
Proof.
  induction 1 as [|ev evs Hev _ [IHs IHw]]; [now split|].
  unfold saved_files, written in *. cbn [flat_map]. rewrite IHs, IHw.
  destruct ev; cbn in Hev; try contradiction; now split.
Qed.

Lemma written_app (t u : list Wan.event) :
  written (t ++ u) = written t ++ written u.
Proof. apply flat_map_app. Qed.

Lemma collects_after {A} (dir : path) (m : M Wan.world A)
      (k : A -> M Wan.world (list path)) :
  appends m -> (forall x, collects dir (k x)) -> collects dir (bind m k).
Proof.
  intros Hm Hk w files w' Hrun. unfold bind in Hrun.
  destruct (Hm w) as (evs & Ht & Hok).
  destruct (m w) as [[x|x|] w1]; try discriminate. cbn [snd] in Ht.
  destruct (Hk x w1 files w' Hrun) as (evs' & Ht' & Hs & Hw & Hdir).
  destruct (keeps_files_silent evs Hok) as [Hs0 Hw0].
  exists (evs ++ evs'). rewrite Ht', Ht, app_assoc.
  rewrite saved_files_app, written_app, Hs0, Hw0, Hs, Hw. auto.
Qed.

Lemma collects_ret_nil (dir : path) : collects dir (ret []).
Proof.
  intros w files w' H. injection H as <- <-. exists [].
  rewrite app_nil_r. repeat split; constructor.
Qed.

Lemma collects_raise (dir : path) (x : exn) : collects dir (raise x).
Proof. intros w files w' H. discriminate. Qed.

Lemma collects_both (dir : path) (m1 : M Wan.world (list path))
      (m2 : M Wan.world (list path)) (join : list path -> list path -> list path) :
  (forall l1 l2, join l1 l2 = l1 ++ l2) ->
  collects dir m1 -> collects dir m2 ->
  collects dir (bind m1 (fun l1 => bind m2 (fun l2 => ret (join l1 l2)))).
Proof.
  intros Hjoin H1 H2 w files w' Hrun. unfold bind at 1 in Hrun.
  destruct (m1 w) as [[l1|x|] w1] eqn:Hm1; try discriminate.
  unfold bind at 1 in Hrun.
  destruct (m2 w1) as [[l2|x|] w2] eqn:Hm2; try discriminate.
  injection Hrun as <- <-.
  destruct (H1 w l1 w1 Hm1) as (evs1 & Ht1 & Hs1 & Hw1 & Hd1).
  destruct (H2 w1 l2 w2 Hm2) as (evs2 & Ht2 & Hs2 & Hw2 & Hd2).
  exists (evs1 ++ evs2). rewrite Ht2, Ht1, app_assoc, Hjoin.
  rewrite saved_files_app, written_app, Hs1, Hs2, Hw1, Hw2.
  repeat split; auto. now apply Forall_app.
Qed.

Lemma collects_download_file (e : Wan.env) (base_url : string)
      (file_info : json) (dir : path) :
  collects dir (bind (Wan.download_file e base_url file_info dir)
                     (fun p => ret [p])).
Proof.
  intros w files w'. unfold Wan.download_file, bind, lift, Wan.emit, modify,
    Wan.urlretrieve, bind, Wan.net_call, ret, raise.
  destruct (py_item file_info "filename") as [fn|x|]; try discriminate.
  destruct (py_get_default file_info "subfolder" (JStr "")) as [sub|x|];
    try discriminate.
  destruct (py_get_default file_info "type" (JStr "output")) as [ty|x|];
    try discriminate.
  destruct fn as [| | | |name| |]; try discriminate.
  cbn [Wan.net_calls Wan.trace].
  destruct (Wan.reply_of e (Wan.net_calls w)) as [body|]; try discriminate.
  destruct (Wan.write_error e dir (path_div dir name)); try discriminate.
  intros H. injection H as <- <-. cbn [Wan.trace].
  exists [Wan.EvMkdir dir; Wan.EvRequest base_url (Wan.View (JStr name) sub ty) None;
          Wan.EvSaved (path_div dir name)].
  rewrite <- !app_assoc. repeat split; try reflexivity.
  constructor; [now exists name | constructor].
Qed.

Lemma collects_download_files (e : Wan.env) (a : Wan.args) (dir : path)
      (files : list json) :
  collects dir (Wan.download_files e a dir files).
Proof.
  induction files as [|f files IH]; [apply collects_ret_nil|].
  cbn [Wan.download_files].
  apply collects_after; [apply appends_lift|]. intros fn.
  apply collects_after.
  { destruct fn; first [apply appends_ret | apply appends_raise]. }
  intros ext. destruct (Wan.skipped a ext); [exact IH|].
  intros w files' w' Hrun.
  apply (collects_both dir
           (bind (Wan.download_file e (Wan.comfy_url a) f dir)
                 (fun p => ret [p]))
           (Wan.download_files e a dir files)
           (fun l1 l2 => l1 ++ l2) (fun _ _ => eq_refl)
           (collects_download_file e (Wan.comfy_url a) f dir) IH w files' w').
  rewrite <- Hrun. unfold bind, ret.
  destruct (Wan.download_file e (Wan.comfy_url a) f dir w) as [[p|x|] w1];
    reflexivity.
Qed.

Lemma collects_generate_all (e : Wan.env) (a : Wan.args) (fuel : nat)
      (dir : path) (client_id : string) (jobs : list (nat * Z)) :
  collects dir (Wan.generate_all e a fuel dir client_id jobs).
Proof.
  induction jobs as [|[idx seed] rest IH]; [apply collects_ret_nil|].
  cbn [Wan.generate_all].
  apply (collects_both dir _ _ (fun l1 l2 => l1 ++ l2) (fun _ _ => eq_refl));
    [|exact IH].
  unfold Wan.generate_one.
  apply collects_after; [apply appends_run_job|]. intros entry.
  unfold Wan.save_outputs.
  apply collects_after; [apply appends_lift|].
  intros [|f files]; [apply collects_raise | apply collects_download_files].
Qed.

Lemma collects_guarded (e : Wan.env) (a : Wan.args) (fuel : nat)
      (dir : path) (client_id : string) (seeds : list Z) :
  collects dir (Wan.guarded e a fuel dir client_id seeds).
Proof.
  unfold Wan.guarded.
  apply collects_after; [apply appends_is_server_reachable|].
  intros reachable. apply collects_after.
  { destruct reachable; [apply appends_ret|].
    destruct (negb (Wan.port_forward a)); [apply appends_raise|].
    apply appends_port_forward. }
  intros _. apply collects_after.
  { destruct (Wan.skip_check a);
      [apply appends_ret | apply appends_preflight_check]. }
  intros _. apply collects_generate_all.
Qed.

(** X20: what a run of [main] that returns leaves on disk.  After creating
    the run directory it saves downloads and writes no text file while
    doing so.  When at least one download was saved, its last action is to
    write [index.html] in the run directory: the page for the prompt with
    one line per saved download, in the order they were saved (a path saved
    twice is listed twice), each line showing the last component of the
    path.  When nothing was saved (every reported file was skipped by the
    format filter, or the count is not positive) no index is written. *)
Theorem index_lists_saved_files (e : Wan.env) (a : Wan.args) (fuel : nat)
        (w w' : Wan.world) :
  Wan.main e a fuel w = (Return tt, w') ->
  exists evs files,
    Wan.trace w'
    = Wan.trace w
      ++ Wan.EvMkdir (run_dir_of e a) :: evs
      ++ match files with
         | [] => []
         | _ :: _ =>
             [Wan.EvWriteText (path_div (run_dir_of e a) "index.html")
                              (index_page (Wan.prompt a) files)]
         end /\
    saved_files evs = files /\
    written evs = [].
Proof.
  intros Hrun.
  assert (Hguard : passes_guard a).
  { unfold passes_guard. unfold Wan.main in Hrun.
    destruct (String.eqb (Wan.mode a) "video"
              && negb (Wan.include_webm a || Wan.include_webp a))%bool;
      [discriminate | reflexivity]. }
  destruct (main_reaches_try e a fuel w Hguard)
    as (seeds & cid & w0 & Hmain & Ht0 & _).
  rewrite Hmain in Hrun. unfold bind in Hrun.
  destruct (try_finally
              (Wan.guarded e a fuel (run_dir_of e a) cid seeds)
              (Wan.cleanup e) w0) as [[files|x|] w3] eqn:Htry;
    try discriminate.
  unfold try_finally in Htry.
  destruct (Wan.guarded e a fuel (run_dir_of e a) cid seeds w0)
    as [[fs|x|] w1] eqn:Hbody; try discriminate.
  - destruct (appends_cleanup e w1) as (evc & Htc & Hokc).
    destruct (Wan.cleanup e w1) as [[[]|x|] w2]; try discriminate.
    injection Htry as <- <-. cbn [snd] in Htc.
    destruct (collects_guarded e a fuel (run_dir_of e a) cid seeds
                w0 fs w1 Hbody) as (evs & Ht1 & Hs & Hw & Hdir).
    destruct (keeps_files_silent evc Hokc) as [Hsc Hwc].
    exists (evs ++ evc), fs.
    rewrite saved_files_app, written_app, Hs, Hw, Hsc, Hwc, app_nil_r.
    repeat split; auto.
    unfold finish in Hrun. destruct fs as [|p fs].
    + injection Hrun as <-. rewrite Htc, Ht1, Ht0, app_nil_r.
      rewrite <- !app_assoc. reflexivity.
    + unfold Wan.write_index in Hrun. cbv zeta in Hrun.
      destruct (Wan.write_error e (run_dir_of e a)
                  (path_div (run_dir_of e a) "index.html"));
        [discriminate|].
      unfold Wan.emit, modify in Hrun.
      injection Hrun as <-. cbn [Wan.trace]. rewrite Htc, Ht1, Ht0.
      rewrite <- !app_assoc. reflexivity.
  - destruct (Wan.cleanup e w1) as [[[]|y|] w2]; discriminate.
Qed.

Lemma index_lists_saved_files_witness :
  exists evs,
    Wan.trace (snd (Wan.main ready_env (default_args "a cat") 721
                             (Wan.initial 0)))
    = Wan.EvMkdir ["generated"; "20260101_000000"] :: evs
      ++ [Wan.EvWriteText
            ["generated"; "20260101_000000"; "index.html"]
            (index_page "a cat"
               (repeat ["generated"; "20260101_000000"; "a.webm"] 5))] /\
    saved_files evs = repeat ["generated"; "20260101_000000"; "a.webm"] 5.
Proof.
  destruct (index_lists_saved_files ready_env (default_args "a cat") 721
              (Wan.initial 0)
              (snd (Wan.main ready_env (default_args "a cat") 721
                             (Wan.initial 0))))
    as (evs & files & Ht & Hs & _).
  - vm_compute. reflexivity.
  - exists evs.
    assert (Hfiles : files = repeat ["generated"; "20260101_000000"; "a.webm"] 5).
    { rewrite <- Hs. clear Hs.
      assert (Hsaved : saved_files
                         (Wan.trace (snd (Wan.main ready_env
                                            (default_args "a cat") 721
                                            (Wan.initial 0))))
                       = repeat ["generated"; "20260101_000000"; "a.webm"] 5)
        by (vm_compute; reflexivity).
      rewrite Ht in Hsaved. cbn [Wan.trace Wan.initial app] in Hsaved.
      change (Wan.EvMkdir (run_dir_of ready_env (default_args "a cat"))
              :: evs ++ ?l)
        with ([Wan.EvMkdir (run_dir_of ready_env (default_args "a cat"))]
              ++ evs ++ l) in Hsaved.
      rewrite !saved_files_app in Hsaved.
      destruct files; cbn in Hsaved; rewrite ?app_nil_r in Hsaved;
        exact Hsaved. }
    rewrite Hfiles in Ht, Hs. split; [|exact Hs]. rewrite Ht. reflexivity.
Defined.

(** ** A job that reports no file *)

Lemma main_reaches_jobs (e : Wan.env) (a : Wan.args) (fuel : nat)
      (w : Wan.world) :
  passes_guard a ->
  exists seeds client_id w0,
    Wan.main e a fuel w
    = bind (try_finally
              (Wan.guarded e a fuel (run_dir_of e a) client_id seeds)
              (Wan.cleanup e))
           (finish e a) w0 /\
    List.length seeds = Z.to_nat (Wan.count a) /\
    Wan.trace w0 = Wan.trace w ++ [Wan.EvMkdir (run_dir_of e a)] /\
    Wan.net_calls w0 = Wan.net_calls w /\
    Wan.now w0 = Wan.now w /\
    Wan.port_forward_proc w0 = false.
Proof.
  intros Hguard. unfold Wan.main. unfold passes_guard in Hguard.
  rewrite Hguard. cbv zeta. fold (run_dir_of e a).
  unfold bind at 1. unfold Wan.emit at 1, modify at 1. unfold bind at 1.
  match goal with
  | |- context [Wan.make_seeds e ?b (seq 0 ?m) ?w1] =>
      destruct (make_seeds_run e b m 0 w1)
        as (seeds & w2 & Hseeds & Hlen & Ht & Hn & Hc & _ & _ & _)
  end.
  rewrite Hseeds. cbn [Wan.trace Wan.net_calls Wan.now] in Ht, Hn, Hc.
  unfold bind at 1. unfold Wan.randrange at 1.
  replace (Z.leb 1000000 0) with false by reflexivity.
  unfold bind at 1. unfold Wan.set_port_forward_proc at 1, modify at 1.
  eexists seeds, _, _. split; [reflexivity|].
  cbn [Wan.trace Wan.net_calls Wan.now Wan.port_forward_proc]. auto.
Qed.

(** The first job of a run that finds the server reachable: the prompt is
    queued with call [first_job_call], and the first poll returns the
    entry. *)
Lemma first_job_returns (e : Wan.env) (a : Wan.args) (fuel : nat)
      (client_id : string) (idx : nat) (seed : Z) (w : Wan.world)
      (resp hist : dict) (pid : string) (entry : json) :
  1 <= fuel ->
  Wan.reply_of e (Wan.net_calls w) = Wan.Body resp ->
  dict_get resp "error" = None ->
  dict_get resp "prompt_id" = Some (JStr pid) ->
  Wan.reply_of e (S (Wan.net_calls w)) = Wan.Body hist ->
  dict_get hist pid = Some entry ->
  succeeded_entry entry ->
  Wan.run_job e a fuel client_id idx seed w
  = (Return entry,
     after_call e (Wan.EvRequest (Wan.comfy_url a) (Wan.History (JStr pid))
                                 None)
       (after_call e
          (Wan.EvRequest (Wan.comfy_url a) Wan.Prompt
             (Some (queue_request (payload_of a idx seed) client_id))) w)).
Proof.
  intros Hfuel Hresp Herr Hpid Hhist Hget Hok.
  destruct fuel as [|fuel]; [lia|].
  unfold Wan.run_job. unfold bind at 1. rewrite build_prompt_returns.
  unfold bind at 1. rewrite submit_prompt_eq, Hresp, Herr, Hpid.
  unfold Wan.wait_for_prompt. unfold bind at 1, Wan.time_time at 1.
  rewrite wait_loop_step.
  assert (Hsec : (0 < Wan.seconds e 3600)%Z) by (unfold Wan.seconds; lia).
  match goal with
  | |- context [Z.ltb ?t (?t + ?d)] =>
      replace (Z.ltb t (t + d)) with true by (symmetry; apply Z.ltb_lt; lia)
  end.
  cbv zeta. cbn [Wan.net_calls after_call]. rewrite Hhist.
  unfold poll_result, Wan.dict_contains, Wan.dict_item_at, dict_mem,
    dict_item. rewrite Hget. cbn [obind].
  rewrite (succeeded_entry_completes entry Hok). reflexivity.
Qed.

Lemma job_without_files_stops (e : Wan.env) (a : Wan.args) (fuel : nat)
      (run_dir : path) (client_id : string) (idx : nat) (seed : Z)
      (rest : list (nat * Z)) (w : Wan.world) (entry : json)
      (w1 : Wan.world) :
  Wan.run_job e a fuel client_id idx seed w = (Return entry, w1) ->
  Wan.extract_files entry = Return [] ->
  Wan.generate_all e a fuel run_dir client_id ((idx, seed) :: rest) w
  = (Raise no_files_error, w1).
Proof.
  intros Hjob H.
  cbn [Wan.generate_all]. unfold bind at 1. unfold Wan.generate_one.
  unfold bind at 1. rewrite Hjob. unfold Wan.save_outputs, bind, lift.
  rewrite H. reflexivity.
Qed.

(** C4: extraction over an entry without outputs, or whose outputs hold no
    item with a filename, is the empty list; the save step then raises the
    "no output files" error with the state untouched, and the job loop
    stops there.  For the run: when the server is reachable, the preflight
    check is skipped or passes, the first prompt is accepted and the first
    poll shows the job completed with an entry from which no file is
    extracted, [main] raises that error, after the history request and
    without saving or writing anything; and a run of [main] that returns
    has had at least one file extracted in every one of its [count]
    rounds. *)
Theorem empty_extraction_fails :
  (forall d,
     match dict_get d "outputs" with
     | None => True
     | Some o => truthy o = false
     end ->
     Wan.extract_files (JDict d) = Return [])
  /\
  (forall d outputs,
     dict_get d "outputs" = Some (JDict outputs) ->
     Forall nameless_output (dict_values outputs) ->
     Wan.extract_files (JDict d) = Return [])
  /\
  (forall e a run_dir entry w,
     Wan.extract_files entry = Return [] ->
     Wan.save_outputs e a run_dir entry w = (Raise no_files_error, w))
  /\
  (forall e a fuel run_dir client_id idx seed rest w entry w1,
     Wan.run_job e a fuel client_id idx seed w = (Return entry, w1) ->
     Wan.extract_files entry = Return [] ->
     Wan.generate_all e a fuel run_dir client_id ((idx, seed) :: rest) w
     = (Raise no_files_error, w1))
  /\
  (forall e a fuel w resp hist pid entry,
     passes_guard a -> (1 <= Wan.count a)%Z -> 1 <= fuel ->
     answered (Wan.reply_of e (Wan.net_calls w)) = true ->
     (Wan.skip_check a = false ->
      models_listed (Wan.reply_of e (S (Wan.net_calls w)))) ->
     Wan.reply_of e (first_job_call a (Wan.net_calls w)) = Wan.Body resp ->
     dict_get resp "error" = None ->
     dict_get resp "prompt_id" = Some (JStr pid) ->
     Wan.reply_of e (S (first_job_call a (Wan.net_calls w)))
     = Wan.Body hist ->
     dict_get hist pid = Some entry ->
     succeeded_entry entry ->
     Wan.extract_files entry = Return [] ->
     exists w',
       Wan.main e a fuel w = (Raise no_files_error, w') /\
       Wan.net_calls w' = S (S (first_job_call a (Wan.net_calls w))) /\
       saved_files (Wan.trace w') = saved_files (Wan.trace w) /\
       written (Wan.trace w') = written (Wan.trace w))
  /\
  (forall e a fuel w w',
     Wan.main e a fuel w = (Return tt, w') ->
     exists client_id seeds w1,
       List.length seeds = Z.to_nat (Wan.count a) /\
       all_jobs_saved e a fuel (run_dir_of e a) client_id
                      (Wan.enumerate1 seeds) w1).
Proof.
  repeat apply conj.
  - intros d H. unfold Wan.extract_files, py_get, py_get_default.
    cbn [obind]. destruct (dict_get d "outputs") as [o|].
    + unfold py_or. rewrite H. reflexivity.
    + reflexivity.
  - intros d outputs Hd Hall. unfold Wan.extract_files, py_get, py_get_default.
    cbn [obind]. rewrite Hd. unfold py_or.
    destruct (truthy (JDict outputs)); [|reflexivity].
    now apply outputs_files_nameless.
  - intros e a run_dir entry w H. unfold Wan.save_outputs, bind, lift.
    rewrite H. reflexivity.
  - intros e a fuel run_dir client_id idx seed rest w entry w1 Hjob H.
    now apply job_without_files_stops with (entry := entry).
  - intros e a fuel w resp hist pid entry Hguard Hcount Hfuel Hup Hmodels
      Hresp Herr Hpid Hhist Hget Hok Hnone.
    destruct (main_reaches_jobs e a fuel w Hguard)
      as (seeds & cid & w0 & Hmain & Hlen & Ht & Hn & _ & Hp).
    destruct seeds as [|seed seeds]; [cbn in Hlen; lia|].
    set (w1 := after_call e (Wan.EvRequest (Wan.comfy_url a) Wan.Queue None)
                 w0).
    set (w2 := if Wan.skip_check a then w1
               else after_call e
                      (Wan.EvRequest (Wan.comfy_url a) Wan.ObjectInfo None)
                      w1).
    assert (Hn2 : Wan.net_calls w2 = first_job_call a (Wan.net_calls w)).
    { subst w2 w1. unfold first_job_call.
      destruct (Wan.skip_check a); cbn [Wan.net_calls after_call]; lia. }
    assert (Hp2 : Wan.port_forward_proc w2 = false).
    { subst w2 w1. destruct (Wan.skip_check a); exact Hp. }
    assert (Ht2 : exists evs, Wan.trace w2 = Wan.trace w ++ evs /\
                              Forall keeps_files evs).
    { subst w2 w1. destruct (Wan.skip_check a);
        cbn [Wan.trace after_call]; rewrite Ht, <- ?app_assoc;
        eexists; (split; [reflexivity | now repeat constructor]). }
    assert (Hcheck : (if Wan.skip_check a then ret tt
                      else Wan.preflight_check e (Wan.comfy_url a)
                             Wan.unet_name Wan.clip_name Wan.vae_name) w1
                     = (Return tt, w2)).
    { subst w2. destruct (Wan.skip_check a) eqn:Hskip; [reflexivity|].
      destruct (Hmodels eq_refl)
        as (info & unets & clips & vaes & Hinfo & Hu & Hc & Hv & Hmiss).
      rewrite (preflight_check_eq e _ _ _ _ w1 info unets clips vaes);
        [now rewrite Hmiss | | exact Hu | exact Hc | exact Hv].
      subst w1. cbn [Wan.net_calls after_call]. now rewrite Hn. }
    pose proof (first_job_returns e a fuel cid 1 seed w2 resp hist pid entry
                  Hfuel) as Hjob.
    rewrite Hn2 in Hjob. specialize (Hjob Hresp Herr Hpid Hhist Hget Hok).
    set (w4 := after_call e
                 (Wan.EvRequest (Wan.comfy_url a) (Wan.History (JStr pid))
                                None)
                 (after_call e
                    (Wan.EvRequest (Wan.comfy_url a) Wan.Prompt
                       (Some (queue_request (payload_of a 1 seed) cid))) w2))
      in *.
    exists w4. split; [|split; [|split]].
    + rewrite Hmain. unfold bind at 1, try_finally, Wan.guarded.
      unfold bind at 1. rewrite is_server_reachable_eq, Hn.
      destruct (Wan.reply_of e (Wan.net_calls w)) as [body|];
        [|discriminate].
      fold w1. unfold bind at 1. unfold ret at 1.
      unfold bind at 1. rewrite Hcheck.
      unfold Wan.enumerate1. cbn [List.length seq combine].
      rewrite (job_without_files_stops e a fuel (run_dir_of e a) cid 1 seed
                 _ w2 entry w4 Hjob Hnone).
      rewrite cleanup_without_child by (subst w4; exact Hp2).
      reflexivity.
    + subst w4. cbn [Wan.net_calls after_call]. now rewrite Hn2.
    + destruct Ht2 as (evs & Hevs & Hok2). subst w4.
      cbn [Wan.trace after_call]. rewrite Hevs, <- !app_assoc.
      rewrite !saved_files_app.
      rewrite (proj1 (keeps_files_silent evs Hok2)). cbn.
      now rewrite app_nil_r.
    + destruct Ht2 as (evs & Hevs & Hok2). subst w4.
      cbn [Wan.trace after_call]. rewrite Hevs, <- !app_assoc.
      rewrite !written_app.
      rewrite (proj2 (keeps_files_silent evs Hok2)). cbn.
      now rewrite app_nil_r.
  - intros e a fuel w w' Hrun.
    assert (Hguard : passes_guard a).
    { unfold passes_guard. unfold Wan.main in Hrun.
      destruct (String.eqb (Wan.mode a) "video"
                && negb (Wan.include_webm a || Wan.include_webp a))%bool;
        [discriminate | reflexivity]. }
    destruct (main_reaches_jobs e a fuel w Hguard)
      as (seeds & cid & w0 & Hmain & Hlen & _).
    rewrite Hmain in Hrun. unfold bind at 1 in Hrun.
    destruct (try_finally
                (Wan.guarded e a fuel (run_dir_of e a) cid seeds)
                (Wan.cleanup e) w0) as [[files|x|] w3] eqn:Htry;
      try discriminate.
    apply try_finally_returns in Htry as (w4 & Hg).
    apply guarded_returns in Hg as (w5 & Hall).
    exists cid, seeds, w5. split; [exact Hlen|].
    eapply generate_all_returns. exact Hall.
Qed.

Lemma empty_extraction_fails_witness :
  let entry := JDict [("status", JDict [("status_str", JStr "success");
                                        ("completed", JBool true)]);
                      ("outputs", JDict [])] in
  let e := constant_env
             (Wan.Body (object_info [Wan.unet_name] [Wan.clip_name]
                                    [Wan.vae_name]
                        ++ [("prompt_id", JStr "p"); ("p", entry)])) in
  Wan.extract_files entry = Return [] /\
  exists w',
    Wan.main e (default_args "a cat") 1 (Wan.initial 0)
    = (Raise no_files_error, w') /\
    Wan.net_calls w' = 4 /\
    saved_files (Wan.trace w') = [] /\
    written (Wan.trace w') = [].
Proof.
  intros entry e.
  destruct empty_extraction_fails as (_ & Hnone & _ & _ & Hmain & _).
  assert (Hex : Wan.extract_files entry = Return []).
  { apply (Hnone _ []); [reflexivity | constructor]. }
  split; [exact Hex|].
  apply (Hmain e (default_args "a cat") 1 (Wan.initial 0)
           (object_info [Wan.unet_name] [Wan.clip_name] [Wan.vae_name]
            ++ [("prompt_id", JStr "p"); ("p", entry)])
           (object_info [Wan.unet_name] [Wan.clip_name] [Wan.vae_name]
            ++ [("prompt_id", JStr "p"); ("p", entry)])
           "p" entry).
  - reflexivity.
  - cbn. lia.
  - lia.
  - reflexivity.
  - intros _. eexists _, _, _, _. repeat split; reflexivity.
  - reflexivity.
  - reflexivity.
  - reflexivity.
  - reflexivity.
  - reflexivity.
  - exists [("status", JDict [("status_str", JStr "success");
                              ("completed", JBool true)]);
            ("outputs", JDict [])],
           [("status_str", JStr "success"); ("completed", JBool true)],
           (JBool true).
    repeat split.
  - exact Hex.
Defined.

(** ** Destinations that cannot be written and sleeps that are refused *)

(** X21: a reported file name that names no entry, such as the empty name
    or ["."], makes [dest_dir / filename] the run directory itself.  The
    server is asked for the file, and when it answers the download fails
    with [IsADirectoryError]: one request is made and nothing is saved. *)
Theorem download_into_directory_fails
        (e : Wan.env) (base_url : string) (file_info : json) (dir : path)
        (name : string) (w : Wan.world) :
  file_name_of file_info = Some name ->
  anchor name = [] -> path_parts name = [] ->
  answered (Wan.reply_of e (Wan.net_calls w)) = true ->
  exists w',
    Wan.download_file e base_url file_info dir w
    = (Raise IsADirectoryError, w') /\
    Wan.net_calls w' = S (Wan.net_calls w) /\
    saved_files (Wan.trace w') = saved_files (Wan.trace w).
Proof.
  intros Hname Hanchor Hparts Hup.
  destruct file_info as [| | | | | |d]; try discriminate.
  cbn [file_name_of] in Hname.
  destruct (dict_get d "filename") as [[| | | |name'| |]|] eqn:Hd;
    try discriminate.
  injection Hname as ->.
  unfold Wan.download_file, py_item, dict_item, py_get_default.
  rewrite Hd. unfold Wan.urlretrieve, Wan.net_call.
  unfold bind, lift, Wan.emit, modify, ret. cbn [Wan.net_calls Wan.trace].
  destruct (Wan.reply_of e (Wan.net_calls w)) as [body|]; [|discriminate].
  unfold path_div, Wan.write_error. rewrite Hanchor, Hparts, app_nil_r.
  rewrite (proj2 (path_eqb_eq dir dir) eq_refl). cbn [orb]. unfold raise.
  eexists. split; [reflexivity|]. cbn [Wan.net_calls Wan.trace].
  split; [reflexivity|].
  rewrite !saved_files_app. cbn. now rewrite !app_nil_r.
Qed.

Lemma download_into_directory_fails_witness :
  fst (Wan.download_file (constant_env (Wan.Body [])) "http://127.0.0.1:8181"
         (JDict [("filename", JStr "")]) ["generated"] (Wan.initial 0))
  = Raise IsADirectoryError.
Proof.
  destruct (download_into_directory_fails (constant_env (Wan.Body []))
              "http://127.0.0.1:8181" (JDict [("filename", JStr "")])
              ["generated"] "" (Wan.initial 0))
    as (w' & Hrun & _).
  - reflexivity.
  - reflexivity.
  - reflexivity.
  - reflexivity.
  - now rewrite Hrun.
Defined.

(** X22: a delay that [time.sleep] refuses stops the batch after its first
    image.  With a count of at least 2, a positive delay that is refused
    (not a number of nanoseconds the clock can hold, as for an infinite
    delay or one of 10^10 seconds), a first response that is accepted and a
    first file that can be written, the run raises the error of the sleep:
    one POST has been sent, the first file is written, and the second
    request is never made. *)
Theorem batch_refused_delay_stops
        (server : nat -> Batch.post_result) (disk : path -> option exn)
        (timer : float -> option exn) (prompt : string) (steps : Z)
        (url : string) (out_dir : path) (prefix : string) (count : Z)
        (delay : float) (x : exn) :
  lacks "/"%char prefix = true ->
  (2 <= count)%Z ->
  PrimFloat.ltb 0 delay = true ->
  Batch.sleep_error timer delay = Some x ->
  Batch.accepted (server 0) = true ->
  disk (out_dir ++ [Batch.file_name prefix 1]) = None ->
  Batch.generate server disk timer prompt steps url out_dir prefix count delay
                 Batch.initial
  = (Raise x,
     {| Batch.posts := 1;
        Batch.trace :=
          [Batch.EvMkdir out_dir;
           Batch.EvPost url (Batch.payload prompt steps);
           Batch.EvWrite (out_dir ++ [Batch.file_name prefix 1])
                         (Batch.body_of server 0)] |}).
Proof.
  intros Hplain Hcount Hpos Hrefused Hok Hdisk.
  unfold Batch.generate, bind at 1, Batch.emit at 1, modify at 1.
  destruct (Z.to_nat count) as [|n] eqn:Hn; [lia|].
  cbn [seq Batch.generate_loop].
  unfold bind at 1. unfold Batch.session_post at 1.
  cbn [Batch.posts Batch.trace Batch.initial app].
  unfold Batch.body_of.
  destruct (server 0) as [r|]; cbn in Hok; [|discriminate].
  apply negb_true_iff in Hok.
  unfold bind at 1. unfold Batch.raise_for_status. rewrite Hok.
  unfold ret at 1. unfold bind at 1.
  rewrite (batch_write disk out_dir prefix Hplain) by exact Hdisk.
  rewrite (batch_target out_dir prefix Hplain).
  unfold Batch.emit at 1, modify at 1. unfold bind at 1.
  rewrite Hpos.
  replace (Z.eqb (Z.of_nat 1) count) with false
    by (symmetry; apply Z.eqb_neq; lia).
  cbn [andb negb]. unfold Batch.time_sleep. rewrite Hrefused.
  reflexivity.
Qed.

Lemma batch_refused_delay_stops_witness :
  let server := fun _ : nat =>
    Batch.Responded {| Batch.status_code := 200; Batch.content := "png" |} in
  Batch.generate server (fun _ => None) (fun _ => None) "cat" 30
                 "http://api/generate" ["out"] "p" 3 infinity Batch.initial
  = (Raise OverflowError,
     {| Batch.posts := 1;
        Batch.trace :=
          [Batch.EvMkdir ["out"];
           Batch.EvPost "http://api/generate" (Batch.payload "cat" 30);
           Batch.EvWrite ["out"; "p_01.png"] "png"] |}).
Proof.
  intros server.
  apply (batch_refused_delay_stops server (fun _ => None) (fun _ => None)
           "cat" 30 "http://api/generate" ["out"] "p" 3 infinity
           OverflowError); try reflexivity.
  lia.
Defined.
